(** * Paid voting platform: the payment-to-vote reconciliation core

    A shallow embedding of the Express/Supabase back end of the repository:

    - [src/unnamed/part_000]   the Stripe configuration module: the currency
                               helpers [toMinorCurrencyUnit] and
                               [fromMinorCurrencyUnit], the supported
                               currencies, the amount of an intent and of a
                               refund
    - [src/unnamed/part_001]   the payments router: Stripe create-intent,
                               Paystack initialize, verify, history and cancel
    - [src/unnamed/part_002]   the events router: create, update, activate,
                               end and delete
    - [src/routes/upload.js]   lines 382-621 the Stripe webhook router,
                               lines 622-862 the Paystack webhook router
    - [src/routes/votes.js]    lines 1-596 the votes router (POST /votes,
                               GET /can-vote), lines 596-995 the auth router
                               (POST /request-organizer), lines 1392-2038 the
                               admin router (PUT /settings, PUT and DELETE
                               /users, force-end, processing a withdrawal)
    - [src/routes/organizer.js] dashboard, earnings, withdrawal-info, POST and
                               DELETE /withdrawals
    - [src/client/src/config/supabase.js] the middleware ([authenticateToken],
                               [requireRole], [requireApprovedOrganizer],
                               [requireOwnership]) and the contestants router
                               (create, update, delete)
    - [src/database/schema.sql] tables, enum types, the UNIQUE constraint on
                               [votes.payment_id], the check constraints of
                               [events], the cascades and the vote-count
                               trigger

    Conventions of the embedding.

    - A JavaScript number is an exact rational ([Q]); module [Double] redoes
      the fee computation on IEEE binary64 values where the difference
      matters.
    - A [DECIMAL(10,2)] column holds an integer number of hundredths, a
      [DECIMAL(5,4)] column an integer number of ten-thousandths; PostgreSQL
      rounds a value written to such a column half away from zero.
    - Identifiers (UUIDs, provider references) are strings; timestamps are
      milliseconds since the epoch.
    - Every [await supabase...] is one atomic statement of the store.  A
      handler is a program ([Prog]) over such statements: run to completion
      by [exec], or one statement at a time under a scheduler ([run]).
    - A statement fails only for a reason the schema gives (a primary key,
      the UNIQUE constraint, an enum label, [.single()] not finding exactly
      one row); the network between the server and the store does not fail.
      The answers of the two payment providers are inputs of a request
      ([Env]).
    - Free-form [metadata] / [payment_details] JSON and the [created_at] /
      [updated_at] stamps are left out: no handler reads them back to take a
      decision.  Foreign keys are not checked: the rows a handler writes
      reference parents it has just read.  (The routes in store-passing
      style, further down, do carry the check constraints of [events], the
      foreign key of a new contestant and the cascades of a delete.)  The
      digit limits of the numeric
      and integer columns are not modelled either, nor is the format check
      of UUIDs in the request validators. *)

From Stdlib Require Import ZArith QArith Qround Lia Lqa List String Ascii Bool.
From Stdlib Require Import Floats.
Import ListNotations.

Set Implicit Arguments.
Set Warnings "-inexact-float".

(** ** JavaScript primitives *)

Module JS.

Open Scope Q_scope.

(** [Math.round]: the nearest integer, a tie going towards +infinity. *)
Definition Math_round (x : Q) : Z := Qfloor (x + (1 # 2)).

(** Rounding half away from zero, the rule the specification names and the
    one PostgreSQL applies to [numeric] values. *)
Definition round_half_away (x : Q) : Z :=
  if Qle_bool 0 x then Qfloor (x + (1 # 2)) else Qceiling (x - (1 # 2)).

(** Two-decimal rounding of a major-unit amount. *)
Definition round2 (x : Q) : Q := inject_Z (round_half_away (x * 100)) / 100.

Definition lower_ascii (c : ascii) : ascii :=
  let n := nat_of_ascii c in
  if (65 <=? n)%nat && (n <=? 90)%nat then ascii_of_nat (n + 32) else c.

(** [String.prototype.toLowerCase] on the ASCII range. *)
Fixpoint toLowerCase (s : string) : string :=
  match s with
  | EmptyString => EmptyString
  | String c s' => String (lower_ascii c) (toLowerCase s')
  end.

(** [Array.prototype.includes] on an array of strings. *)
Definition includes (l : list string) (s : string) : bool :=
  existsb (String.eqb s) l.

End JS.

(** ** src/unnamed/part_000, lines 129-149: minor currency units *)

Module Currency.
Import JS.
Open Scope Q_scope.
Open Scope string_scope.

Definition zeroDecimalCurrencies : list string := ["jpy"; "krw"; "clp"; "vnd"].

Definition toMinorCurrencyUnit (amount : Q) (currency : string) : Q :=
  if includes zeroDecimalCurrencies (toLowerCase currency)
  then inject_Z (Math_round amount)
  else inject_Z (Math_round (amount * 100)).

Definition fromMinorCurrencyUnit (amount : Q) (currency : string) : Q :=
  if includes zeroDecimalCurrencies (toLowerCase currency)
  then amount
  else amount / 100.

(** The factor between major and minor units of a currency. *)
Definition minor_scale (currency : string) : Q :=
  if includes zeroDecimalCurrencies (toLowerCase currency) then 1 else 100.


End Currency.

(** ** Commission split (src/unnamed/part_001, lines 120-121 and 281-282) *)

Module Commission.
Open Scope Q_scope.

Definition platformFee (amount commission_rate : Q) : Q :=
  amount * commission_rate.

Definition organizerEarnings (amount commission_rate : Q) : Q :=
  amount - platformFee amount commission_rate.

(** The fee split as the specification words it. *)
Definition split_as_specified (a r : Q) : Prop :=
  platformFee a r == JS.round2 (a * r)
  /\ organizerEarnings a r == a - platformFee a r
  /\ platformFee a r + organizerEarnings a r == a.

End Commission.

(** The same two lines on IEEE binary64 values, which is what the runtime
  computes. *)
Module Double.
Open Scope float_scope.

Definition platformFee (amount commission_rate : float) : float :=
  amount * commission_rate.

Definition organizerEarnings (amount commission_rate : float) : float :=
  amount - platformFee amount commission_rate.

End Double.

(** ** src/database/schema.sql: types and tables *)

Module Schema.
Open Scope string_scope.

Definition uuid := string.
Definition timestamp := Z.

(** [DECIMAL(10,2)]: the value is [n / 100]. *)
Definition numeric_10_2 := Z.
(** [DECIMAL(5,4)]: the value is [n / 10000]. *)
Definition numeric_5_4 := Z.

Definition number_of_10_2 (n : numeric_10_2) : Q := n # 100.
Definition number_of_5_4 (n : numeric_5_4) : Q := n # 10000.

(** Assignment of a number to a [DECIMAL(10,2)] column: rounded to two
    decimals, half away from zero. *)
Definition numeric_10_2_in (x : Q) : numeric_10_2 :=
  JS.round_half_away (x * 100).

Definition numeric_5_4_in (x : Q) : numeric_5_4 :=
  JS.round_half_away (x * 10000).

(** [CREATE TYPE event_status AS ENUM ('draft', 'active', 'ended')] *)
Inductive event_status : Type := draft | active | ended.

(** [CREATE TYPE payment_status AS ENUM
      ('pending', 'completed', 'failed', 'refunded')] *)
Inductive payment_status : Type := pending | completed | failed | refunded.

(** [CREATE TYPE payment_method AS ENUM ('stripe', 'paystack')] *)
Inductive payment_method : Type := stripe | paystack.

Definition event_status_out (s : event_status) : string :=
  match s with draft => "draft" | active => "active" | ended => "ended" end.

Definition payment_status_out (s : payment_status) : string :=
  match s with
  | pending => "pending"
  | completed => "completed"
  | failed => "failed"
  | refunded => "refunded"
  end.

(** The enum input function: a label that is not one of the type's is
    refused ("invalid input value for enum payment_status"). *)
Definition payment_status_in (s : string) : option payment_status :=
  if s =? "pending" then Some pending
  else if s =? "completed" then Some completed
  else if s =? "failed" then Some failed
  else if s =? "refunded" then Some refunded
  else None.

Definition payment_method_out (m : payment_method) : string :=
  match m with stripe => "stripe" | paystack => "paystack" end.

Definition payment_method_in (s : string) : option payment_method :=
  if s =? "stripe" then Some stripe
  else if s =? "paystack" then Some paystack
  else None.

Record Event : Type := {
  ev_id : uuid;
  ev_organizer_id : uuid;
  ev_title : string;
  ev_vote_price : numeric_10_2;
  ev_start_date : timestamp;
  ev_end_date : timestamp;
  ev_status : event_status;
  ev_total_votes : Z;
  ev_total_revenue : numeric_10_2
}.

Record Category : Type := {
  cat_id : uuid;
  cat_event_id : uuid
}.

Record Contestant : Type := {
  ct_id : uuid;
  ct_category_id : uuid;
  ct_name : string;
  ct_vote_count : Z
}.

(** The primary key of a vote is generated by the store and never read by
    the handlers below; a vote is identified by its [payment_id]. *)
Record Vote : Type := {
  v_voter_id : uuid;
  v_contestant_id : uuid;
  v_event_id : uuid;
  v_payment_id : uuid;
  v_amount : numeric_10_2
}.

Record Payment : Type := {
  p_id : uuid;
  p_voter_id : uuid;
  p_event_id : uuid;
  p_contestant_id : uuid;
  p_amount : numeric_10_2;
  p_platform_fee : numeric_10_2;
  p_organizer_earnings : numeric_10_2;
  p_payment_method : payment_method;
  p_payment_provider_id : option string;
  p_payment_intent_id : option string;
  p_status : payment_status
}.

Record Settings : Type := {
  commission_rate : numeric_5_4;
  stripe_enabled : bool;
  paystack_enabled : bool
}.

(** [withdrawals.status] is a [VARCHAR(50)], not an enum. *)
Record Withdrawal : Type := {
  w_id : uuid;
  w_organizer_id : uuid;
  w_amount : numeric_10_2;
  w_status : string
}.

Record DB : Type := {
  events : list Event;
  categories : list Category;
  contestants : list Contestant;
  votes : list Vote;
  payments : list Payment;
  platform_settings : list Settings;
  withdrawals : list Withdrawal
}.

Definition with_events (db : DB) (l : list Event) : DB :=
  {| events := l; categories := categories db; contestants := contestants db;
     votes := votes db; payments := payments db;
     platform_settings := platform_settings db; withdrawals := withdrawals db |}.

Definition with_contestants (db : DB) (l : list Contestant) : DB :=
  {| events := events db; categories := categories db; contestants := l;
     votes := votes db; payments := payments db;
     platform_settings := platform_settings db; withdrawals := withdrawals db |}.

Definition with_votes (db : DB) (l : list Vote) : DB :=
  {| events := events db; categories := categories db;
     contestants := contestants db; votes := l; payments := payments db;
     platform_settings := platform_settings db; withdrawals := withdrawals db |}.

Definition with_payments (db : DB) (l : list Payment) : DB :=
  {| events := events db; categories := categories db;
     contestants := contestants db; votes := votes db; payments := l;
     platform_settings := platform_settings db; withdrawals := withdrawals db |}.

Definition with_platform_settings (db : DB) (l : list Settings) : DB :=
  {| events := events db; categories := categories db;
     contestants := contestants db; votes := votes db; payments := payments db;
     platform_settings := l; withdrawals := withdrawals db |}.

Definition with_withdrawals (db : DB) (l : list Withdrawal) : DB :=
  {| events := events db; categories := categories db;
     contestants := contestants db; votes := votes db; payments := payments db;
     platform_settings := platform_settings db; withdrawals := l |}.

End Schema.

(** ** The store: one statement at a time *)

Module Store.
Import Schema.
Open Scope string_scope.

(** What supabase-js hands back as [{ data, error }]. *)
Inductive Result (A : Type) : Type :=
| Data (data : A)
| Error (message : string).
Arguments Data {A} data.
Arguments Error {A} message.

(** [.single()]: exactly one row, or an error. *)
Definition single {A : Type} (rows : list A) : Result A :=
  match rows with
  | [row] => Data row
  | _ => Error "JSON object requested, multiple (or no) rows returned"
  end.

(** The embedded resources of
    [contestants.select('..., category:categories!category_id(...,
       event:events!event_id(...))')]. *)
Record CategoryJoin : Type := {
  cgj_id : uuid;
  cgj_event : option Event
}.

Record ContestantJoin : Type := {
  cj_id : uuid;
  cj_name : string;
  cj_category : option CategoryJoin
}.

(** Payload of [payments.insert({...})], as the handler builds it. *)
Record PaymentInsert : Type := {
  pi_id : uuid;
  pi_voter_id : uuid;
  pi_event_id : uuid;
  pi_contestant_id : uuid;
  pi_amount : Q;
  pi_platform_fee : Q;
  pi_organizer_earnings : Q;
  pi_payment_method : string;
  pi_status : string
}.

(** Payload of [payments.update({...})]: the columns that are set. *)
Record PaymentPatch : Type := {
  set_status : option string;
  set_payment_provider_id : option string;
  set_payment_intent_id : option string
}.

Record VoteInsert : Type := {
  vi_voter_id : uuid;
  vi_contestant_id : uuid;
  vi_event_id : uuid;
  vi_payment_id : uuid;
  vi_amount : Q
}.

Record WithdrawalInsert : Type := {
  wi_id : uuid;
  wi_organizer_id : uuid;
  wi_amount : Q;
  wi_status : string
}.

(** A statement and the type of what it returns. *)
Inductive Stmt : Type -> Type :=
| SelectContestantEvent (contestant_id : uuid) : Stmt (list ContestantJoin)
| SelectEvents (where_ : Event -> bool) : Stmt (list Event)
| SelectSettings : Stmt (list Settings)
| UpdateSettings (rate : Q) : Stmt (option string)
| SelectPayments (where_ : Payment -> bool) : Stmt (list Payment)
| InsertPayment (row : PaymentInsert) : Stmt (Result Payment)
| UpdatePayments (where_ : Payment -> bool) (set : PaymentPatch)
    : Stmt (option string)
| SelectVotes (where_ : Vote -> bool) : Stmt (list Vote)
| InsertVote (row : VoteInsert) : Stmt (Result Vote)
| SelectWithdrawals (where_ : Withdrawal -> bool) : Stmt (list Withdrawal)
| InsertWithdrawal (row : WithdrawalInsert) : Stmt (Result Withdrawal)
| UpdateWithdrawals (where_ : Withdrawal -> bool) (status : string)
    : Stmt (option string).

Definition join_category (db : DB) (category_id : uuid) : option CategoryJoin :=
  match find (fun c => cat_id c =? category_id) (categories db) with
  | Some c =>
      Some {| cgj_id := cat_id c;
              cgj_event := find (fun e => ev_id e =? cat_event_id c) (events db) |}
  | None => None
  end.

Definition join_contestant (db : DB) (c : Contestant) : ContestantJoin :=
  {| cj_id := ct_id c; cj_name := ct_name c;
     cj_category := join_category db (ct_category_id c) |}.

Definition apply_patch (set : PaymentPatch) (status : option payment_status)
    (p : Payment) : Payment :=
  {| p_id := p_id p; p_voter_id := p_voter_id p; p_event_id := p_event_id p;
     p_contestant_id := p_contestant_id p; p_amount := p_amount p;
     p_platform_fee := p_platform_fee p;
     p_organizer_earnings := p_organizer_earnings p;
     p_payment_method := p_payment_method p;
     p_payment_provider_id :=
       match set_payment_provider_id set with
       | Some x => Some x
       | None => p_payment_provider_id p
       end;
     p_payment_intent_id :=
       match set_payment_intent_id set with
       | Some x => Some x
       | None => p_payment_intent_id p
       end;
     p_status := match status with Some s => s | None => p_status p end |}.

(** [.eq('payment_intent_id', value)]: a row whose column is null does not
    match. *)
Definition eq_payment_intent_id (value : string) (p : Payment) : bool :=
  match p_payment_intent_id p with
  | Some i => i =? value
  | None => false
  end.

(** [UPDATE payments SET ... WHERE ...]: the status label goes through the
    enum input function first; a label outside the enum fails the statement
    and leaves every row as it was. *)
Definition update_payments (where_ : Payment -> bool) (set : PaymentPatch)
    (db : DB) : option string * DB :=
  let upd status :=
    with_payments db
      (map (fun p => if where_ p then apply_patch set status p else p)
           (payments db)) in
  match set_status set with
  | None => (None, upd None)
  | Some label =>
      match payment_status_in label with
      | Some s => (None, upd (Some s))
      | None =>
          (Some "invalid input value for enum payment_status", db)
      end
  end.

(** [INSERT INTO payments]: [id] is the primary key. *)
Definition insert_payment (row : PaymentInsert) (db : DB)
    : Result Payment * DB :=
  if existsb (fun p => p_id p =? pi_id row) (payments db)
  then (Error "duplicate key value violates unique constraint payments_pkey", db)
  else
    match payment_method_in (pi_payment_method row),
          payment_status_in (pi_status row) with
    | Some m, Some s =>
        let p := {| p_id := pi_id row; p_voter_id := pi_voter_id row;
                    p_event_id := pi_event_id row;
                    p_contestant_id := pi_contestant_id row;
                    p_amount := numeric_10_2_in (pi_amount row);
                    p_platform_fee := numeric_10_2_in (pi_platform_fee row);
                    p_organizer_earnings :=
                      numeric_10_2_in (pi_organizer_earnings row);
                    p_payment_method := m;
                    p_payment_provider_id := None;
                    p_payment_intent_id := None;
                    p_status := s |} in
        (Data p, with_payments db (payments db ++ [p]))
    | _, _ => (Error "invalid input value for enum", db)
    end.

(** The trigger [update_vote_counts], [AFTER INSERT ON votes FOR EACH ROW]. *)
Definition update_vote_counts (NEW : Vote) (db : DB) : DB :=
  let db1 :=
    with_contestants db
      (map (fun c =>
              if ct_id c =? v_contestant_id NEW
              then {| ct_id := ct_id c; ct_category_id := ct_category_id c;
                      ct_name := ct_name c;
                      ct_vote_count := (ct_vote_count c + 1)%Z |}
              else c)
           (contestants db)) in
  with_events db1
    (map (fun e =>
            if ev_id e =? v_event_id NEW
            then {| ev_id := ev_id e; ev_organizer_id := ev_organizer_id e;
                    ev_title := ev_title e; ev_vote_price := ev_vote_price e;
                    ev_start_date := ev_start_date e;
                    ev_end_date := ev_end_date e; ev_status := ev_status e;
                    ev_total_votes := (ev_total_votes e + 1)%Z;
                    ev_total_revenue := (ev_total_revenue e + v_amount NEW)%Z |}
            else e)
         (events db1)).

(** [INSERT INTO votes]: [payment_id UUID UNIQUE NOT NULL] refuses a second
    vote for a payment; an accepted row fires the trigger in the same
    statement. *)
Definition insert_vote (row : VoteInsert) (db : DB) : Result Vote * DB :=
  if existsb (fun v => v_payment_id v =? vi_payment_id row) (votes db)
  then (Error "duplicate key value violates unique constraint votes_payment_id_key", db)
  else
    let v := {| v_voter_id := vi_voter_id row;
                v_contestant_id := vi_contestant_id row;
                v_event_id := vi_event_id row;
                v_payment_id := vi_payment_id row;
                v_amount := numeric_10_2_in (vi_amount row) |} in
    (Data v, update_vote_counts v (with_votes db (votes db ++ [v]))).

Definition insert_withdrawal (row : WithdrawalInsert) (db : DB)
    : Result Withdrawal * DB :=
  if existsb (fun w => w_id w =? wi_id row) (withdrawals db)
  then (Error "duplicate key value violates unique constraint withdrawals_pkey", db)
  else
    let w := {| w_id := wi_id row; w_organizer_id := wi_organizer_id row;
                w_amount := numeric_10_2_in (wi_amount row);
                w_status := wi_status row |} in
    (Data w, with_withdrawals db (withdrawals db ++ [w])).

Definition update_withdrawals (where_ : Withdrawal -> bool) (status : string)
    (db : DB) : option string * DB :=
  (None,
   with_withdrawals db
     (map (fun w =>
             if where_ w
             then {| w_id := w_id w; w_organizer_id := w_organizer_id w;
                     w_amount := w_amount w; w_status := status |}
             else w)
          (withdrawals db))).

Definition update_settings (rate : Q) (db : DB) : option string * DB :=
  (None,
   with_platform_settings db
     (map (fun s =>
             {| commission_rate := numeric_5_4_in rate;
                stripe_enabled := stripe_enabled s;
                paystack_enabled := paystack_enabled s |})
          (platform_settings db))).

(** [contestants.select('..., category:categories!category_id(...,
      event:events!event_id(...))').eq('id', contestant_id)] *)
Definition select_contestant_event (contestant_id : uuid) (db : DB)
    : list ContestantJoin :=
  map (join_contestant db)
      (filter (fun c => ct_id c =? contestant_id) (contestants db)).

(** The contestant resolves to exactly one row, with its category and the
    category's event. *)
Definition resolves (db : DB) (contestant_id : uuid) (event : Event) : Prop :=
  exists contestant category,
    single (select_contestant_event contestant_id db) = Data contestant
    /\ cj_category contestant = Some category
    /\ cgj_event category = Some event.

(** The effect of one statement. *)
Definition run_stmt {A : Type} (s : Stmt A) (db : DB) : A * DB :=
  match s in Stmt T return T * DB with
  | SelectContestantEvent contestant_id =>
      (select_contestant_event contestant_id db, db)
  | SelectEvents where_ => (filter where_ (events db), db)
  | SelectSettings => (platform_settings db, db)
  | UpdateSettings rate => update_settings rate db
  | SelectPayments where_ => (filter where_ (payments db), db)
  | InsertPayment row => insert_payment row db
  | UpdatePayments where_ set => update_payments where_ set db
  | SelectVotes where_ => (filter where_ (votes db), db)
  | InsertVote row => insert_vote row db
  | SelectWithdrawals where_ => (filter where_ (withdrawals db), db)
  | InsertWithdrawal row => insert_withdrawal row db
  | UpdateWithdrawals where_ status => update_withdrawals where_ status db
  end.

End Store.

(** ** Handlers as programs over statements *)

Module Handler.
Import Schema Store.

(** An [async] function body: it returns, throws, or awaits one statement
    of the store and goes on with what the statement returned. *)
Inductive Prog (R : Type) : Type :=
| Return (r : R)
| Throw (e : string)
| Await (A : Type) (s : Stmt A) (k : A -> Prog R).
Arguments Return {R} r.
Arguments Throw {R} e.
Arguments Await {R A} s k.

Fixpoint bind {A B : Type} (p : Prog A) (f : A -> Prog B) : Prog B :=
  match p with
  | Return a => f a
  | Throw e => Throw e
  | Await s k => Await s (fun x => bind (k x) f)
  end.

(** [try { p } catch (error) { h error }] *)
Fixpoint try_catch {R : Type} (p : Prog R) (h : string -> Prog R) : Prog R :=
  match p with
  | Return r => Return r
  | Throw e => h e
  | Await s k => Await s (fun x => try_catch (k x) h)
  end.

Inductive Outcome (R : Type) : Type :=
| Returned (r : R)
| Thrown (e : string).
Arguments Returned {R} r.
Arguments Thrown {R} e.

(** Running a handler alone, from its first statement to its last. *)
Fixpoint exec {R : Type} (p : Prog R) (db : DB) : Outcome R * DB :=
  match p with
  | Return r => (Returned r, db)
  | Throw e => (Thrown e, db)
  | Await s k => let (a, db') := run_stmt s db in exec (k a) db'
  end.

(** One statement of a handler that is in flight. *)
Definition step {R : Type} (p : Prog R) (db : DB) : Prog R * DB :=
  match p with
  | Await s k => let (a, db') := run_stmt s db in (k a, db')
  | _ => (p, db)
  end.


(** Requests in flight together.  The scheduler names, statement after
    statement, the request that goes next; a request that is over, and an
    index that names no request, leave everything as it is. *)
Fixpoint step_nth {R : Type} (i : nat) (ts : list (Prog R)) (db : DB)
    : list (Prog R) * DB :=
  match ts, i with
  | [], _ => ([], db)
  | t :: ts', O => let (t', db') := step t db in (t' :: ts', db')
  | t :: ts', S j => let (ts'', db') := step_nth j ts' db in (t :: ts'', db')
  end.

Fixpoint run {R : Type} (schedule : list nat) (ts : list (Prog R)) (db : DB)
    : list (Prog R) * DB :=
  match schedule with
  | [] => (ts, db)
  | i :: rest => let (ts', db') := step_nth i ts db in run rest ts' db'
  end.

Declare Scope prog_scope.
Delimit Scope prog_scope with prog.
Notation "x <- 'await' s ;; k" := (Await s (fun x => k))
  (at level 61, s at next level, right associativity) : prog_scope.
Notation "'await' s ;; k" := (Await s (fun _ => k))
  (at level 61, s at next level, right associativity) : prog_scope.
Notation "x <- 'call' p ;; k" := (bind p (fun x => k))
  (at level 61, p at next level, right associativity) : prog_scope.

End Handler.

(** ** Requests in flight: what every statement keeps, what a request achieves *)

Module Interleaving.
Import Schema Store Handler.

Section Threads.
Variable I : DB -> Prop.
Variable Q : DB -> Prop.




End Threads.



(** Every statement the program can issue is one of [G]. *)
Fixpoint issues (G : forall A : Type, Stmt A -> Prop) {R : Type} (p : Prog R)
    : Prop :=
  match p with
  | Await s k => G _ s /\ forall a, issues G (k a)
  | _ => True
  end.

End Interleaving.

(** ** HTTP responses and the outside world *)

Module Http.
Import Schema.

(** The JSON bodies the routes send. *)
Inductive Body : Type :=
| ErrorBody (error : string)
| ErrorMessageBody (error message : string)
| ValidationErrors
| InvalidAmountBody (error : string) (expected received : Q)
| InsufficientBalanceBody (error : string) (available requested : Q)
| ReceivedBody
| IntentBody (payment_id : uuid) (client_secret : string) (amount : Q)
| InitializedBody (payment_id : uuid) (authorization_url reference : string)
    (amount : Q)
| VerifiedBody (payment_id : uuid) (status : string) (verified : bool)
| MessageBody (message : string)
| VoteBody (message : string) (vote : Vote)
| WithdrawalBody (message : string) (withdrawal : Withdrawal)
| EarningsBody (earnings : list Payment) (total_earnings total_platform_fees : Q).

Record Response : Type := {
  res_status : nat;
  res_json : Body
}.

Definition respond (status : nat) (body : Body) : Response :=
  {| res_status := status; res_json := body |}.

(** A Stripe object as the handlers read it: [id], [metadata.payment_id]
    (either level may be missing) and, on a dispute, [payment_intent]. *)
Record StripeObject : Type := {
  so_id : string;
  so_metadata : option (option uuid);
  so_payment_intent : option string;
  so_status : string;
  so_client_secret : string
}.

Record StripeEvent : Type := {
  se_type : string;
  se_data_object : StripeObject
}.

(** A Paystack charge or transfer: [reference] and [id]. *)
Record PaystackData : Type := {
  pd_reference : option string;
  pd_id : string
}.

(** The parsed body of a Paystack webhook: [event] and [data]. *)
Record PaystackEvent : Type := {
  pe_event : string;
  pe_data : option PaystackData
}.

(** [response.data] of Paystack's initialize call. *)
Record PaystackInitialized : Type := {
  pin_status : bool;
  pin_message : string;
  pin_reference : string;
  pin_authorization_url : string;
  pin_access_code : string
}.

(** [response.data] of Paystack's verify call: [status] and [data.status]. *)
Record PaystackVerified : Type := {
  pv_status : bool;
  pv_data_status : string
}.

(** What a request meets outside the store: the clock, the UUID generator,
    the two providers and the keyed hash.  An axios call that throws is
    [None]; the Stripe helpers of the configuration module catch their own errors
    and answer [{ success: false, error }], here [Error]. *)
Record Env : Type := {
  now : timestamp;
  uuidv4 : uuid;
  createPaymentIntent : Q -> string -> uuid -> Store.Result StripeObject;
  retrievePaymentIntent : string -> Store.Result StripeObject;
  paystack_initialize : uuid -> Q -> option PaystackInitialized;
  paystack_verify : string -> option PaystackVerified;
  constructWebhookEvent : string -> string -> string -> Store.Result StripeEvent;
  hmac_sha512_hex : string -> string -> string
}.

(** A value used as a condition: [undefined], [null] and the empty string
    are falsy. *)
Definition truthy (s : option string) : bool :=
  match s with
  | Some EmptyString => false
  | Some _ => true
  | None => false
  end.

End Http.

(** ** What a request did *)

Module Outcomes.
Import Schema Store Handler Http.

(** The [error] field of a body, when it has one. *)
Definition error_of (b : Body) : option string :=
  match b with
  | ErrorBody error => Some error
  | ErrorMessageBody error _ => Some error
  | InvalidAmountBody error _ _ => Some error
  | InsufficientBalanceBody error _ _ => Some error
  | _ => None
  end.

(** The request was answered [status] with [{ error }], and the store is as
    it was before the request. *)
Definition rejected_with (p : Prog Response) (db : DB) (status : nat)
    (error : string) : Prop :=
  exists r,
    exec p db = (Returned r, db)
    /\ res_status r = status
    /\ error_of (res_json r) = Some error.

(** The response of a route run alone ([res_status] 0 stands for an escaped
    exception, which no route lets happen). *)
Definition response_of (p : Prog Response) (db : DB) : Response :=
  match fst (exec p db) with
  | Returned r => r
  | Thrown _ => respond 0 (ErrorBody "uncaught")
  end.

Definition store_after {R : Type} (p : Prog R) (db : DB) : DB :=
  snd (exec p db).

End Outcomes.

(** ** The payments router (src/unnamed/part_001) *)

Module Payments.
Import Schema Store Handler Http.
Open Scope string_scope.
Open Scope prog_scope.

Definition supportedCurrencies : list string :=
  ["usd"; "eur"; "gbp"; "cad"; "aud"; "jpy"; "sgd"; "chf"; "nok"; "sek"; "dkk"].

(** [req.body] of POST /stripe/create-intent. *)
Record CreateIntent : Type := {
  ci_contestant_id : uuid;
  ci_amount : Q;
  ci_currency : option string
}.

(** The express-validator chain of the route:
    [body('amount').isFloat({ min: 0.01 })] and the optional currency. *)
Definition create_intent_valid (body : CreateIntent) : bool :=
  Qle_bool (1 # 100) (ci_amount body)
  && match ci_currency body with
     | Some c => JS.includes supportedCurrencies c
     | None => true
     end.

(** POST /stripe/create-intent *)
Definition stripe_create_intent (env : Env) (userId : uuid) (body : CreateIntent)
    : Prog Response :=
  try_catch
    (if negb (create_intent_valid body)
     then Return (respond 400 ValidationErrors)
     else
       let contestant_id := ci_contestant_id body in
       let amount := ci_amount body in
       let currency :=
         match ci_currency body with Some c => c | None => "usd" end in
       rows <- await SelectContestantEvent contestant_id ;;
       match single rows with
       | Error _ => Return (respond 404 (ErrorBody "Contestant not found"))
       | Data contestant =>
       match cj_category contestant with
       | None => Throw "TypeError: Cannot read properties of null (reading 'event')"
       | Some category =>
       match cgj_event category with
       | None => Throw "TypeError: Cannot read properties of null (reading 'status')"
       | Some event =>
         if negb (event_status_out (ev_status event) =? "active")
         then Return (respond 400 (ErrorBody "Event is not active"))
         else if (now env <? ev_start_date event)%Z
         then Return (respond 400 (ErrorBody "Voting has not started yet"))
         else if (ev_end_date event <? now env)%Z
         then Return (respond 400 (ErrorBody "Voting has ended"))
         else if negb (Qeq_bool amount (number_of_10_2 (ev_vote_price event)))
         then Return (respond 400
                (InvalidAmountBody "Invalid vote amount"
                   (number_of_10_2 (ev_vote_price event)) amount))
         else
           settings_rows <- await SelectSettings ;;
           match single settings_rows with
           | Error _ =>
               Return (respond 400 (ErrorBody "Failed to fetch platform settings"))
           | Data settings =>
             let platformFee :=
               Commission.platformFee amount
                 (number_of_5_4 (commission_rate settings)) in
             let organizerEarnings :=
               Commission.organizerEarnings amount
                 (number_of_5_4 (commission_rate settings)) in
             let paymentId := uuidv4 env in
             inserted <- await InsertPayment
               {| pi_id := paymentId; pi_voter_id := userId;
                  pi_event_id := ev_id event;
                  pi_contestant_id := contestant_id;
                  pi_amount := amount;
                  pi_platform_fee := platformFee;
                  pi_organizer_earnings := organizerEarnings;
                  pi_payment_method := "stripe";
                  pi_status := "pending" |} ;;
             match inserted with
             | Error message =>
                 Return (respond 400
                   (ErrorMessageBody "Failed to create payment record" message))
             | Data _ =>
               match createPaymentIntent env amount currency paymentId with
               | Error message =>
                   await UpdatePayments (fun p => p_id p =? paymentId)
                     {| set_status := Some "failed";
                        set_payment_provider_id := None;
                        set_payment_intent_id := None |} ;;
                   Return (respond 400
                     (ErrorMessageBody "Failed to create payment intent" message))
               | Data paymentIntent =>
                   await UpdatePayments (fun p => p_id p =? paymentId)
                     {| set_status := None;
                        set_payment_provider_id := None;
                        set_payment_intent_id := Some (so_id paymentIntent) |} ;;
                   Return (respond 200
                     (IntentBody paymentId (so_client_secret paymentIntent) amount))
               end
             end
           end
       end end end)
    (fun _ => Return (respond 500 (ErrorBody "Failed to create payment intent"))).

(** [req.body] of POST /paystack/initialize. *)
Record Initialize : Type := {
  in_contestant_id : uuid;
  in_amount : Q;
  in_mobile_money_network : option string
}.

Definition initialize_valid (body : Initialize) : bool :=
  Qle_bool (1 # 100) (in_amount body)
  && match in_mobile_money_network body with
     | Some n => JS.includes ["mtn"; "airtel"; "vodafone"] n
     | None => true
     end.

(** POST /paystack/initialize *)
Definition paystack_initialize_route (env : Env) (userId : uuid)
    (body : Initialize) : Prog Response :=
  try_catch
    (if negb (initialize_valid body)
     then Return (respond 400 ValidationErrors)
     else
       let contestant_id := in_contestant_id body in
       let amount := in_amount body in
       rows <- await SelectContestantEvent contestant_id ;;
       match single rows with
       | Error _ => Return (respond 404 (ErrorBody "Contestant not found"))
       | Data contestant =>
       match cj_category contestant with
       | None => Throw "TypeError: Cannot read properties of null (reading 'event')"
       | Some category =>
       match cgj_event category with
       | None => Throw "TypeError: Cannot read properties of null (reading 'status')"
       | Some event =>
         if negb (event_status_out (ev_status event) =? "active")
         then Return (respond 400 (ErrorBody "Event is not active"))
         else if (now env <? ev_start_date event)%Z
                 || (ev_end_date event <? now env)%Z
         then Return (respond 400
                (ErrorBody "Voting period has ended or not started"))
         else if negb (Qeq_bool amount (number_of_10_2 (ev_vote_price event)))
         then Return (respond 400
                (InvalidAmountBody "Invalid vote amount"
                   (number_of_10_2 (ev_vote_price event)) amount))
         else
           settings_rows <- await SelectSettings ;;
           match single settings_rows with
           | Error _ =>
               Return (respond 400 (ErrorBody "Failed to fetch platform settings"))
           | Data settings =>
             let platformFee :=
               Commission.platformFee amount
                 (number_of_5_4 (commission_rate settings)) in
             let organizerEarnings :=
               Commission.organizerEarnings amount
                 (number_of_5_4 (commission_rate settings)) in
             let paymentId := uuidv4 env in
             inserted <- await InsertPayment
               {| pi_id := paymentId; pi_voter_id := userId;
                  pi_event_id := ev_id event;
                  pi_contestant_id := contestant_id;
                  pi_amount := amount;
                  pi_platform_fee := platformFee;
                  pi_organizer_earnings := organizerEarnings;
                  pi_payment_method := "paystack";
                  pi_status := "pending" |} ;;
             match inserted with
             | Error message =>
                 Return (respond 400
                   (ErrorMessageBody "Failed to create payment record" message))
             | Data _ =>
               match paystack_initialize env paymentId
                       (inject_Z (JS.Math_round (amount * 100))) with
               | None => Throw "AxiosError"
               | Some paystackResponse =>
                 if negb (pin_status paystackResponse)
                 then
                   await UpdatePayments (fun p => p_id p =? paymentId)
                     {| set_status := Some "failed";
                        set_payment_provider_id := None;
                        set_payment_intent_id := None |} ;;
                   Return (respond 400
                     (ErrorMessageBody "Failed to initialize Paystack payment"
                        (pin_message paystackResponse)))
                 else
                   await UpdatePayments (fun p => p_id p =? paymentId)
                     {| set_status := None;
                        set_payment_provider_id :=
                          Some (pin_reference paystackResponse);
                        set_payment_intent_id := None |} ;;
                   Return (respond 200
                     (InitializedBody paymentId
                        (pin_authorization_url paystackResponse)
                        (pin_reference paystackResponse) amount))
               end
             end
           end
       end end end)
    (fun _ => Return (respond 500 (ErrorBody "Failed to initialize payment"))).

(** What the provider says about a payment that is still pending, as
    GET /verify/:paymentId reads it: [(verified, status)]. *)
Definition verificationResult (env : Env) (payment : Payment) : bool * string :=
  let unverified := (false, payment_status_out (p_status payment)) in
  if (payment_method_out (p_payment_method payment) =? "stripe")
     && truthy (p_payment_intent_id payment)
  then
    match p_payment_intent_id payment with
    | Some intent =>
        match retrievePaymentIntent env intent with
        | Data paymentIntent =>
            let status := so_status paymentIntent in
            if status =? "succeeded" then (true, "completed")
            else if (status =? "canceled") || (status =? "payment_failed")
            then (true, "failed")
            else unverified
        | Error _ => unverified
        end
    | None => unverified
    end
  else if (payment_method_out (p_payment_method payment) =? "paystack")
          && truthy (p_payment_provider_id payment)
  then
    match p_payment_provider_id payment with
    | Some reference =>
        match paystack_verify env reference with
        | Some paystackResponse =>
            if pv_status paystackResponse
               && (pv_data_status paystackResponse =? "success")
            then (true, "completed")
            else if (pv_data_status paystackResponse =? "failed")
                    || (pv_data_status paystackResponse =? "abandoned")
            then (true, "failed")
            else unverified
        | None => unverified
        end
    | None => unverified
    end
  else unverified.

(** GET /verify/:paymentId *)
Definition verify_payment (env : Env) (userId paymentId : uuid)
    : Prog Response :=
  try_catch
    (rows <- await SelectPayments
       (fun p => (p_id p =? paymentId) && (p_voter_id p =? userId)) ;;
     match single rows with
     | Error _ => Return (respond 404 (ErrorBody "Payment not found"))
     | Data payment =>
       let status := payment_status_out (p_status payment) in
       if status =? "pending"
       then
         let (verified, new_status) := verificationResult env payment in
         if verified && negb (new_status =? status)
         then
           await UpdatePayments (fun p => p_id p =? paymentId)
             {| set_status := Some new_status;
                set_payment_provider_id := None;
                set_payment_intent_id := None |} ;;
           Return (respond 200
             (VerifiedBody (p_id payment) new_status
                (verified || (new_status =? "completed"))))
         else
           Return (respond 200
             (VerifiedBody (p_id payment) status
                (verified || (status =? "completed"))))
       else
         Return (respond 200
           (VerifiedBody (p_id payment) status (status =? "completed")))
     end)
    (fun _ => Return (respond 500 (ErrorBody "Failed to verify payment"))).

(** POST /cancel/:paymentId.  The provider-side cancellation is attempted
    and its failure ignored; it writes nothing to the store. *)
Definition cancel_payment (userId paymentId : uuid) : Prog Response :=
  try_catch
    (rows <- await SelectPayments
       (fun p => (p_id p =? paymentId) && (p_voter_id p =? userId)
                 && (payment_status_out (p_status p) =? "pending")) ;;
     match single rows with
     | Error _ => Return (respond 404 (ErrorBody "Pending payment not found"))
     | Data payment =>
       updateError <- await UpdatePayments (fun p => p_id p =? paymentId)
         {| set_status := Some "failed";
            set_payment_provider_id := None;
            set_payment_intent_id := None |} ;;
       match updateError with
       | Some message =>
           Return (respond 400
             (ErrorMessageBody "Failed to cancel payment" message))
       | None => Return (respond 200 (MessageBody "Payment cancelled successfully"))
       end
     end)
    (fun _ => Return (respond 500 (ErrorBody "Failed to cancel payment"))).

End Payments.

(** ** The Stripe webhook router (src/routes/upload.js, lines 382-621) *)

Module StripeWebhook.
Import Schema Store Handler Http.
Open Scope string_scope.
Open Scope prog_scope.

(** [console.error(...)] in a [catch] block: the error is logged and the
    handler returns normally. *)
Definition logged (_ : string) : Prog unit := Return tt.

(** [paymentIntent.metadata.payment_id]; reading through a missing
    [metadata] throws. *)
Definition metadata_payment_id (o : StripeObject) : Prog (option uuid) :=
  match so_metadata o with
  | None => Throw "TypeError: Cannot read properties of undefined (reading 'payment_id')"
  | Some payment_id => Return payment_id
  end.

Definition handlePaymentSucceeded (paymentIntent : StripeObject) : Prog unit :=
  try_catch
    (paymentId <- call metadata_payment_id paymentIntent ;;
     if negb (truthy paymentId) then Return tt
     else
       rows <- await SelectPayments
         (eq_payment_intent_id (so_id paymentIntent)) ;;
       match single rows with
       | Error _ => Return tt
       | Data payment =>
         updateError <- await UpdatePayments (fun p => p_id p =? p_id payment)
           {| set_status := Some "completed";
              set_payment_provider_id := Some (so_id paymentIntent);
              set_payment_intent_id := None |} ;;
         match updateError with
         | Some _ => Return tt
         | None =>
           await InsertVote
             {| vi_voter_id := p_voter_id payment;
                vi_contestant_id := p_contestant_id payment;
                vi_event_id := p_event_id payment;
                vi_payment_id := p_id payment;
                vi_amount := number_of_10_2 (p_amount payment) |} ;;
           Return tt
         end
       end)
    logged.

Definition mark_failed_by_intent (paymentIntent : StripeObject) : Prog unit :=
  try_catch
    (paymentId <- call metadata_payment_id paymentIntent ;;
     if negb (truthy paymentId) then Return tt
     else
       await UpdatePayments
         (eq_payment_intent_id (so_id paymentIntent))
         {| set_status := Some "failed";
            set_payment_provider_id := Some (so_id paymentIntent);
            set_payment_intent_id := None |} ;;
       Return tt)
    logged.

(** The two handlers differ in the metadata they record only. *)
Definition handlePaymentFailed := mark_failed_by_intent.
Definition handlePaymentCanceled := mark_failed_by_intent.

Definition handleChargeDispute (dispute : StripeObject) : Prog unit :=
  try_catch
    (let paymentIntentId := so_payment_intent dispute in
     if negb (truthy paymentIntentId) then Return tt
     else
       rows <- await SelectPayments
         (fun p => match p_payment_intent_id p, paymentIntentId with
                   | Some i, Some j => i =? j
                   | _, _ => false
                   end) ;;
       match single rows with
       | Error _ => Return tt
       | Data payment =>
         await UpdatePayments (fun p => p_id p =? p_id payment)
           {| set_status := Some "disputed";
              set_payment_provider_id := None;
              set_payment_intent_id := None |} ;;
         Return tt
       end)
    logged.

Record Request : Type := {
  stripe_signature : option string;
  raw_body : string
}.

(** [router.post('/', ...)]; [endpointSecret] is
    [process.env.STRIPE_WEBHOOK_SECRET]. *)
Definition webhook (env : Env) (endpointSecret : option string) (req : Request)
    : Prog Response :=
  match stripe_signature req, endpointSecret with
  | Some signature, Some secret =>
    if negb (truthy (Some signature)) || negb (truthy (Some secret))
    then Return (respond 400 (ErrorBody "Missing webhook signature or secret"))
    else
      try_catch
        (match constructWebhookEvent env (raw_body req) signature secret with
         | Error _ =>
             Return (respond 400
               (ErrorBody "Webhook signature verification failed"))
         | Data event =>
           _ <- call
             (if se_type event =? "payment_intent.succeeded"
              then handlePaymentSucceeded (se_data_object event)
              else if se_type event =? "payment_intent.payment_failed"
              then handlePaymentFailed (se_data_object event)
              else if se_type event =? "payment_intent.canceled"
              then handlePaymentCanceled (se_data_object event)
              else if se_type event =? "charge.dispute.created"
              then handleChargeDispute (se_data_object event)
              else Return tt) ;;
           Return (respond 200 ReceivedBody)
         end)
        (fun _ => Return (respond 500 (ErrorBody "Webhook processing failed")))
  | _, _ => Return (respond 400 (ErrorBody "Missing webhook signature or secret"))
  end.

End StripeWebhook.

(** ** The Paystack webhook router (src/routes/upload.js, lines 622-862) *)

Module PaystackWebhook.
Import Schema Store Handler Http.
Open Scope string_scope.
Open Scope prog_scope.

Definition logged (_ : string) : Prog unit := Return tt.

(** [charge.reference]; reading it off a missing [data] throws. *)
Definition reference_of (data : option PaystackData) : Prog (option string) :=
  match data with
  | None => Throw "TypeError: Cannot read properties of undefined (reading 'reference')"
  | Some d => Return (pd_reference d)
  end.

Definition id_of (data : option PaystackData) : string :=
  match data with Some d => pd_id d | None => "" end.

Definition handleChargeSuccess (env : Env) (charge : option PaystackData)
    : Prog unit :=
  try_catch
    (r <- call reference_of charge ;;
     match r with
     | None => Return tt
     | Some reference =>
       if negb (truthy (Some reference)) then Return tt
       else
         match paystack_verify env reference with
         | None => Throw "AxiosError"
         | Some verificationResponse =>
           if negb (pv_status verificationResponse)
              || negb (pv_data_status verificationResponse =? "success")
           then Return tt
           else
             rows <- await SelectPayments (fun p => p_id p =? reference) ;;
             match single rows with
             | Error _ => Return tt
             | Data payment =>
               updateError <- await UpdatePayments
                 (fun p => p_id p =? p_id payment)
                 {| set_status := Some "completed";
                    set_payment_provider_id := Some (id_of charge);
                    set_payment_intent_id := None |} ;;
               match updateError with
               | Some _ => Return tt
               | None =>
                 await InsertVote
                   {| vi_voter_id := p_voter_id payment;
                      vi_contestant_id := p_contestant_id payment;
                      vi_event_id := p_event_id payment;
                      vi_payment_id := p_id payment;
                      vi_amount := number_of_10_2 (p_amount payment) |} ;;
                 Return tt
               end
             end
         end
     end)
    logged.

Definition handleChargeFailed (charge : option PaystackData) : Prog unit :=
  try_catch
    (r <- call reference_of charge ;;
     match r with
     | None => Return tt
     | Some reference =>
       if negb (truthy (Some reference)) then Return tt
       else
         await UpdatePayments (fun p => p_id p =? reference)
           {| set_status := Some "failed";
              set_payment_provider_id := Some (id_of charge);
              set_payment_intent_id := None |} ;;
         Return tt
     end)
    logged.

Definition handleTransfer (status : string) (transfer : option PaystackData)
    : Prog unit :=
  try_catch
    (r <- call reference_of transfer ;;
     match r with
     | None => Return tt
     | Some reference =>
       if negb (truthy (Some reference)) then Return tt
       else
         await UpdateWithdrawals (fun w => w_id w =? reference) status ;;
         Return tt
     end)
    logged.

Definition handleTransferSuccess := handleTransfer "completed".
Definition handleTransferFailed := handleTransfer "failed".

(** [body_text] is [JSON.stringify(req.body)]. *)
Record Request : Type := {
  x_paystack_signature : option string;
  body_text : string;
  body : PaystackEvent
}.

(** [router.post('/', ...)]; [secret] is [process.env.PAYSTACK_SECRET_KEY]. *)
Definition webhook (env : Env) (secret : option string) (req : Request)
    : Prog Response :=
  try_catch
    (match x_paystack_signature req, secret with
     | Some signature, Some key =>
       if negb (truthy (Some signature)) || negb (truthy (Some key))
       then Return (respond 400 (ErrorBody "Missing webhook signature or secret"))
       else
         let hash := hmac_sha512_hex env key (body_text req) in
         if negb (hash =? signature)
         then Return (respond 400
                (ErrorBody "Webhook signature verification failed"))
         else
           let event := body req in
           _ <- call
             (if pe_event event =? "charge.success"
              then handleChargeSuccess env (pe_data event)
              else if pe_event event =? "charge.failed"
              then handleChargeFailed (pe_data event)
              else if pe_event event =? "transfer.success"
              then handleTransferSuccess (pe_data event)
              else if pe_event event =? "transfer.failed"
              then handleTransferFailed (pe_data event)
              else Return tt) ;;
           Return (respond 200 ReceivedBody)
     | _, _ =>
         Return (respond 400 (ErrorBody "Missing webhook signature or secret"))
     end)
    (fun _ => Return (respond 500 (ErrorBody "Webhook processing failed"))).

End PaystackWebhook.

(** ** The votes router (src/routes/votes.js, lines 179-320): POST /votes *)

Module Votes.
Import Schema Store Handler Http.
Open Scope string_scope.
Open Scope prog_scope.

Record CastVote : Type := {
  cv_contestant_id : uuid;
  cv_payment_id : uuid;
  cv_amount : Q
}.

Definition cast_vote_valid (body : CastVote) : bool :=
  Qle_bool (1 # 100) (cv_amount body).

(** [router.post('/', ...)]: "this will be called after successful
    payment". *)
Definition post_votes (env : Env) (voterId : uuid) (body : CastVote)
    : Prog Response :=
  try_catch
    (if negb (cast_vote_valid body)
     then Return (respond 400 ValidationErrors)
     else
       let contestant_id := cv_contestant_id body in
       let payment_id := cv_payment_id body in
       let amount := cv_amount body in
       rows <- await SelectContestantEvent contestant_id ;;
       match single rows with
       | Error _ => Return (respond 404 (ErrorBody "Contestant not found"))
       | Data contestant =>
       match cj_category contestant with
       | None => Throw "TypeError: Cannot read properties of null (reading 'event')"
       | Some category =>
       match cgj_event category with
       | None => Throw "TypeError: Cannot read properties of null (reading 'status')"
       | Some event =>
         if negb (event_status_out (ev_status event) =? "active")
         then Return (respond 400 (ErrorBody "Event is not active"))
         else if (now env <? ev_start_date event)%Z
         then Return (respond 400 (ErrorBody "Voting has not started yet"))
         else if (ev_end_date event <? now env)%Z
         then Return (respond 400 (ErrorBody "Voting has ended"))
         else if negb (Qeq_bool amount (number_of_10_2 (ev_vote_price event)))
         then Return (respond 400
                (InvalidAmountBody "Invalid vote amount"
                   (number_of_10_2 (ev_vote_price event)) amount))
         else
           payment_rows <- await SelectPayments (fun p => p_id p =? payment_id) ;;
           match single payment_rows with
           | Error _ => Return (respond 404 (ErrorBody "Payment not found"))
           | Data payment =>
             if negb (payment_status_out (p_status payment) =? "completed")
             then Return (respond 400 (ErrorBody "Payment not completed"))
             else if negb (p_contestant_id payment =? contestant_id)
                     || negb (p_voter_id payment =? voterId)
             then Return (respond 400 (ErrorBody "Payment mismatch"))
             else
               vote_rows <- await SelectVotes
                 (fun v => v_payment_id v =? payment_id) ;;
               match single vote_rows with
               | Data existingVote =>
                   Return (respond 400
                     (ErrorBody "Vote already exists for this payment"))
               | Error _ =>
                 inserted <- await InsertVote
                   {| vi_voter_id := voterId;
                      vi_contestant_id := contestant_id;
                      vi_event_id := ev_id event;
                      vi_payment_id := payment_id;
                      vi_amount := amount |} ;;
                 match inserted with
                 | Error message =>
                     Return (respond 400
                       (ErrorMessageBody "Failed to create vote" message))
                 | Data vote =>
                     Return (respond 201 (VoteBody "Vote cast successfully" vote))
                 end
               end
           end
       end end end)
    (fun _ => Return (respond 500 (ErrorBody "Failed to cast vote"))).

End Votes.

(** ** The admin router (src/routes/votes.js, lines 1601-1643): PUT /settings *)

Module Admin.
Import Schema Store Handler Http.
Open Scope string_scope.
Open Scope prog_scope.

(** [body('commission_rate').optional().isFloat({ min: 0, max: 1 })] *)
Definition rate_valid (commission_rate : Q) : bool :=
  Qle_bool 0 commission_rate && Qle_bool commission_rate 1.

Definition put_settings (commission_rate : Q) : Prog Response :=
  try_catch
    (if negb (rate_valid commission_rate)
     then Return (respond 400 ValidationErrors)
     else
       error <- await UpdateSettings commission_rate ;;
       match error with
       | Some message =>
           Return (respond 400
             (ErrorMessageBody "Failed to update platform settings" message))
       | None =>
           Return (respond 200
             (MessageBody "Platform settings updated successfully"))
       end)
    (fun _ => Return (respond 500 (ErrorBody "Failed to update platform settings"))).

End Admin.

(** ** The organizer router (src/routes/organizer.js) *)

Module Organizer.
Import Schema Store Handler Http.
Open Scope string_scope.
Open Scope prog_scope.

(** [rows.reduce((sum, x) => sum + parseFloat(f(x)), 0)] *)
Definition sum_of {A : Type} (f : A -> Q) (rows : list A) : Q :=
  fold_left (fun sum x => (sum + f x)%Q) rows 0%Q.

(** [settings?.commission_rate || 0.05]: a missing row and a rate of zero
    both fall back to five per cent. *)
Definition commissionRate (settings : Result Settings) : Q :=
  match settings with
  | Data s =>
      if Qeq_bool (number_of_5_4 (commission_rate s)) 0
      then (5 # 100)%Q
      else number_of_5_4 (commission_rate s)
  | Error _ => (5 # 100)%Q
  end.

Record EarningsQuery : Type := {
  eq_page : option nat;
  eq_limit : option nat;
  eq_event_id : option uuid
}.

Definition earnings_query_valid (q : EarningsQuery) : bool :=
  match eq_page q with Some n => (1 <=? n)%nat | None => true end
  && match eq_limit q with
     | Some n => (1 <=? n)%nat && (n <=? 100)%nat
     | None => true
     end.

(** [.order('created_at', { ascending: false }).range(offset, offset + limit - 1)];
    rows are kept in the order they were inserted. *)
Definition page_of {A : Type} (page limit : nat) (rows : list A) : list A :=
  firstn limit (skipn ((page - 1) * limit) (rev rows)).

Definition earnings_summary (earnings : list Payment) : Body :=
  EarningsBody earnings
    (sum_of (fun e => number_of_10_2 (p_organizer_earnings e)) earnings)
    (sum_of (fun e => number_of_10_2 (p_platform_fee e)) earnings).

(** GET /earnings, without the optional date bounds. *)
Definition get_earnings (organizerId : uuid) (q : EarningsQuery)
    : Prog Response :=
  try_catch
    (if negb (earnings_query_valid q)
     then Return (respond 400 ValidationErrors)
     else
       let page := match eq_page q with Some n => n | None => 1%nat end in
       let limit := match eq_limit q with Some n => n | None => 20%nat end in
       match eq_event_id q with
       | Some eventId =>
           owned <- await SelectEvents
             (fun e => (ev_id e =? eventId) && (ev_organizer_id e =? organizerId)) ;;
           match single owned with
           | Error _ => Return (respond 404 (ErrorBody "Event not found"))
           | Data _ =>
               rows <- await SelectPayments
                 (fun p => (payment_status_out (p_status p) =? "completed")
                           && (p_event_id p =? eventId)) ;;
               Return (respond 200 (earnings_summary (page_of page limit rows)))
           end
       | None =>
           organizerEvents <- await SelectEvents
             (fun e => ev_organizer_id e =? organizerId) ;;
           let eventIds := map ev_id organizerEvents in
           match eventIds with
           | [] => Return (respond 200 (EarningsBody [] 0 0))
           | _ =>
               rows <- await SelectPayments
                 (fun p => (payment_status_out (p_status p) =? "completed")
                           && JS.includes eventIds (p_event_id p)) ;;
               Return (respond 200 (earnings_summary (page_of page limit rows)))
           end
       end)
    (fun _ => Return (respond 500 (ErrorBody "Failed to fetch earnings"))).

Record PaymentDetails : Type := {
  account_number : option string;
  bank_name : option string;
  account_name : option string;
  mobile_number : option string;
  network : option string
}.

Record WithdrawalRequest : Type := {
  wr_amount : Q;
  wr_payment_method : string;
  wr_payment_details : PaymentDetails
}.

Definition withdrawal_valid (body : WithdrawalRequest) : bool :=
  Qle_bool 1 (wr_amount body)
  && JS.includes ["bank_transfer"; "mobile_money"; "paystack"]
       (wr_payment_method body)
  && match network (wr_payment_details body) with
     | Some n => JS.includes ["mtn"; "airtel"; "vodafone"] n
     | None => true
     end.

(** The balance of POST /withdrawals, from the three sets of rows it reads:
    the organizer's events, the settings row, and the organizer's
    withdrawals that are completed, pending or processing. *)
Definition withdrawableAmount (events : list Event) (settings : Result Settings)
    (withdrawals : list Withdrawal) : Q :=
  let totalRevenue := sum_of (fun e => number_of_10_2 (ev_total_revenue e)) events in
  let availableEarnings := (totalRevenue * (1 - commissionRate settings))%Q in
  let totalWithdrawnOrPending :=
    sum_of (fun w => number_of_10_2 (w_amount w)) withdrawals in
  (availableEarnings - totalWithdrawnOrPending)%Q.

(** POST /withdrawals *)
Definition post_withdrawals (env : Env) (organizerId : uuid)
    (body : WithdrawalRequest) : Prog Response :=
  try_catch
    (if negb (withdrawal_valid body)
     then Return (respond 400 ValidationErrors)
     else
       let amount := wr_amount body in
       let payment_method := wr_payment_method body in
       let payment_details := wr_payment_details body in
       events <- await SelectEvents (fun e => ev_organizer_id e =? organizerId) ;;
       settings_rows <- await SelectSettings ;;
       withdrawals <- await SelectWithdrawals
         (fun w => (w_organizer_id w =? organizerId)
                   && JS.includes ["completed"; "pending"; "processing"]
                        (w_status w)) ;;
       let withdrawable :=
         withdrawableAmount events (single settings_rows) withdrawals in
       if negb (Qle_bool amount withdrawable)
       then Return (respond 400
              (InsufficientBalanceBody "Insufficient balance" withdrawable amount))
       else if (payment_method =? "bank_transfer")
               && (negb (truthy (account_number payment_details))
                   || negb (truthy (bank_name payment_details))
                   || negb (truthy (account_name payment_details)))
       then Return (respond 400
              (ErrorBody "Bank transfer requires account_number, bank_name, and account_name"))
       else if (payment_method =? "mobile_money")
               && (negb (truthy (mobile_number payment_details))
                   || negb (truthy (network payment_details)))
       then Return (respond 400
              (ErrorBody "Mobile money requires mobile_number and network"))
       else
         let withdrawalId := uuidv4 env in
         inserted <- await InsertWithdrawal
           {| wi_id := withdrawalId; wi_organizer_id := organizerId;
              wi_amount := amount; wi_status := "pending" |} ;;
         match inserted with
         | Error message =>
             Return (respond 400
               (ErrorMessageBody "Failed to create withdrawal request" message))
         | Data withdrawal =>
             Return (respond 201
               (WithdrawalBody "Withdrawal request submitted successfully"
                  withdrawal))
         end)
    (fun _ => Return (respond 500 (ErrorBody "Failed to create withdrawal request"))).

(** The balance POST /withdrawals would compute in a given store. *)
Definition balance_of (db : DB) (organizerId : uuid) : Q :=
  withdrawableAmount
    (filter (fun e => ev_organizer_id e =? organizerId) (events db))
    (single (platform_settings db))
    (filter (fun w => (w_organizer_id w =? organizerId)
                      && JS.includes ["completed"; "pending"; "processing"]
                           (w_status w))
            (withdrawals db)).

End Organizer.

(** ** A small store to run the handlers on *)

Module Sample.
Import Schema Store Handler Http.
Open Scope Z_scope.
Open Scope string_scope.

(** One active event at 5.00 a vote, open from time 1000 to time 2000, with
    one category and one contestant; the commission is five per cent. *)
Definition event1 : Event :=
  {| ev_id := "event-1"; ev_organizer_id := "organizer-1";
     ev_title := "Awards"; ev_vote_price := 500;
     ev_start_date := 1000; ev_end_date := 2000; ev_status := active;
     ev_total_votes := 0; ev_total_revenue := 0 |}.

Definition with_revenue (revenue : numeric_10_2) (e : Event) : Event :=
  {| ev_id := ev_id e; ev_organizer_id := ev_organizer_id e;
     ev_title := ev_title e; ev_vote_price := ev_vote_price e;
     ev_start_date := ev_start_date e; ev_end_date := ev_end_date e;
     ev_status := ev_status e; ev_total_votes := ev_total_votes e;
     ev_total_revenue := revenue |}.

Definition category1 : Category :=
  {| cat_id := "category-1"; cat_event_id := "event-1" |}.

Definition contestant1 : Contestant :=
  {| ct_id := "contestant-1"; ct_category_id := "category-1";
     ct_name := "Ama"; ct_vote_count := 0 |}.

Definition settings1 : Settings :=
  {| commission_rate := 500; stripe_enabled := true; paystack_enabled := true |}.

Definition db0 : DB :=
  {| events := [event1]; categories := [category1];
     contestants := [contestant1]; votes := []; payments := [];
     platform_settings := [settings1]; withdrawals := [] |}.

Definition intent1 : StripeObject :=
  {| so_id := "pi_1"; so_metadata := Some (Some "payment-1");
     so_payment_intent := None; so_status := "succeeded";
     so_client_secret := "pi_1_secret" |}.

Definition dispute1 : StripeObject :=
  {| so_id := "dp_1"; so_metadata := None;
     so_payment_intent := Some "pi_1"; so_status := "needs_response";
     so_client_secret := "" |}.

(** A world in which both providers answer favourably and every signature
    equal to ["good"] verifies; the raw body of a Stripe event is read as
    its type. *)
Definition env1 : Env :=
  {| now := 1500;
     uuidv4 := "payment-1";
     createPaymentIntent := fun _ _ _ => Data intent1;
     retrievePaymentIntent := fun _ => Data intent1;
     paystack_initialize := fun reference _ =>
       Some {| pin_status := true; pin_message := "Authorization URL created";
               pin_reference := reference;
               pin_authorization_url := "https://checkout.paystack.com/x";
               pin_access_code := "x" |};
     paystack_verify := fun _ =>
       Some {| pv_status := true; pv_data_status := "success" |};
     constructWebhookEvent := fun payload signature _ =>
       if signature =? "good"
       then Data {| se_type := payload;
                    se_data_object :=
                      if payload =? "charge.dispute.created"
                      then dispute1 else intent1 |}
       else Error "No signatures found matching the expected signature";
     hmac_sha512_hex := fun _ _ => "good" |}.

Definition with_now (t : timestamp) (env : Env) : Env :=
  {| now := t; uuidv4 := uuidv4 env;
     createPaymentIntent := createPaymentIntent env;
     retrievePaymentIntent := retrievePaymentIntent env;
     paystack_initialize := paystack_initialize env;
     paystack_verify := paystack_verify env;
     constructWebhookEvent := constructWebhookEvent env;
     hmac_sha512_hex := hmac_sha512_hex env |}.

(** The payment a voter's create-intent request leaves behind, once Stripe
    has confirmed it. *)
Definition payment1 : Payment :=
  {| p_id := "payment-1"; p_voter_id := "voter-1"; p_event_id := "event-1";
     p_contestant_id := "contestant-1"; p_amount := 500;
     p_platform_fee := 25; p_organizer_earnings := 475;
     p_payment_method := stripe; p_payment_provider_id := Some "pi_1";
     p_payment_intent_id := Some "pi_1"; p_status := completed |}.

Definition db_paid : DB := with_payments db0 [payment1].

Definition vote1 : Vote :=
  {| v_voter_id := "voter-1"; v_contestant_id := "contestant-1";
     v_event_id := "event-1"; v_payment_id := "payment-1"; v_amount := 500 |}.

(** The same store once the vote for [payment1] is in. *)
Definition db_voted : DB := update_vote_counts vote1 (with_votes db_paid [vote1]).

Definition create1 : Payments.CreateIntent :=
  {| Payments.ci_contestant_id := "contestant-1";
     Payments.ci_amount := 5%Q; Payments.ci_currency := None |}.

Definition succeeded1 : StripeWebhook.Request :=
  {| StripeWebhook.stripe_signature := Some "good";
     StripeWebhook.raw_body := "payment_intent.succeeded" |}.


Definition disputed1 : StripeWebhook.Request :=
  {| StripeWebhook.stripe_signature := Some "good";
     StripeWebhook.raw_body := "charge.dispute.created" |}.

Definition forged1 : StripeWebhook.Request :=
  {| StripeWebhook.stripe_signature := Some "bad";
     StripeWebhook.raw_body := "payment_intent.succeeded" |}.

Definition charge1 : PaystackWebhook.Request :=
  {| PaystackWebhook.x_paystack_signature := Some "good";
     PaystackWebhook.body_text := "{...}";
     PaystackWebhook.body :=
       {| pe_event := "charge.success";
          pe_data := Some {| pd_reference := Some "payment-1";
                             pd_id := "302961" |} |} |}.

(** [payment1] before Stripe has said anything: still pending. *)
Definition payment1_pending : Payment :=
  {| p_id := "payment-1"; p_voter_id := "voter-1"; p_event_id := "event-1";
     p_contestant_id := "contestant-1"; p_amount := 500;
     p_platform_fee := 25; p_organizer_earnings := 475;
     p_payment_method := stripe; p_payment_provider_id := None;
     p_payment_intent_id := Some "pi_1"; p_status := pending |}.

Definition db_pending : DB := with_payments db0 [payment1_pending].

Definition cast1 : Votes.CastVote :=
  {| Votes.cv_contestant_id := "contestant-1";
     Votes.cv_payment_id := "payment-1"; Votes.cv_amount := 5%Q |}.

Definition initialize1 : Payments.Initialize :=
  {| Payments.in_contestant_id := "contestant-1";
     Payments.in_amount := 5%Q; Payments.in_mobile_money_network := None |}.

Definition withdraw_request (amount : Q) : Organizer.WithdrawalRequest :=
  {| Organizer.wr_amount := amount;
     Organizer.wr_payment_method := "paystack";
     Organizer.wr_payment_details :=
       {| Organizer.account_number := None; Organizer.bank_name := None;
          Organizer.account_name := None; Organizer.mobile_number := None;
          Organizer.network := None |} |}.

End Sample.

(** ** Committing the vote of a payment *)

Module VoteCommit.
Import Schema Store Handler Http.
Open Scope Z_scope.
Open Scope string_scope.

(** The three ways a vote gets committed: the "succeeded" event of either
    provider, and POST /votes. *)
Inductive Commit : Type :=
| ByStripe (env : Env) (endpointSecret : option string)
    (req : StripeWebhook.Request)
| ByPaystack (env : Env) (secret : option string)
    (req : PaystackWebhook.Request)
| ByVote (env : Env) (voterId : uuid) (body : Votes.CastVote).

Definition program (c : Commit) : Prog Response :=
  match c with
  | ByStripe env endpointSecret req =>
      StripeWebhook.webhook env endpointSecret req
  | ByPaystack env secret req => PaystackWebhook.webhook env secret req
  | ByVote env voterId body => Votes.post_votes env voterId body
  end.

Definition counted (n : Z) (c : Contestant) : Contestant :=
  {| ct_id := ct_id c; ct_category_id := ct_category_id c;
     ct_name := ct_name c; ct_vote_count := ct_vote_count c + n |}.

Definition credited (n revenue : Z) (e : Event) : Event :=
  {| ev_id := ev_id e; ev_organizer_id := ev_organizer_id e;
     ev_title := ev_title e; ev_vote_price := ev_vote_price e;
     ev_start_date := ev_start_date e; ev_end_date := ev_end_date e;
     ev_status := ev_status e;
     ev_total_votes := ev_total_votes e + n;
     ev_total_revenue := ev_total_revenue e + revenue |}.

Definition total_amount (vs : list Vote) : Z :=
  fold_right (fun v sum => v_amount v + sum) 0 vs.

Section ForPayment.
(** The payment, and its contestant, category and event as they are before
    any vote for the payment is in. *)
Variable P : Payment.
Variable c0 : Contestant.
Variable cat : Category.
Variable e0 : Event.







End ForPayment.

End VoteCommit.

(** ** Every request the routes serve *)

Module Requests.
Import Schema Store Handler Http.
Open Scope string_scope.

Inductive Request : Type :=
| CreateIntent (env : Env) (userId : uuid) (body : Payments.CreateIntent)
| Initialize (env : Env) (userId : uuid) (body : Payments.Initialize)
| Verify (env : Env) (userId paymentId : uuid)
| Cancel (userId paymentId : uuid)
| StripeEventIn (env : Env) (endpointSecret : option string)
    (req : StripeWebhook.Request)
| PaystackEventIn (env : Env) (secret : option string)
    (req : PaystackWebhook.Request)
| CastVote (env : Env) (voterId : uuid) (body : Votes.CastVote)
| PutSettings (commission_rate : Q)
| GetEarnings (organizerId : uuid) (q : Organizer.EarningsQuery)
| Withdraw (env : Env) (organizerId : uuid) (body : Organizer.WithdrawalRequest).

Definition program (r : Request) : Prog Response :=
  match r with
  | CreateIntent env userId body => Payments.stripe_create_intent env userId body
  | Initialize env userId body => Payments.paystack_initialize_route env userId body
  | Verify env userId paymentId => Payments.verify_payment env userId paymentId
  | Cancel userId paymentId => Payments.cancel_payment userId paymentId
  | StripeEventIn env endpointSecret req =>
      StripeWebhook.webhook env endpointSecret req
  | PaystackEventIn env secret req => PaystackWebhook.webhook env secret req
  | CastVote env voterId body => Votes.post_votes env voterId body
  | PutSettings commission_rate => Admin.put_settings commission_rate
  | GetEarnings organizerId q => Organizer.get_earnings organizerId q
  | Withdraw env organizerId body => Organizer.post_withdrawals env organizerId body
  end.

(** Requests served one after the other. *)
Definition serve (requests : list Request) (db : DB) : DB :=
  fold_left (fun db r => snd (exec (program r) db)) requests db.

(** The status of the rows of [payments] with a given id (the primary key
    leaves at most one). *)
Definition statuses (db : DB) (paymentId : uuid) : list payment_status :=
  map p_status (filter (fun p => p_id p =? paymentId) (payments db)).




End Requests.

(** ** Counters and the votes they count *)

Module Ledger.
Import Schema Store Handler Http.
Open Scope Z_scope.
Open Scope string_scope.

(** The rows of [vs] that reference a contestant, or an event, the way the
    trigger compares them. *)
Definition votes_of_contestant (contestant_id : uuid) (vs : list Vote)
    : list Vote :=
  filter (fun v => contestant_id =? v_contestant_id v) vs.

Definition votes_of_event (event_id : uuid) (vs : list Vote) : list Vote :=
  filter (fun v => event_id =? v_event_id v) vs.

(** A contestant, and an event, after the trigger has fired for each vote of
    [more]. *)
Definition counted_by (more : list Vote) (c : Contestant) : Contestant :=
  VoteCommit.counted
    (Z.of_nat (List.length (votes_of_contestant (ct_id c) more))) c.

Definition credited_by (more : list Vote) (e : Event) : Event :=
  VoteCommit.credited
    (Z.of_nat (List.length (votes_of_event (ev_id e) more)))
    (VoteCommit.total_amount (votes_of_event (ev_id e) more)) e.

(** The denormalized counters say what the votes table holds. *)
Definition consistent (db : DB) : Prop :=
  Forall (fun c =>
            ct_vote_count c
            = Z.of_nat (List.length (votes_of_contestant (ct_id c) (votes db))))
         (contestants db)
  /\ Forall (fun e =>
               ev_total_votes e
               = Z.of_nat (List.length (votes_of_event (ev_id e) (votes db)))
               /\ ev_total_revenue e
                  = VoteCommit.total_amount (votes_of_event (ev_id e) (votes db)))
            (events db).


(** What a store has become since [db]: votes were added, each one moved
    the counters of its contestant and event, and nothing else of the
    catalogue changed. *)
Definition follows (db db' : DB) : Prop :=
  exists more,
    votes db' = (votes db ++ more)%list
    /\ contestants db' = map (counted_by more) (contestants db)
    /\ events db' = map (credited_by more) (events db)
    /\ categories db' = categories db.

End Ledger.

(** ** From a payment request to its vote *)

Module Checkout.
Import Schema Store Handler Http.
Open Scope string_scope.

(** The row the two payment-creation routes insert, as the store keeps it:
    the amount is the event's price, the split is computed at the rate of
    the settings row and rounded by the column. *)
Definition new_payment (paymentId userId contestant_id : uuid) (event : Event)
    (settings : Settings) (method : payment_method) : Payment :=
  let amount := number_of_10_2 (ev_vote_price event) in
  let rate := number_of_5_4 (commission_rate settings) in
  {| p_id := paymentId; p_voter_id := userId; p_event_id := ev_id event;
     p_contestant_id := contestant_id;
     p_amount := ev_vote_price event;
     p_platform_fee := numeric_10_2_in (Commission.platformFee amount rate);
     p_organizer_earnings :=
       numeric_10_2_in (Commission.organizerEarnings amount rate);
     p_payment_method := method;
     p_payment_provider_id := None;
     p_payment_intent_id := None;
     p_status := pending |}.

(** A payment with its three mutable columns set. *)
Definition settled_as (status : payment_status)
    (provider_id intent_id : option string) (p : Payment) : Payment :=
  {| p_id := p_id p; p_voter_id := p_voter_id p; p_event_id := p_event_id p;
     p_contestant_id := p_contestant_id p; p_amount := p_amount p;
     p_platform_fee := p_platform_fee p;
     p_organizer_earnings := p_organizer_earnings p;
     p_payment_method := p_payment_method p;
     p_payment_provider_id := provider_id;
     p_payment_intent_id := intent_id;
     p_status := status |}.






(** What is known of a vote [v] that a request has added to [db], leaving
    [db']: it is the one row added, and a payment with the id it references
    is in [db'], completed, with the vote's voter and contestant. *)
Definition paid_for (db db' : DB) (v : Vote) : Prop :=
  votes db' = (votes db ++ [v])%list
  /\ exists payment,
       In payment (payments db')
       /\ p_id payment = v_payment_id v
       /\ p_status payment = completed
       /\ p_voter_id payment = v_voter_id v
       /\ p_contestant_id payment = v_contestant_id v.

(** A statement that is not an insert into [votes]. *)
Definition inserts_no_vote (A : Type) (s : Stmt A) : Prop :=
  match s with
  | InsertVote _ => False
  | _ => True
  end.

End Checkout.

(** ** src/unnamed/part_000, lines 10-127: what is sent to Stripe *)

Module StripeConfig.
Open Scope Q_scope.
Open Scope string_scope.

(** [getSupportedCurrencies] *)
Definition getSupportedCurrencies : list string :=
  ["usd"; "eur"; "gbp"; "cad"; "aud"; "jpy"; "sgd"; "chf"; "nok"; "sek"; "dkk"].

(** The [amount] field [createPaymentIntent] passes to
    [stripe.paymentIntents.create], whatever the currency. *)
Definition paymentIntentAmount (amount : Q) : Z := JS.Math_round (amount * 100).

(** The [amount] field of [createRefund]: [undefined] (a full refund) when
    no amount is given, and when the amount given is zero. *)
Definition refundAmount (amount : option Q) : option Z :=
  match amount with
  | Some a => if Qeq_bool a 0 then None else Some (JS.Math_round (a * 100))
  | None => None
  end.

End StripeConfig.

(** ** Replies with a body of their own *)

Module Replies.
Import Http.

(** What a read route sends: a JSON body of the route's own, or one of the
    error and message bodies. *)
Inductive Reply (A : Type) : Type :=
| Json (status : nat) (body : A)
| Plain (response : Response).
Arguments Json {A} status body.
Arguments Plain {A} response.

(** [Math.max(a, b)] *)
Definition Math_max (a b : Q) : Q := if Qle_bool a b then b else a.

End Replies.

(** ** The votes router, GET /can-vote/:contestantId
    (src/routes/votes.js, lines 527-594) *)

Module Eligibility.
Import Schema Store Handler Http Replies.
Open Scope string_scope.
Open Scope prog_scope.

Record CanVote : Type := {
  can_vote : bool;
  reason : string;
  cv_event : Event;
  cv_contestant : uuid * string
}.

Definition can_vote_route (env : Env) (contestantId : uuid)
    : Prog (Reply CanVote) :=
  try_catch
    (rows <- await SelectContestantEvent contestantId ;;
     match single rows with
     | Error _ => Return (Plain (respond 404 (ErrorBody "Contestant not found")))
     | Data contestant =>
     match cj_category contestant with
     | None => Throw "TypeError: Cannot read properties of null (reading 'event')"
     | Some category =>
     match cgj_event category with
     | None => Throw "TypeError: Cannot read properties of null (reading 'start_date')"
     | Some event =>
       let verdict :=
         if negb (event_status_out (ev_status event) =? "active")
         then (false, "Event is not active")
         else if (now env <? ev_start_date event)%Z
         then (false, "Voting has not started yet")
         else if (ev_end_date event <? now env)%Z
         then (false, "Voting has ended")
         else (true, "") in
       Return (Json 200
         {| can_vote := fst verdict;
            reason := if truthy (Some (snd verdict)) then snd verdict
                      else "You can vote for this contestant";
            cv_event := event;
            cv_contestant := (cj_id contestant, cj_name contestant) |})
     end end end)
    (fun _ => Return (Plain (respond 500
                 (ErrorBody "Failed to check vote eligibility")))).

End Eligibility.

(** ** The payments router, GET /history
    (src/unnamed/part_001, lines 479-551) *)

Module PaymentHistory.
Import Schema Store Handler Http Replies.
Open Scope string_scope.
Open Scope prog_scope.

Record HistoryQuery : Type := {
  hq_page : option nat;
  hq_limit : option nat;
  hq_status : option string
}.

Definition history_query_valid (q : HistoryQuery) : bool :=
  match hq_page q with Some n => (1 <=? n)%nat | None => true end
  && match hq_limit q with
     | Some n => (1 <=? n)%nat && (n <=? 100)%nat
     | None => true
     end
  && match hq_status q with
     | Some s => JS.includes ["pending"; "completed"; "failed"; "refunded"] s
     | None => true
     end.

Record History : Type := {
  h_payments : list Payment;
  h_page : nat;
  h_limit : nat;
  total_payments : nat;
  total_spent : Q;
  total_fees : Q
}.

(** [payments.reduce((sum, payment) =>
       payment.status === 'completed' ? sum + parseFloat(f(payment)) : sum, 0)] *)
Definition sum_completed (f : Payment -> Q) (payments : list Payment) : Q :=
  fold_left
    (fun sum payment =>
       if payment_status_out (p_status payment) =? "completed"
       then (sum + f payment)%Q else sum)
    payments 0%Q.

Definition get_history (userId : uuid) (q : HistoryQuery)
    : Prog (Reply History) :=
  try_catch
    (if negb (history_query_valid q)
     then Return (Plain (respond 400 ValidationErrors))
     else
       let page := match hq_page q with Some n => n | None => 1%nat end in
       let limit := match hq_limit q with Some n => n | None => 10%nat end in
       let status := hq_status q in
       rows <- await SelectPayments
         (fun p => (p_voter_id p =? userId)
                   && if truthy status
                      then match status with
                           | Some s => payment_status_out (p_status p) =? s
                           | None => true
                           end
                      else true) ;;
       let payments := Organizer.page_of page limit rows in
       Return (Json 200
         {| h_payments := payments; h_page := page; h_limit := limit;
            total_payments := List.length payments;
            total_spent :=
              sum_completed (fun p => number_of_10_2 (p_amount p)) payments;
            total_fees :=
              sum_completed (fun p => number_of_10_2 (p_platform_fee p))
                payments |}))
    (fun _ => Return (Plain (respond 500
                 (ErrorBody "Failed to fetch payment history")))).

End PaymentHistory.

(** ** The organizer router, GET /dashboard and GET /withdrawal-info
    (src/routes/organizer.js, lines 14-105 and 552-612) *)

Module OrganizerViews.
Import Schema Store Handler Http Replies Organizer.
Open Scope string_scope.
Open Scope prog_scope.

Definition amount_of (w : Withdrawal) : Q := number_of_10_2 (w_amount w).

Record Dashboard : Type := {
  total_events : nat;
  active_events : nat;
  total_votes : Z;
  total_revenue : Q;
  platform_fee : Q;
  available_earnings : Q;
  total_withdrawn : Q;
  pending_withdrawals : Q;
  withdrawable_amount : Q;
  recent_events : list Event
}.

(** GET /dashboard.  The payments it reads (those whose voter is the
    organizer) do not enter the figures. *)
Definition get_dashboard (organizerId : uuid) : Prog (Reply Dashboard) :=
  try_catch
    (owned <- await SelectEvents (fun e => ev_organizer_id e =? organizerId) ;;
     let events := rev owned in
     await SelectPayments
       (fun p => (p_voter_id p =? organizerId)
                 && (payment_status_out (p_status p) =? "completed")) ;;
     let totalEvents := List.length events in
     let activeEvents :=
       List.length
         (filter (fun e => event_status_out (ev_status e) =? "active") events) in
     let totalVotes :=
       fold_left (fun sum e => (sum + ev_total_votes e)%Z) events 0%Z in
     let totalRevenue :=
       sum_of (fun e => number_of_10_2 (ev_total_revenue e)) events in
     settings_rows <- await SelectSettings ;;
     let commissionRate := commissionRate (single settings_rows) in
     let platformFee := (totalRevenue * commissionRate)%Q in
     let availableEarnings := (totalRevenue - platformFee)%Q in
     withdrawals <- await SelectWithdrawals
       (fun w => w_organizer_id w =? organizerId) ;;
     let totalWithdrawn :=
       sum_of amount_of
         (filter (fun w => w_status w =? "completed") withdrawals) in
     let pendingWithdrawals :=
       sum_of amount_of
         (filter (fun w => w_status w =? "pending") withdrawals) in
     let withdrawableAmount :=
       (availableEarnings - totalWithdrawn - pendingWithdrawals)%Q in
     Return (Json 200
       {| total_events := totalEvents;
          active_events := activeEvents;
          total_votes := totalVotes;
          total_revenue := totalRevenue;
          platform_fee := platformFee;
          available_earnings := availableEarnings;
          total_withdrawn := totalWithdrawn;
          pending_withdrawals := pendingWithdrawals;
          withdrawable_amount := Math_max 0 withdrawableAmount;
          recent_events := firstn 5 events |}))
    (fun _ => Return (Plain (respond 500
                 (ErrorBody "Failed to fetch dashboard data")))).

Record WithdrawalInfo : Type := {
  available_balance : Q;
  total_earnings : Q;
  info_total_withdrawn : Q;
  info_pending_withdrawals : Q;
  minimum_withdrawal : Q
}.

(** GET /withdrawal-info, without the constant list of withdrawal
    methods. *)
Definition get_withdrawal_info (organizerId : uuid)
    : Prog (Reply WithdrawalInfo) :=
  try_catch
    (events <- await SelectEvents (fun e => ev_organizer_id e =? organizerId) ;;
     let totalRevenue :=
       sum_of (fun e => number_of_10_2 (ev_total_revenue e)) events in
     settings_rows <- await SelectSettings ;;
     let commissionRate := commissionRate (single settings_rows) in
     let availableEarnings := (totalRevenue * (1 - commissionRate))%Q in
     withdrawals <- await SelectWithdrawals
       (fun w => (w_organizer_id w =? organizerId)
                 && JS.includes ["completed"; "pending"; "processing"]
                      (w_status w)) ;;
     let totalWithdrawnOrPending := sum_of amount_of withdrawals in
     let withdrawableAmount :=
       Math_max 0 (availableEarnings - totalWithdrawnOrPending)%Q in
     Return (Json 200
       {| available_balance := withdrawableAmount;
          total_earnings := availableEarnings;
          info_total_withdrawn :=
            sum_of amount_of
              (filter (fun w => w_status w =? "completed") withdrawals);
          info_pending_withdrawals :=
            sum_of amount_of
              (filter (fun w => JS.includes ["pending"; "processing"]
                                  (w_status w))
                      withdrawals);
          minimum_withdrawal := 10 |}))
    (fun _ => Return (Plain (respond 500
                 (ErrorBody "Failed to fetch withdrawal information")))).

(** What a route answered, when it answered with a body of its own. *)
Definition body_of {A : Type} (p : Prog (Reply A)) (db : DB) : option A :=
  match fst (exec p db) with
  | Returned (Json _ body) => Some body
  | _ => None
  end.


End OrganizerViews.

(** ** Routes in store-passing style

    The routes below issue statements that are not among [Store.Stmt]
    (deletes, updates of events, contestants and users).  They are written as
    functions from the store to an answer and the store that is left: each
    [await] of the source is one [let], in the order of the source. *)

(** ** Users and the middleware (src/client/src/config/supabase.js, the
    middleware part, lines 31-205; src/database/schema.sql, lines 5-21) *)

Module Users.
Import Schema Store Http.
Open Scope string_scope.

(** [CREATE TYPE user_role AS ENUM ('admin', 'organizer', 'voter')] *)
Inductive user_role : Type := admin | organizer | voter.

(** [CREATE TYPE organizer_status AS ENUM ('pending', 'approved', 'blocked')] *)
Inductive organizer_status : Type := awaiting | approved | blocked.

Definition user_role_out (r : user_role) : string :=
  match r with admin => "admin" | organizer => "organizer" | voter => "voter" end.

Definition organizer_status_out (s : organizer_status) : string :=
  match s with
  | awaiting => "pending"
  | approved => "approved"
  | blocked => "blocked"
  end.

Definition user_role_in (s : string) : option user_role :=
  if s =? "admin" then Some admin
  else if s =? "organizer" then Some organizer
  else if s =? "voter" then Some voter
  else None.

Definition organizer_status_in (s : string) : option organizer_status :=
  if s =? "pending" then Some awaiting
  else if s =? "approved" then Some approved
  else if s =? "blocked" then Some blocked
  else None.

(** A row of [public.users]; [organizer_status] may be null. *)
Record User : Type := {
  u_id : uuid;
  u_role : user_role;
  u_organizer_status : option organizer_status
}.

(** [req.user.organizer_status] as the middleware compares it. *)
Definition status_label (u : User) : option string :=
  match u_organizer_status u with
  | Some s => Some (organizer_status_out s)
  | None => None
  end.

(** A middleware answers, or calls [next()] ([None]). *)
Definition Middleware := option Response.

(** [authenticateToken]: [token] is the second word of the Authorization
    header, [getUser] what [supabase.auth.getUser] resolves a token to; the
    profile is then read from the users table. *)
Definition authenticateToken (getUser : string -> option uuid)
    (token : option string) (users : list User) : Response + User :=
  match token with
  | Some t =>
      if negb (truthy token)
      then inl (respond 401 (ErrorBody "Access token required"))
      else
        match getUser t with
        | None => inl (respond 401 (ErrorBody "Invalid or expired token"))
        | Some id =>
            match single (filter (fun u => u_id u =? id) users) with
            | Error _ => inl (respond 404 (ErrorBody "User profile not found"))
            | Data profile => inr profile
            end
        end
  | None => inl (respond 401 (ErrorBody "Access token required"))
  end.

(** [requireRole(roles)] *)
Definition requireRole (roles : list string) (user : option User) : Middleware :=
  match user with
  | None => Some (respond 401 (ErrorBody "Authentication required"))
  | Some u =>
      if negb (JS.includes roles (user_role_out (u_role u)))
      then Some (respond 403 (ErrorBody "Insufficient permissions"))
      else None
  end.

(** [requireApprovedOrganizer] *)
Definition requireApprovedOrganizer (user : option User) : Middleware :=
  match user with
  | None => Some (respond 401 (ErrorBody "Authentication required"))
  | Some u =>
      if negb (user_role_out (u_role u) =? "organizer")
      then Some (respond 403 (ErrorBody "Organizer role required"))
      else if negb (match status_label u with
                    | Some s => s =? "approved"
                    | None => false
                    end)
      then Some (respond 403 (ErrorBody "Organizer approval required"))
      else None
  end.

(** The owner of a resource, as each case of [requireOwnership] reads it:
    the event's organizer, or the organizer of the event that an inner join
    reaches from the category or the contestant. *)
Inductive resourceType : Type :=
| event_resource | category_resource | contestant_resource.

Definition owner_rows (type : resourceType) (resourceId : uuid) (db : DB)
    : list uuid :=
  match type with
  | event_resource =>
      map ev_organizer_id (filter (fun e => ev_id e =? resourceId) (events db))
  | category_resource =>
      flat_map
        (fun c =>
           map ev_organizer_id
             (filter (fun e => ev_id e =? cat_event_id c) (events db)))
        (filter (fun c => cat_id c =? resourceId) (categories db))
  | contestant_resource =>
      flat_map
        (fun ct =>
           flat_map
             (fun c =>
                map ev_organizer_id
                  (filter (fun e => ev_id e =? cat_event_id c) (events db)))
             (filter (fun c => cat_id c =? ct_category_id ct) (categories db)))
        (filter (fun ct => ct_id ct =? resourceId) (contestants db))
  end.

(** [requireOwnership(resourceType)] *)
Definition requireOwnership (type : resourceType) (user : User)
    (resourceId : uuid) (db : DB) : Middleware :=
  match single (owner_rows type resourceId db) with
  | Error _ => Some (respond 404 (ErrorBody "Resource not found"))
  | Data ownerId =>
      if negb (ownerId =? u_id user)
         && negb (user_role_out (u_role user) =? "admin")
      then Some (respond 403 (ErrorBody "Resource access denied"))
      else None
  end.

(** [body(field).optional().isIn(labels)] *)
Definition optional_in (x : option string) (labels : list string) : bool :=
  match x with Some s => JS.includes labels s | None => true end.

(** A route behind a middleware: the handler runs only if the middleware
    called [next()]. *)
Definition behind {A : Type} (m : Middleware) (answer : Response -> A)
    (handler : DB -> A * DB) (db : DB) : A * DB :=
  match m with
  | Some response => (answer response, db)
  | None => handler db
  end.

End Users.

(** ** Withdrawals after the request: the organizer's DELETE
    (src/routes/organizer.js, lines 384-421) and the admin's processing
    (src/routes/votes.js, lines 1899-1954) *)

Module Withdrawing.
Import Schema Store Http.
Open Scope string_scope.




End Withdrawing.

(** ** The events router (src/unnamed/part_002, lines 164-466), the admin's
    force-end (src/routes/votes.js, lines 1710-1744) and the constraints of
    the events table (src/database/schema.sql, lines 24-40) *)

Module Events.
Import Schema Store Http Replies Users.
Open Scope Z_scope.
Open Scope string_scope.

(** [CONSTRAINT valid_dates CHECK (end_date > start_date)] and
    [CONSTRAINT positive_vote_price CHECK (vote_price > 0)] *)
Definition checks (e : Event) : bool :=
  (ev_start_date e <? ev_end_date e)%Z && (0 <? ev_vote_price e)%Z.

(** [INSERT INTO events]: the id is generated by the store; the counters
    take their defaults. *)
Definition insert_event (generated_id organizer_id : uuid) (title : string)
    (vote_price : Q) (start_date end_date : timestamp) (status : event_status)
    (db : DB) : Result Event * DB :=
  let e := {| ev_id := generated_id; ev_organizer_id := organizer_id;
              ev_title := title; ev_vote_price := numeric_10_2_in vote_price;
              ev_start_date := start_date; ev_end_date := end_date;
              ev_status := status; ev_total_votes := 0%Z;
              ev_total_revenue := 0%Z |} in
  if existsb (fun x => ev_id x =? generated_id) (events db)
  then (Error "duplicate key value violates unique constraint events_pkey", db)
  else if negb (checks e)
  then (Error "new row for relation events violates check constraint", db)
  else (Data e, with_events db (events db ++ [e])).

(** The columns an update of an event may set. *)
Record EventPatch : Type := {
  set_title : option string;
  set_vote_price : option Q;
  set_start_date : option timestamp;
  set_end_date : option timestamp;
  set_event_status : option event_status
}.

Definition patched (set : EventPatch) (e : Event) : Event :=
  {| ev_id := ev_id e; ev_organizer_id := ev_organizer_id e;
     ev_title := match set_title set with Some t => t | None => ev_title e end;
     ev_vote_price :=
       match set_vote_price set with
       | Some p => numeric_10_2_in p
       | None => ev_vote_price e
       end;
     ev_start_date :=
       match set_start_date set with Some d => d | None => ev_start_date e end;
     ev_end_date :=
       match set_end_date set with Some d => d | None => ev_end_date e end;
     ev_status :=
       match set_event_status set with Some s => s | None => ev_status e end;
     ev_total_votes := ev_total_votes e;
     ev_total_revenue := ev_total_revenue e |}.

(** [UPDATE events SET ... WHERE ...] followed by [.select().single()]: a
    new row that violates a check fails the statement and leaves every row as
    it was; the rows returned are the updated ones. *)
Definition update_events (where_ : Event -> bool) (set : EventPatch) (db : DB)
    : Result Event * DB :=
  let updated := map (patched set) (filter where_ (events db)) in
  if negb (forallb checks updated)
  then (Error "new row for relation events violates check constraint", db)
  else
    (single updated,
     with_events db
       (map (fun e => if where_ e then patched set e else e) (events db))).

(** [DELETE FROM events WHERE id = ...], with what [ON DELETE CASCADE]
    takes along: the categories of the event, their contestants, and the
    votes and payments that reference the event or one of those
    contestants. *)
Definition delete_event (event_id : uuid) (db : DB) : DB :=
  let in_gone_category (c : Contestant) :=
    existsb (fun g => (cat_event_id g =? event_id)%string
                      && (cat_id g =? ct_category_id c)%string)
            (categories db) in
  let of_gone_contestant (id : uuid) :=
    existsb (fun c => in_gone_category c && (ct_id c =? id)%string)
            (contestants db) in
  {| events := filter (fun e => negb (ev_id e =? event_id)%string) (events db);
     categories :=
       filter (fun c => negb (cat_event_id c =? event_id)%string)
              (categories db);
     contestants := filter (fun c => negb (in_gone_category c)) (contestants db);
     votes :=
       filter (fun v => negb (v_event_id v =? event_id)%string
                        && negb (of_gone_contestant (v_contestant_id v)))
              (votes db);
     payments :=
       filter (fun p => negb (p_event_id p =? event_id)%string
                        && negb (of_gone_contestant (p_contestant_id p)))
              (payments db);
     platform_settings := platform_settings db;
     withdrawals := withdrawals db |}.

(** [req.body] of POST / and PUT /:id; every field of the second is
    optional. *)
Record EventBody : Type := {
  eb_title : option string;
  eb_vote_price : option Q;
  eb_start_date : option timestamp;
  eb_end_date : option timestamp
}.

Definition title_valid (t : string) : bool :=
  (3 <=? String.length t)%nat && (String.length t <=? 255)%nat.

Definition price_valid (p : Q) : bool := Qle_bool (1 # 100) p.

Definition optional {A : Type} (valid : A -> bool) (x : option A) : bool :=
  match x with Some a => valid a | None => true end.

Definition required {A : Type} (valid : A -> bool) (x : option A) : bool :=
  match x with Some a => valid a | None => false end.

(** POST /, behind [authenticateToken] and [requireApprovedOrganizer]. *)
Definition create_event (now : timestamp) (generated_id : uuid) (user : User)
    (body : EventBody) (db : DB) : Reply Event * DB :=
  behind (requireApprovedOrganizer (Some user)) Plain
    (fun db =>
       match eb_title body, eb_vote_price body, eb_start_date body,
             eb_end_date body with
       | Some title, Some vote_price, Some start_date, Some end_date =>
           if negb (title_valid title && price_valid vote_price)
           then (Plain (respond 400 ValidationErrors), db)
           else if (start_date <=? now)%Z
           then (Plain (respond 400
                   (ErrorBody "Start date must be in the future")), db)
           else if (end_date <=? start_date)%Z
           then (Plain (respond 400
                   (ErrorBody "End date must be after start date")), db)
           else
             match insert_event generated_id (u_id user) title vote_price
                     start_date end_date draft db with
             | (Error message, db') =>
                 (Plain (respond 400
                    (ErrorMessageBody "Failed to create event" message)), db')
             | (Data e, db') => (Json 201 e, db')
             end
       | _, _, _, _ => (Plain (respond 400 ValidationErrors), db)
       end)
    db.

(** [new Date(x)] of a value that may be [undefined]: an invalid date
    compares false with everything. *)
Definition date_le (a b : option timestamp) : bool :=
  match a, b with
  | Some x, Some y => (x <=? y)%Z
  | _, _ => false
  end.

(** PUT /:id, behind [authenticateToken] and [requireOwnership('event')].
    The row read first holds [status] and [total_votes] only, so the dates
    the check falls back on are [undefined]. *)
Definition update_event (user : User) (eventId : uuid) (body : EventBody)
    (db : DB) : Reply Event * DB :=
  behind (requireOwnership event_resource user eventId db) Plain
    (fun db =>
       if negb (optional title_valid (eb_title body)
                && optional price_valid (eb_vote_price body))
       then (Plain (respond 400 ValidationErrors), db)
       else
         match single (filter (fun e => (ev_id e =? eventId)%string) (events db)) with
         | Error _ => (Plain (respond 404 (ErrorBody "Event not found")), db)
         | Data currentEvent =>
             if (event_status_out (ev_status currentEvent) =? "active")%string
                && (0 <? ev_total_votes currentEvent)%Z
             then (Plain (respond 400
                     (ErrorBody "Cannot modify active event with existing votes")),
                   db)
             else
               let current_start_date : option timestamp := None in
               let current_end_date : option timestamp := None in
               let startDate :=
                 match eb_start_date body with
                 | Some d => Some d
                 | None => current_start_date
                 end in
               let endDate :=
                 match eb_end_date body with
                 | Some d => Some d
                 | None => current_end_date
                 end in
               if match eb_start_date body, eb_end_date body with
                  | None, None => false
                  | _, _ => date_le endDate startDate
                  end
               then (Plain (respond 400
                       (ErrorBody "End date must be after start date")), db)
               else
                 match update_events (fun e => (ev_id e =? eventId)%string)
                         {| set_title :=
                              if truthy (eb_title body) then eb_title body
                              else None;
                            set_vote_price :=
                              match eb_vote_price body with
                              | Some p => if Qeq_bool p 0 then None else Some p
                              | None => None
                              end;
                            set_start_date := eb_start_date body;
                            set_end_date := eb_end_date body;
                            set_event_status := None |} db with
                 | (Error message, db') =>
                     (Plain (respond 400
                        (ErrorMessageBody "Failed to update event" message)),
                      db')
                 | (Data e, db') => (Json 200 e, db')
                 end
         end)
    db.

(** POST /:id/activate.  [embedded_contestants] gives, for a category, the
    length of the [contestants] array that the [contestants(count)] embed of
    the select returns for it. *)
Definition activate_event (now : timestamp)
    (embedded_contestants : Category -> nat) (user : User) (eventId : uuid)
    (db : DB) : Reply Event * DB :=
  behind (requireOwnership event_resource user eventId db) Plain
    (fun db =>
       match single (filter (fun e => (ev_id e =? eventId)%string) (events db)) with
       | Error _ => (Plain (respond 404 (ErrorBody "Event not found")), db)
       | Data e =>
           let categories :=
             filter (fun c => (cat_event_id c =? ev_id e)%string)
                    (categories db) in
           if negb (event_status_out (ev_status e) =? "draft")%string
           then (Plain (respond 400
                   (ErrorBody "Only draft events can be activated")), db)
           else if (List.length categories =? 0)%nat
           then (Plain (respond 400
                   (ErrorBody "Event must have at least one category to be activated")),
                 db)
           else if negb (existsb (fun c => (0 <? embedded_contestants c)%nat)
                           categories)
           then (Plain (respond 400
                   (ErrorBody "Event must have contestants in at least one category to be activated")),
                 db)
           else if (ev_end_date e <=? now)%Z
           then (Plain (respond 400
                   (ErrorBody "Event end date has already passed")), db)
           else
             match update_events (fun x => (ev_id x =? eventId)%string)
                     {| set_title := None; set_vote_price := None;
                        set_start_date := None; set_end_date := None;
                        set_event_status := Some active |} db with
             | (Error message, db') =>
                 (Plain (respond 400
                    (ErrorMessageBody "Failed to activate event" message)),
                  db')
             | (Data e', db') => (Json 200 e', db')
             end
       end)
    db.

(** POST /:id/end: the update is restricted to an active row, and
    [.single()] turns "no row" into an error. *)
Definition end_event (user : User) (eventId : uuid) (db : DB)
    : Reply Event * DB :=
  behind (requireOwnership event_resource user eventId db) Plain
    (fun db =>
       match update_events
               (fun e => (ev_id e =? eventId)%string
                         && (event_status_out (ev_status e) =? "active")%string)
               {| set_title := None; set_vote_price := None;
                  set_start_date := None; set_end_date := None;
                  set_event_status := Some ended |} db with
       | (Error message, db') =>
           (Plain (respond 400
              (ErrorMessageBody "Failed to end event" message)), db')
       | (Data e, db') => (Json 200 e, db')
       end)
    db.

(** DELETE /:id *)
Definition delete_event_route (user : User) (eventId : uuid) (db : DB)
    : Reply Event * DB :=
  behind (requireOwnership event_resource user eventId db) Plain
    (fun db =>
       match single (filter (fun e => (ev_id e =? eventId)%string) (events db)) with
       | Error _ => (Plain (respond 404 (ErrorBody "Event not found")), db)
       | Data e =>
           if (event_status_out (ev_status e) =? "active")%string
              && (0 <? ev_total_votes e)%Z
           then (Plain (respond 400
                   (ErrorBody "Cannot delete active event with existing votes")),
                 db)
           else
             (Plain (respond 200 (MessageBody "Event deleted successfully")),
              delete_event eventId db)
       end)
    db.

(** POST /events/:eventId/force-end of the admin router, behind
    [requireRole('admin')]. *)
Definition force_end_event (user : User) (eventId : uuid) (db : DB)
    : Reply Event * DB :=
  behind (requireRole ["admin"%string] (Some user)) Plain
    (fun db =>
       match update_events (fun e => (ev_id e =? eventId)%string)
               {| set_title := None; set_vote_price := None;
                  set_start_date := None; set_end_date := None;
                  set_event_status := Some ended |} db with
       | (Error message, db') =>
           (Plain (respond 400
              (ErrorMessageBody "Failed to end event" message)), db')
       | (Data e, db') => (Json 200 e, db')
       end)
    db.

(** The requests that write to [events]. *)
Inductive Request : Type :=
| Create (now : timestamp) (generated_id : uuid) (user : User) (body : EventBody)
| Update (user : User) (eventId : uuid) (body : EventBody)
| Activate (now : timestamp) (embedded_contestants : Category -> nat)
    (user : User) (eventId : uuid)
| End_ (user : User) (eventId : uuid)
| Delete (user : User) (eventId : uuid)
| ForceEnd (user : User) (eventId : uuid).

Definition handle (r : Request) (db : DB) : Reply Event * DB :=
  match r with
  | Create now generated_id user body => create_event now generated_id user body db
  | Update user eventId body => update_event user eventId body db
  | Activate now embedded user eventId =>
      activate_event now embedded user eventId db
  | End_ user eventId => end_event user eventId db
  | Delete user eventId => delete_event_route user eventId db
  | ForceEnd user eventId => force_end_event user eventId db
  end.

Definition serve (requests : list Request) (db : DB) : DB :=
  fold_left (fun db r => snd (handle r db)) requests db.

(** Who may write: an approved organizer creates; the owner of the event,
    or an admin, updates, activates, ends and deletes; an admin force-ends. *)
Definition authorized (r : Request) (db : DB) : Prop :=
  match r with
  | Create _ _ user _ =>
      u_role user = organizer /\ u_organizer_status user = Some approved
  | Update user eventId _ | Activate _ _ user eventId | End_ user eventId
  | Delete user eventId =>
      exists e,
        filter (fun x => ev_id x =? eventId) (events db) = [e]
        /\ (ev_organizer_id e = u_id user \/ u_role user = admin)
  | ForceEnd user _ => u_role user = admin
  end.

(** The order of the states of an event. *)
Definition rank (s : event_status) : nat :=
  match s with draft => 0%nat | active => 1%nat | ended => 2%nat end.

End Events.

(** ** The contestants router (src/client/src/config/supabase.js, lines
    306-490): create, update, delete *)

Module Contestants.
Import Schema Store Http Replies Users.
Open Scope Z_scope.
Open Scope string_scope.

Definition name_valid (name : string) : bool :=
  (2 <=? String.length name)%nat && (String.length name <=? 255)%nat.

(** [INSERT INTO contestants]: the id is generated by the store, the count
    takes its default. *)
Definition insert_contestant (generated_id category_id : uuid) (name : string)
    (db : DB) : Result Contestant * DB :=
  let c := {| ct_id := generated_id; ct_category_id := category_id;
              ct_name := name; ct_vote_count := 0%Z |} in
  if existsb (fun x => ct_id x =? generated_id) (contestants db)
  then (Error "duplicate key value violates unique constraint contestants_pkey",
        db)
  else if negb (existsb (fun g => cat_id g =? category_id) (categories db))
  then (Error "insert or update on table contestants violates foreign key constraint",
        db)
  else (Data c, with_contestants db (contestants db ++ [c])).

(** [UPDATE contestants SET name = ... WHERE id = ...] with
    [.select().single()]. *)
Definition rename_contestants (contestant_id : uuid) (name : option string)
    (db : DB) : Result Contestant * DB :=
  let renamed (c : Contestant) :=
    {| ct_id := ct_id c; ct_category_id := ct_category_id c;
       ct_name := match name with Some n => n | None => ct_name c end;
       ct_vote_count := ct_vote_count c |} in
  (single (map renamed
             (filter (fun c => ct_id c =? contestant_id) (contestants db))),
   with_contestants db
     (map (fun c => if ct_id c =? contestant_id then renamed c else c)
          (contestants db))).

(** [DELETE FROM contestants WHERE id = ...], with the votes and payments
    that [ON DELETE CASCADE] takes along. *)
Definition delete_contestant (contestant_id : uuid) (db : DB) : DB :=
  {| events := events db;
     categories := categories db;
     contestants :=
       filter (fun c => negb (ct_id c =? contestant_id)) (contestants db);
     votes :=
       filter (fun v => negb (v_contestant_id v =? contestant_id)) (votes db);
     payments :=
       filter (fun p => negb (p_contestant_id p =? contestant_id)) (payments db);
     platform_settings := platform_settings db;
     withdrawals := withdrawals db |}.

(** POST /, behind [authenticateToken]. *)
Definition create_contestant (generated_id : uuid) (user : User)
    (category_id : uuid) (name : string) (db : DB)
    : Reply Contestant * DB :=
  if negb (name_valid name)
  then (Plain (respond 400 ValidationErrors), db)
  else
    match single (filter (fun c => cat_id c =? category_id) (categories db)) with
    | Error _ => (Plain (respond 404 (ErrorBody "Category not found")), db)
    | Data category =>
        match find (fun e => ev_id e =? cat_event_id category) (events db) with
        | None =>
            (Plain (respond 500 (ErrorBody "Failed to create contestant")), db)
        | Some e =>
            if negb (ev_organizer_id e =? u_id user)
               && negb (user_role_out (u_role user) =? "admin")
            then (Plain (respond 403 (ErrorBody "Access denied")), db)
            else if (event_status_out (ev_status e) =? "active")
                    && match firstn 1
                               (filter (fun v => v_event_id v
                                                 =? cat_event_id category)
                                  (votes db)) with
                       | [] => false
                       | _ => true
                       end
            then (Plain (respond 400
                    (ErrorBody "Cannot add contestants to active event with existing votes")),
                  db)
            else
              match insert_contestant generated_id category_id name db with
              | (Error message, db') =>
                  (Plain (respond 400
                     (ErrorMessageBody "Failed to create contestant" message)),
                   db')
              | (Data c, db') => (Json 201 c, db')
              end
        end
    end.

(** PUT /:id, behind [authenticateToken] and
    [requireOwnership('contestant')]. *)
Definition update_contestant (user : User) (contestantId : uuid)
    (name : option string) (db : DB) : Reply Contestant * DB :=
  behind (requireOwnership contestant_resource user contestantId db) Plain
    (fun db =>
       if negb (match name with Some n => name_valid n | None => true end)
       then (Plain (respond 400 ValidationErrors), db)
       else
         match single (filter (fun c => ct_id c =? contestantId)
                         (contestants db)) with
         | Error _ => (Plain (respond 404 (ErrorBody "Contestant not found")), db)
         | Data contestantData =>
             if (0 <? ct_vote_count contestantData)%Z
             then (Plain (respond 400
                     (ErrorBody "Cannot modify contestant with existing votes")),
                   db)
             else
               match rename_contestants contestantId
                       (if truthy name then name else None) db with
               | (Error message, db') =>
                   (Plain (respond 400
                      (ErrorMessageBody "Failed to update contestant" message)),
                    db')
               | (Data c, db') => (Json 200 c, db')
               end
         end)
    db.

(** DELETE /:id, behind [authenticateToken] and
    [requireOwnership('contestant')]. *)
Definition delete_contestant_route (user : User) (contestantId : uuid)
    (db : DB) : Reply Contestant * DB :=
  behind (requireOwnership contestant_resource user contestantId db) Plain
    (fun db =>
       match single (filter (fun c => ct_id c =? contestantId)
                       (contestants db)) with
       | Error _ => (Plain (respond 404 (ErrorBody "Contestant not found")), db)
       | Data c =>
           if (0 <? ct_vote_count c)%Z
           then (Plain (respond 400
                   (ErrorBody "Cannot delete contestant with existing votes")),
                 db)
           else
             (Plain (respond 200 (MessageBody "Contestant deleted successfully")),
              delete_contestant contestantId db)
       end)
    db.

End Contestants.

(** ** Roles and approval: POST /request-organizer of the auth router
    (src/routes/votes.js, lines 831-870) and PUT and DELETE /users/:userId of
    the admin router (lines 1530-1576 and 1957-1993) *)

Module Accounts.
Import Schema Store Http Replies Users.
Open Scope string_scope.

(** The columns an update of a user may set. *)
Record UserPatch : Type := {
  set_role : option user_role;
  set_organizer_status : option organizer_status
}.

Definition patched_user (set : UserPatch) (u : User) : User :=
  {| u_id := u_id u;
     u_role := match set_role set with Some r => r | None => u_role u end;
     u_organizer_status :=
       match set_organizer_status set with
       | Some s => Some s
       | None => u_organizer_status u
       end |}.

(** [UPDATE users SET ... WHERE id = ...] with [.select().single()]. *)
Definition update_user (userId : uuid) (set : UserPatch) (users : list User)
    : Result User * list User :=
  (single (map (patched_user set) (filter (fun u => u_id u =? userId) users)),
   map (fun u => if u_id u =? userId then patched_user set u else u) users).

(** POST /request-organizer, behind [authenticateToken]. *)
Definition request_organizer (user : User) (users : list User)
    : Reply User * list User :=
  if user_role_out (u_role user) =? "organizer"
  then (Plain (respond 400 (ErrorBody "User is already an organizer")), users)
  else
    match update_user (u_id user)
            {| set_role := Some organizer;
               set_organizer_status := Some awaiting |} users with
    | (Error message, users') =>
        (Plain (respond 400
           (ErrorMessageBody "Organizer request failed" message)), users')
    | (Data u, users') => (Json 200 u, users')
    end.

(** PUT /users/:userId of the admin router; the two labels have passed
    [isIn] when they are given. *)
Definition put_user (user : User) (userId : uuid)
    (role organizer_status : option string) (users : list User)
    : Reply User * list User :=
  match requireRole ["admin"] (Some user) with
  | Some response => (Plain response, users)
  | None =>
      if negb (optional_in role ["admin"; "organizer"; "voter"]
               && optional_in organizer_status ["pending"; "approved"; "blocked"])
      then (Plain (respond 400 ValidationErrors), users)
      else if (userId =? u_id user) && truthy role
              && negb (match role with Some r => r =? "admin" | None => false end)
      then (Plain (respond 400
              (ErrorBody "Cannot modify your own admin role")), users)
      else
        match update_user userId
                {| set_role :=
                     if truthy role
                     then match role with
                          | Some r => user_role_in r
                          | None => None
                          end
                     else None;
                   set_organizer_status :=
                     if truthy organizer_status
                     then match organizer_status with
                          | Some s => organizer_status_in s
                          | None => None
                          end
                     else None |} users with
        | (Error message, users') =>
            (Plain (respond 400
               (ErrorMessageBody "Failed to update user" message)), users')
        | (Data u, users') => (Json 200 u, users')
        end
  end.

(** DELETE /users/:userId of the admin router: the user is blocked, not
    deleted. *)
Definition delete_user (user : User) (userId : uuid) (users : list User)
    : Reply User * list User :=
  match requireRole ["admin"] (Some user) with
  | Some response => (Plain response, users)
  | None =>
      if userId =? u_id user
      then (Plain (respond 400 (ErrorBody "Cannot delete your own account")),
            users)
      else
        match update_user userId
                {| set_role := None; set_organizer_status := Some blocked |}
                users with
        | (Error message, users') =>
            (Plain (respond 400
               (ErrorMessageBody "Failed to block user" message)), users')
        | (Data u, users') => (Json 200 u, users')
        end
  end.

(** What the account routes ask of the users table. *)
Inductive Request : Type :=
| RequestOrganizer (user : User)
| PutUser (user : User) (userId : uuid) (role organizer_status : option string)
| DeleteUser (user : User) (userId : uuid).

Definition handle (r : Request) (users : list User) : Reply User * list User :=
  match r with
  | RequestOrganizer user => request_organizer user users
  | PutUser user userId role organizer_status =>
      put_user user userId role organizer_status users
  | DeleteUser user userId => delete_user user userId users
  end.

(** Requests served one after the other, each by the caller as the users
    table has them at that moment ([authenticateToken] reads the profile
    anew on every request). *)
Definition caller (r : Request) : uuid :=
  match r with
  | RequestOrganizer user | PutUser user _ _ _ | DeleteUser user _ => u_id user
  end.

End Accounts.

(** * Properties *)

(** Case analysis on the innermost condition of the goal. *)
Ltac branch :=
  match goal with
  | |- context [match ?c with _ => _ end] =>
      lazymatch c with
      | context [match _ with _ => _ end] => fail
      | _ => destruct c eqn:?
      end
  end.


(** ** Rounding *)

Section Rounding.
Open Scope Q_scope.

Lemma Qfloor_plus_half (k : Z) : Qfloor (inject_Z k + (1 # 2)) = k.
Proof.
  unfold Qfloor, Qplus, inject_Z; simpl.
  symmetry. apply Z.div_unique with (r := 1%Z); lia.
Qed.

Lemma Math_round_integer (x : Q) (k : Z) :
  x == inject_Z k -> JS.Math_round x = k.
Proof.
  intros H. unfold JS.Math_round. rewrite H. apply Qfloor_plus_half.
Qed.


Lemma round_half_away_comp (x y : Q) :
  x == y -> JS.round_half_away x = JS.round_half_away y.
Proof.
  intros H. unfold JS.round_half_away.
  assert (B : Qle_bool 0 x = Qle_bool 0 y).
  { destruct (Qle_bool 0 x) eqn:X, (Qle_bool 0 y) eqn:Y; try reflexivity.
    - apply Qle_bool_iff in X. rewrite H in X. apply Qle_bool_iff in X.
      congruence.
    - apply Qle_bool_iff in Y. rewrite <- H in Y. apply Qle_bool_iff in Y.
      congruence. }
  rewrite B. destruct (Qle_bool 0 y).
  - apply Qfloor_comp. rewrite H. reflexivity.
  - apply Qceiling_comp. rewrite H. reflexivity.
Qed.

(** On a non-negative number [Math.round] is rounding half away from zero. *)
Lemma Math_round_half_away_nonneg (x : Q) :
  0 <= x -> JS.Math_round x = JS.round_half_away x.
Proof.
  intros H. unfold JS.round_half_away.
  apply Qle_bool_iff in H. rewrite H. reflexivity.
Qed.

(** On a negative tie the two differ: [Math.round(-2.5)] is [-2]. *)
Lemma Math_round_negative_tie :
  JS.Math_round (- (5 # 2)) = (-2)%Z /\ JS.round_half_away (- (5 # 2)) = (-3)%Z.
Proof. split; reflexivity. Qed.

End Rounding.

(** ** C7: currency round trip *)

Section CurrencyRoundTrip.
Import Currency.
Open Scope Q_scope.

Example toMinor_usd : toMinorCurrencyUnit (1234 # 100) "usd" == 1234.
Proof. reflexivity. Qed.

Example toMinor_JPY : toMinorCurrencyUnit (500 # 1) "JPY" == 500.
Proof. reflexivity. Qed.

Example fromMinor_usd : fromMinorCurrencyUnit 1234 "USD" == 1234 # 100.
Proof. reflexivity. Qed.

(** On a non-negative amount, representable or not, [toMinorCurrencyUnit]
    rounds the scaled value half away from zero. *)
Lemma toMinor_rounds_half_away (c : string) (x : Q) :
  0 <= x ->
  toMinorCurrencyUnit x c == inject_Z (JS.round_half_away (x * minor_scale c)).
Proof.
  intros H. unfold toMinorCurrencyUnit, minor_scale.
  destruct (JS.includes zeroDecimalCurrencies (JS.toLowerCase c)).
  - rewrite Math_round_half_away_nonneg by exact H.
    rewrite (round_half_away_comp (x := x * 1) (y := x)) by ring.
    reflexivity.
  - rewrite Math_round_half_away_nonneg; [reflexivity |].
    apply Qmult_le_0_compat; [exact H | discriminate].
Qed.



Example yen_round_trip :
  fromMinorCurrencyUnit (toMinorCurrencyUnit 1200 "JPY") "JPY" == 1200.
Proof. reflexivity. Qed.

End CurrencyRoundTrip.

(** ** C10: withdrawals never exceed the balance *)

Section Withdrawals.
Import Schema Store Handler Http Organizer.
Open Scope Q_scope.

Lemma Qle_bool_false (x y : Q) : Qle_bool x y = false <-> y < x.
Proof.
  split; intros H.
  - apply Qnot_le_lt. intros L. apply Qle_bool_iff in L. congruence.
  - destruct (Qle_bool x y) eqn:E; [| reflexivity].
    apply Qle_bool_iff in E. exfalso. exact (Qlt_not_le _ _ H E).
Qed.

End Withdrawals.

Section WithdrawalsRun.
Import Schema Store Handler Http Organizer Sample.
Open Scope Q_scope.


(** With 100.00 of revenue and five per cent commission the balance is
    95.00: a request for 50.00 is accepted, one for 95.01 is not. *)
Example withdrawal_accepted :
  let db := with_events db0 [Sample.with_revenue 10000%Z event1] in
  balance_of db "organizer-1" == 95
  /\ res_status (match fst (exec (post_withdrawals env1 "organizer-1"
                                   (withdraw_request 50)) db) with
                 | Returned r => r
                 | Thrown _ => respond 0 ReceivedBody
                 end) = 201%nat
  /\ res_status (match fst (exec (post_withdrawals env1 "organizer-1"
                                   (withdraw_request (9501 # 100))) db) with
                 | Returned r => r
                 | Thrown _ => respond 0 ReceivedBody
                 end) = 400%nat.
Proof. repeat split. Qed.

End WithdrawalsRun.

(** ** C3: the commission split *)

Section CommissionSplit.
Import Commission.
Open Scope Q_scope.

Example split_five_dollars :
  platformFee 5 (5 # 100) == 25 # 100 /\ organizerEarnings 5 (5 # 100) == 475 # 100.
Proof. split; reflexivity. Qed.

(** C3 as stated fails at [a = 0.01], [r = 0.05]: the fee the code
    computes is 0.0005, and 0.0005 rounded to two decimals is 0. *)
Lemma fee_not_rounded :
  1 # 100 <= 1 # 100 /\ 0 <= 5 # 100 /\ 5 # 100 <= 1
  /\ platformFee (1 # 100) (5 # 100) == 1 # 2000
  /\ JS.round2 ((1 # 100) * (5 # 100)) == 0
  /\ ~ split_as_specified (1 # 100) (5 # 100).
Proof.
  repeat split; try discriminate.
  intros [H _]. revert H. vm_compute. discriminate.
Qed.

(** C3, amended.  For every amount [a >= 0.01] and rate [r] in [0, 1] the
    platform fee is the product [a * r], not rounded; the organizer's
    earnings are the remainder [a - platformFee]; the two add up to [a]; and
    each lies between 0 and [a]. *)
Theorem fee_split_remainder (a r : Q) :
  1 # 100 <= a -> 0 <= r -> r <= 1 ->
  platformFee a r == a * r
  /\ organizerEarnings a r == a - platformFee a r
  /\ platformFee a r + organizerEarnings a r == a
  /\ 0 <= platformFee a r <= a
  /\ 0 <= organizerEarnings a r <= a.
Proof.
  unfold organizerEarnings, platformFee. intros Ha Hr0 Hr1.
  assert (A0 : 0 <= a) by lra.
  assert (P0 : 0 <= a * r) by (apply Qmult_le_0_compat; assumption).
  assert (P1 : a * r <= a).
  { setoid_replace a with (a * 1) at 2 by ring.
    rewrite (Qmult_comm a r), (Qmult_comm a 1).
    apply Qmult_le_compat_r; assumption. }
  repeat split; try reflexivity; try lra.
Qed.

Lemma fee_split_remainder_witness :
  platformFee 5 (5 # 100) + organizerEarnings 5 (5 # 100) == 5.
Proof.
  apply (fee_split_remainder (a := 5) (r := 5 # 100)); discriminate.
Defined.

(** On IEEE doubles, which is what the runtime computes with, the sum of the
    two parts is not always the amount: at [a = 0.01], [r = 0.1] it is
    0.010000000000000002.  The fee at [a = 0.01], [r = 0.05] is not zero
    there either. *)
Lemma double_split_residue :
  PrimFloat.eqb
    (Double.platformFee 0.01 0.1 + Double.organizerEarnings 0.01 0.1)%float
    0.01%float = false
  /\ PrimFloat.eqb (Double.platformFee 0.01 0.05) 0%float = false.
Proof. split; vm_compute; reflexivity. Qed.

(** The two [DECIMAL(10,2)] columns are rounded one by one when the row is
    written: with a price of 0.10 and five per cent the row holds a fee of
    0.01 and earnings of 0.10. *)
Lemma stored_split_residue :
  Schema.numeric_10_2_in (platformFee (10 # 100) (5 # 100)) = 1%Z
  /\ Schema.numeric_10_2_in (organizerEarnings (10 # 100) (5 # 100)) = 10%Z
  /\ Schema.numeric_10_2_in (10 # 100) = 10%Z.
Proof. repeat split. Qed.

End CommissionSplit.

(** ** C4: the eligibility gate of the two payment-creation routes *)

Section EligibilityGate.
Import Schema Store Handler Http Outcomes Payments.
Open Scope Z_scope.
Open Scope string_scope.

Ltac run_gate :=
  cbn [exec try_catch run_stmt fst snd negb];
  repeat match goal with
         | H : _ = _ |- _ => rewrite H
         end;
  cbn [exec try_catch negb andb orb].

Ltac rejected := eexists; split; [reflexivity | split; reflexivity].

Lemma stripe_gate
    (env : Env) (userId : uuid) (body : CreateIntent) (db : DB) :
  create_intent_valid body = true ->
  let p := stripe_create_intent env userId body in
  ((exists message,
      single (select_contestant_event (ci_contestant_id body) db)
      = Error message) ->
   rejected_with p db 404%nat "Contestant not found")
  /\ (forall event,
        resolves db (ci_contestant_id body) event ->
        (ev_status event <> active ->
         rejected_with p db 400%nat "Event is not active")
        /\ (ev_status event = active ->
            (now env < ev_start_date event)%Z ->
            rejected_with p db 400%nat "Voting has not started yet")
        /\ (ev_status event = active ->
            (ev_start_date event <= now env)%Z ->
            (ev_end_date event < now env)%Z ->
            rejected_with p db 400%nat "Voting has ended")
        /\ (ev_status event = active ->
            (ev_start_date event <= now env <= ev_end_date event)%Z ->
            ~ (ci_amount body == number_of_10_2 (ev_vote_price event))%Q ->
            rejected_with p db 400%nat "Invalid vote amount")).
Proof.
  intros V p. subst p. unfold rejected_with, stripe_create_intent.
  rewrite V. split.
  - intros [message E]. run_gate. rejected.
  - intros event (contestant & category & E & C & Ev).
    repeat split.
    + intros S. run_gate.
      destruct (ev_status event); try congruence; rejected.
    + intros S L. run_gate. cbn.
      apply Z.ltb_lt in L. rewrite L. rejected.
    + intros S L1 L2. run_gate. cbn.
      apply Z.ltb_ge in L1. apply Z.ltb_lt in L2. rewrite L1, L2. rejected.
    + intros S [L1 L2] N. run_gate. cbn.
      apply Z.ltb_ge in L1, L2. rewrite L1, L2.
      destruct (Qeq_bool _ _) eqn:Q; [apply Qeq_bool_iff in Q; contradiction |].
      rejected.
Qed.

Lemma paystack_gate
    (env : Env) (userId : uuid) (body : Initialize) (db : DB) :
  initialize_valid body = true ->
  let p := paystack_initialize_route env userId body in
  ((exists message,
      single (select_contestant_event (in_contestant_id body) db)
      = Error message) ->
   rejected_with p db 404%nat "Contestant not found")
  /\ (forall event,
        resolves db (in_contestant_id body) event ->
        (ev_status event <> active ->
         rejected_with p db 400%nat "Event is not active")
        /\ (ev_status event = active ->
            (now env < ev_start_date event \/ ev_end_date event < now env)%Z ->
            rejected_with p db 400%nat "Voting period has ended or not started")
        /\ (ev_status event = active ->
            (ev_start_date event <= now env <= ev_end_date event)%Z ->
            ~ (in_amount body == number_of_10_2 (ev_vote_price event))%Q ->
            rejected_with p db 400%nat "Invalid vote amount")).
Proof.
  intros V p. subst p. unfold rejected_with, paystack_initialize_route.
  rewrite V. split.
  - intros [message E]. run_gate. rejected.
  - intros event (contestant & category & E & C & Ev).
    repeat split.
    + intros S. run_gate.
      destruct (ev_status event); try congruence; rejected.
    + intros S L. run_gate. cbn.
      assert (W : ((now env <? ev_start_date event)%Z
                   || (ev_end_date event <? now env)%Z)%bool = true).
      { apply orb_true_iff. destruct L as [L | L]; [left | right];
          apply Z.ltb_lt; exact L. }
      rewrite W. rejected.
    + intros S [L1 L2] N. run_gate. cbn.
      apply Z.ltb_ge in L1, L2. rewrite L1, L2. cbn.
      destruct (Qeq_bool _ _) eqn:Q; [apply Qeq_bool_iff in Q; contradiction |].
      rejected.
Qed.

(** C4 as stated fails on the Paystack route: a request made before
    the voting window opens and one made after it has closed get the same
    answer, so no reading of the answer tells the two reasons apart. *)
Lemma paystack_window_reasons_merged :
  (now (Sample.with_now 500 Sample.env1) < ev_start_date Sample.event1)%Z
  /\ (ev_end_date Sample.event1 < now (Sample.with_now 2500 Sample.env1))%Z
  /\ response_of
       (paystack_initialize_route (Sample.with_now 500 Sample.env1)
          "voter-1" Sample.initialize1) Sample.db0
     = response_of
         (paystack_initialize_route (Sample.with_now 2500 Sample.env1)
            "voter-1" Sample.initialize1) Sample.db0
  /\ response_of
       (paystack_initialize_route (Sample.with_now 500 Sample.env1)
          "voter-1" Sample.initialize1) Sample.db0
     = respond 400%nat (ErrorBody "Voting period has ended or not started")
  /\ forall (A : Type) (reason_of : Response -> A),
       reason_of
         (response_of
            (paystack_initialize_route (Sample.with_now 500 Sample.env1)
               "voter-1" Sample.initialize1) Sample.db0)
       = reason_of
           (response_of
              (paystack_initialize_route (Sample.with_now 2500 Sample.env1)
                 "voter-1" Sample.initialize1) Sample.db0).
Proof. repeat split. Qed.

(** C4, amended.  A valid request to either payment-creation route whose
    contestant does not resolve, whose event is not active, whose time is
    outside the voting window or whose amount differs from the event's vote
    price is answered 404 or 400 and leaves the store as it was (no payment
    row).  The Stripe route names the first violated precondition with one
    of five different messages.  The Paystack route has different messages
    for an unknown contestant, an inactive event and a wrong amount, and one
    message for a request outside the window, early or late. *)
Theorem eligibility_gate (env : Env) (userId : uuid) (db : DB) :
  (forall body : CreateIntent,
     create_intent_valid body = true ->
     let p := stripe_create_intent env userId body in
     ((exists message,
         single (select_contestant_event (ci_contestant_id body) db)
         = Error message) ->
      rejected_with p db 404%nat "Contestant not found")
     /\ (forall event,
           resolves db (ci_contestant_id body) event ->
           (ev_status event <> active ->
            rejected_with p db 400%nat "Event is not active")
           /\ (ev_status event = active ->
               (now env < ev_start_date event)%Z ->
               rejected_with p db 400%nat "Voting has not started yet")
           /\ (ev_status event = active ->
               (ev_start_date event <= now env)%Z ->
               (ev_end_date event < now env)%Z ->
               rejected_with p db 400%nat "Voting has ended")
           /\ (ev_status event = active ->
               (ev_start_date event <= now env <= ev_end_date event)%Z ->
               ~ (ci_amount body == number_of_10_2 (ev_vote_price event))%Q ->
               rejected_with p db 400%nat "Invalid vote amount")))
  /\ (forall body : Initialize,
        initialize_valid body = true ->
        let p := paystack_initialize_route env userId body in
        ((exists message,
            single (select_contestant_event (in_contestant_id body) db)
            = Error message) ->
         rejected_with p db 404%nat "Contestant not found")
        /\ (forall event,
              resolves db (in_contestant_id body) event ->
              (ev_status event <> active ->
               rejected_with p db 400%nat "Event is not active")
              /\ (ev_status event = active ->
                  (now env < ev_start_date event
                   \/ ev_end_date event < now env)%Z ->
                  rejected_with p db 400%nat
                    "Voting period has ended or not started")
              /\ (ev_status event = active ->
                  (ev_start_date event <= now env <= ev_end_date event)%Z ->
                  ~ (in_amount body
                     == number_of_10_2 (ev_vote_price event))%Q ->
                  rejected_with p db 400%nat "Invalid vote amount"))).
Proof.
  split; intros body V.
  - exact (stripe_gate env userId body db V).
  - exact (paystack_gate env userId body db V).
Qed.

(** The scenario of the specification: a request after [end_date] is
    refused with "Voting has ended" and no payment row is created. *)
Lemma eligibility_gate_witness :
  rejected_with
    (stripe_create_intent (Sample.with_now 2500 Sample.env1) "voter-1"
       Sample.create1)
    Sample.db0 400%nat "Voting has ended".
Proof.
  assert (R : resolves Sample.db0 (ci_contestant_id Sample.create1)
                Sample.event1).
  { eexists; eexists; repeat split; reflexivity. }
  destruct (eligibility_gate (Sample.with_now 2500 Sample.env1) "voter-1"
              Sample.db0) as [S _].
  destruct (S Sample.create1 eq_refl) as [_ G].
  destruct (G Sample.event1 R) as (_ & _ & E & _).
  apply E; [reflexivity | discriminate | reflexivity].
Defined.

End EligibilityGate.

(** ** Running programs *)

Section Running.
Import Schema Store Handler Http Outcomes.

Lemma exec_bind {A B : Type} (p : Prog A) (f : A -> Prog B) (db : DB) :
  exec (bind p f) db
  = match exec p db with
    | (Returned a, db') => exec (f a) db'
    | (Thrown e, db') => (Thrown e, db')
    end.
Proof.
  revert db. induction p as [a | e | T s k IH]; intros db; cbn; try reflexivity.
  destruct (run_stmt s db) as [x db']. apply IH.
Qed.

Lemma exec_try_catch {R : Type} (p : Prog R) (h : string -> Prog R) (db : DB) :
  exec (try_catch p h) db
  = match exec p db with
    | (Returned r, db') => (Returned r, db')
    | (Thrown e, db') => exec (h e) db'
    end.
Proof.
  revert db. induction p as [a | e | T s k IH]; intros db; cbn; try reflexivity.
  destruct (run_stmt s db) as [x db']. apply IH.
Qed.

(** A handler whose body sits in [try { ... } catch (error) { log }]
    returns, whatever happens inside. *)
Lemma caught_returns (p : Prog unit) (h : string -> Prog unit) (db : DB) :
  (forall e db', exec (h e) db' = (Returned tt, db')) ->
  fst (exec (try_catch p h) db) = Returned tt.
Proof.
  intros H. rewrite exec_try_catch.
  destruct (exec p db) as [[[] | e] db']; [reflexivity |].
  rewrite H. reflexivity.
Qed.

End Running.

(** ** C5: a second commit through POST /votes *)

Section ExistingVote.
Import Schema Store Handler Http Outcomes Votes.
Open Scope string_scope.

(** C5 as stated fails: with the vote for the payment already in the
    store, a well-formed POST /votes is answered 400 with an error body,
    not with the existing vote. *)
Lemma existing_vote_is_an_error :
  existsb (fun v => v_payment_id v =? cv_payment_id Sample.cast1)
          (votes Sample.db_voted) = true
  /\ exec (post_votes Sample.env1 "voter-1" Sample.cast1) Sample.db_voted
     = (Returned
          (respond 400 (ErrorBody "Vote already exists for this payment")),
        Sample.db_voted).
Proof. split; reflexivity. Qed.

(** C5, amended.  When a vote already references the payment of a
    POST /votes request, the request adds no vote and changes no counter
    (the store is left as it was) and is never answered 201; a request that
    passes every earlier check is answered 400 "Vote already exists for this
    payment". *)
Theorem existing_vote_rejected
    (env : Env) (voterId : uuid) (body : CastVote) (db : DB) :
  existsb (fun v => v_payment_id v =? cv_payment_id body) (votes db) = true ->
  store_after (post_votes env voterId body) db = db
  /\ res_status (response_of (post_votes env voterId body) db) <> 201%nat
  /\ (forall event payment vote,
        cast_vote_valid body = true ->
        resolves db (cv_contestant_id body) event ->
        ev_status event = active ->
        (ev_start_date event <= now env <= ev_end_date event)%Z ->
        (cv_amount body == number_of_10_2 (ev_vote_price event))%Q ->
        single (filter (fun p => p_id p =? cv_payment_id body) (payments db))
        = Data payment ->
        p_status payment = completed ->
        p_contestant_id payment = cv_contestant_id body ->
        p_voter_id payment = voterId ->
        filter (fun v => v_payment_id v =? cv_payment_id body) (votes db)
        = [vote] ->
        exec (post_votes env voterId body) db
        = (Returned
             (respond 400 (ErrorBody "Vote already exists for this payment")),
           db)).
Proof.
  intros X. unfold store_after, response_of, post_votes.
  split; [| split].
  - cbn [exec try_catch run_stmt fst snd].
    repeat (branch; cbn [exec try_catch run_stmt fst snd]); try reflexivity.
    all: unfold insert_vote in *; cbn [vi_payment_id] in *;
      rewrite X in *; congruence.
  - cbn [exec try_catch run_stmt fst snd].
    repeat (branch; cbn [exec try_catch run_stmt fst snd res_status respond]);
      try discriminate.
    all: unfold insert_vote in *; cbn [vi_payment_id] in *;
      rewrite X in *; try congruence.
  - intros event payment vote V (contestant & category & E & C & Ev)
      S [L1 L2] Q P PS PC PV F.
    rewrite V. cbn [exec try_catch run_stmt fst snd negb].
    rewrite E, C, Ev, S. cbn.
    apply Z.ltb_ge in L1, L2. rewrite L1, L2.
    apply Qeq_bool_iff in Q. rewrite Q. cbn.
    unfold uuid in *. rewrite P, PS, PC, PV. cbn.
    rewrite !String.eqb_refl. cbn. rewrite F. reflexivity.
Qed.

Lemma existing_vote_rejected_witness :
  store_after (post_votes Sample.env1 "voter-1" Sample.cast1) Sample.db_voted
  = Sample.db_voted
  /\ res_status
       (response_of (post_votes Sample.env1 "voter-1" Sample.cast1)
          Sample.db_voted) <> 201%nat.
Proof.
  destruct (existing_vote_rejected Sample.env1 "voter-1" Sample.cast1
              Sample.db_voted eq_refl) as (A & B & _).
  split; assumption.
Defined.

End ExistingVote.

(** ** C9: a dispute on a completed payment *)

Section Dispute.
Import Schema Store Handler Http Outcomes StripeWebhook.
Open Scope string_scope.

(** ['disputed'] is not a label of [payment_status]. *)
Lemma disputed_not_in_enum : payment_status_in "disputed" = None.
Proof. reflexivity. Qed.

(** The dispute handler never changes the store: its one write is refused
    by the enum type of [payments.status]. *)
Lemma handleChargeDispute_writes_nothing (dispute : StripeObject) (db : DB) :
  exec (handleChargeDispute dispute) db = (Returned tt, db).
Proof.
  unfold handleChargeDispute.
  destruct (truthy (so_payment_intent dispute)); cbn; [| reflexivity].
  destruct (single _); reflexivity.
Qed.

(** C9 at a concrete input: the dispute event for the completed payment of
    the sample store is acknowledged, the payment is still [completed] and
    nothing else has changed either. *)
Lemma dispute_leaves_payment_completed :
  map p_status (payments Sample.db_voted) = [completed]
  /\ exec (webhook Sample.env1 (Some "whsec") Sample.disputed1) Sample.db_voted
     = (Returned (respond 200%nat ReceivedBody), Sample.db_voted).
Proof. split; reflexivity. Qed.

End Dispute.

(** ** C6: acknowledging webhooks *)

Section Acknowledge.
Import Schema Store Handler Http Outcomes.
Open Scope string_scope.

Lemma stripe_ack (env : Env) (secret : option string)
    (req : StripeWebhook.Request) (db : DB) (signature key : string)
    (event : StripeEvent) :
  StripeWebhook.stripe_signature req = Some signature ->
  secret = Some key ->
  truthy (Some signature) = true ->
  truthy (Some key) = true ->
  constructWebhookEvent env (StripeWebhook.raw_body req) signature key
  = Data event ->
  fst (exec (StripeWebhook.webhook env secret req) db)
  = Returned (respond 200%nat ReceivedBody).
Proof.
  intros S K TS TK C. unfold StripeWebhook.webhook.
  rewrite S, K, TS, TK. cbn [negb orb].
  rewrite exec_try_catch, C, exec_bind.
  match goal with
  | |- context [exec ?h db] =>
      assert (H : fst (exec h db) = Returned tt)
  end.
  { repeat match goal with
           | |- context [if ?c then _ else _] => destruct c
           end;
      try reflexivity;
      apply caught_returns; intros; reflexivity. }
  match goal with
  | H : fst (exec ?h db) = _ |- _ => destruct (exec h db) as [o db']
  end.
  cbn in H. subst o. reflexivity.
Qed.

Lemma stripe_refuse (env : Env) (secret : option string)
    (req : StripeWebhook.Request) (db : DB) (signature key message : string) :
  StripeWebhook.stripe_signature req = Some signature ->
  secret = Some key ->
  truthy (Some signature) = true ->
  truthy (Some key) = true ->
  constructWebhookEvent env (StripeWebhook.raw_body req) signature key
  = Error message ->
  exec (StripeWebhook.webhook env secret req) db
  = (Returned (respond 400%nat (ErrorBody "Webhook signature verification failed")),
     db).
Proof.
  intros S K TS TK C. unfold StripeWebhook.webhook.
  rewrite S, K, TS, TK. cbn [negb orb]. rewrite C. reflexivity.
Qed.

Lemma stripe_missing (env : Env) (secret : option string)
    (req : StripeWebhook.Request) (db : DB) :
  truthy (StripeWebhook.stripe_signature req) = false
  \/ truthy secret = false ->
  exec (StripeWebhook.webhook env secret req) db
  = (Returned (respond 400%nat (ErrorBody "Missing webhook signature or secret")),
     db).
Proof.
  unfold StripeWebhook.webhook.
  destruct (StripeWebhook.stripe_signature req) as [signature |],
           secret as [key |]; try reflexivity.
  intros [H | H]; rewrite H; cbn [negb orb]; try reflexivity.
  destruct (negb (truthy (Some signature))); reflexivity.
Qed.

Lemma paystack_ack (env : Env) (secret : option string)
    (req : PaystackWebhook.Request) (db : DB) (signature key : string) :
  PaystackWebhook.x_paystack_signature req = Some signature ->
  secret = Some key ->
  truthy (Some signature) = true ->
  truthy (Some key) = true ->
  hmac_sha512_hex env key (PaystackWebhook.body_text req) = signature ->
  fst (exec (PaystackWebhook.webhook env secret req) db)
  = Returned (respond 200%nat ReceivedBody).
Proof.
  intros S K TS TK C. unfold PaystackWebhook.webhook.
  rewrite S, K, TS, TK. cbn [negb orb].
  rewrite C, String.eqb_refl. cbn [negb].
  rewrite exec_try_catch, exec_bind.
  match goal with
  | |- context [exec ?h db] =>
      assert (H : fst (exec h db) = Returned tt)
  end.
  { repeat match goal with
           | |- context [if ?c then _ else _] => destruct c
           end;
      try reflexivity;
      apply caught_returns; intros; reflexivity. }
  match goal with
  | H : fst (exec ?h db) = _ |- _ => destruct (exec h db) as [o db']
  end.
  cbn in H. subst o. reflexivity.
Qed.

Lemma paystack_refuse (env : Env) (secret : option string)
    (req : PaystackWebhook.Request) (db : DB) (signature key : string) :
  PaystackWebhook.x_paystack_signature req = Some signature ->
  secret = Some key ->
  truthy (Some signature) = true ->
  truthy (Some key) = true ->
  hmac_sha512_hex env key (PaystackWebhook.body_text req) <> signature ->
  exec (PaystackWebhook.webhook env secret req) db
  = (Returned (respond 400%nat (ErrorBody "Webhook signature verification failed")),
     db).
Proof.
  intros S K TS TK C. unfold PaystackWebhook.webhook.
  rewrite S, K, TS, TK. cbn [negb orb].
  apply String.eqb_neq in C. rewrite C. reflexivity.
Qed.

Lemma paystack_missing (env : Env) (secret : option string)
    (req : PaystackWebhook.Request) (db : DB) :
  truthy (PaystackWebhook.x_paystack_signature req) = false
  \/ truthy secret = false ->
  exec (PaystackWebhook.webhook env secret req) db
  = (Returned (respond 400%nat (ErrorBody "Missing webhook signature or secret")),
     db).
Proof.
  unfold PaystackWebhook.webhook.
  destruct (PaystackWebhook.x_paystack_signature req) as [signature |],
           secret as [key |]; try reflexivity.
  intros [H | H]; rewrite H; cbn [negb orb]; try reflexivity.
  destruct (negb (truthy (Some signature))); reflexivity.
Qed.

(** C6.  A webhook request whose signature verifies is answered
    200 [{ received: true }] by either route, whatever the event type and
    whatever happens in the handler it is dispatched to.  A request whose
    signature does not verify, or that carries no signature, is answered 400
    and the store is left as it was. *)
Theorem webhook_acknowledged (env : Env) (db : DB) :
  (forall secret req,
     (forall signature key,
        StripeWebhook.stripe_signature req = Some signature ->
        secret = Some key ->
        truthy (Some signature) = true ->
        truthy (Some key) = true ->
        (forall event,
           constructWebhookEvent env (StripeWebhook.raw_body req) signature key
           = Data event ->
           fst (exec (StripeWebhook.webhook env secret req) db)
           = Returned (respond 200%nat ReceivedBody))
        /\ (forall message,
              constructWebhookEvent env (StripeWebhook.raw_body req)
                signature key = Error message ->
              rejected_with (StripeWebhook.webhook env secret req) db 400%nat
                "Webhook signature verification failed"))
     /\ (truthy (StripeWebhook.stripe_signature req) = false
         \/ truthy secret = false ->
         rejected_with (StripeWebhook.webhook env secret req) db 400%nat
           "Missing webhook signature or secret"))
  /\ (forall secret req,
        (forall signature key,
           PaystackWebhook.x_paystack_signature req = Some signature ->
           secret = Some key ->
           truthy (Some signature) = true ->
           truthy (Some key) = true ->
           (hmac_sha512_hex env key (PaystackWebhook.body_text req) = signature ->
            fst (exec (PaystackWebhook.webhook env secret req) db)
            = Returned (respond 200%nat ReceivedBody))
           /\ (hmac_sha512_hex env key (PaystackWebhook.body_text req)
               <> signature ->
               rejected_with (PaystackWebhook.webhook env secret req) db 400%nat
                 "Webhook signature verification failed"))
        /\ (truthy (PaystackWebhook.x_paystack_signature req) = false
            \/ truthy secret = false ->
            rejected_with (PaystackWebhook.webhook env secret req) db 400%nat
              "Missing webhook signature or secret")).
Proof.
  split; intros secret req; split.
  - intros signature key S K TS TK. split.
    + intros event C. exact (stripe_ack env req db S K TS TK C).
    + intros message C. eexists.
      split; [exact (stripe_refuse env req db S K TS TK C) |].
      split; reflexivity.
  - intros M. eexists. split; [apply stripe_missing; exact M | split; reflexivity].
  - intros signature key S K TS TK. split.
    + intros C. exact (paystack_ack env req db S K TS TK C).
    + intros C. eexists.
      split; [exact (paystack_refuse env req db S K TS TK C) |].
      split; reflexivity.
  - intros M. eexists. split; [apply paystack_missing; exact M | split; reflexivity].
Qed.

(** A verified "succeeded" event for a payment whose vote is already in the
    store: the vote insertion fails on the unique constraint and the event
    is acknowledged all the same. *)
Lemma webhook_acknowledged_witness :
  fst (run_stmt (InsertVote
         {| vi_voter_id := "voter-1"; vi_contestant_id := "contestant-1";
            vi_event_id := "event-1"; vi_payment_id := "payment-1";
            vi_amount := 5 |}) Sample.db_voted)
  = Error "duplicate key value violates unique constraint votes_payment_id_key"
  /\ fst (exec (StripeWebhook.webhook Sample.env1 (Some "whsec")
                  Sample.succeeded1) Sample.db_voted)
     = Returned (respond 200%nat ReceivedBody).
Proof.
  split; [reflexivity |].
  destruct (webhook_acknowledged Sample.env1 Sample.db_voted) as [S _].
  destruct (S (Some "whsec") Sample.succeeded1) as [V _].
  destruct (V "good" "whsec" eq_refl eq_refl eq_refl eq_refl) as [A _].
  apply (A {| se_type := "payment_intent.succeeded";
              se_data_object := Sample.intent1 |}).
  reflexivity.
Defined.

Example forged_webhook_refused :
  exec (StripeWebhook.webhook Sample.env1 (Some "whsec") Sample.forged1)
       Sample.db_paid
  = (Returned (respond 400%nat (ErrorBody "Webhook signature verification failed")),
     Sample.db_paid).
Proof. reflexivity. Qed.

End Acknowledge.

Unset Implicit Arguments.

(** ** Interleaved requests *)

Section InterleavingFacts.
Import Schema Store Handler Interleaving.



Section Invariant.
Variable I : DB -> Prop.
Variable Q : DB -> Prop.
Hypothesis Q_stable :
  forall (A : Type) (s : Stmt A) (db : DB), Q db -> Q (snd (run_stmt s db)).







End Invariant.
End InterleavingFacts.

Section Termination.
Import Schema Store Handler Interleaving.







End Termination.

(** ** Lists as tables *)

Section Tables.

Lemma filter_map_keep {A : Type} (q : A -> bool) (f : A -> A) (l : list A) :
  (forall x, q (f x) = q x) -> filter q (map f l) = map f (filter q l).
Proof.
  intros H. induction l as [| a l IH]; [reflexivity |].
  cbn. rewrite H. destruct (q a); cbn; rewrite IH; reflexivity.
Qed.


Lemma existsb_filter_nil {A : Type} (q : A -> bool) (l : list A) :
  existsb q l = false <-> filter q l = [].
Proof.
  induction l as [| a l IH]; [split; reflexivity |].
  cbn. destruct (q a); cbn; [split; discriminate | exact IH].
Qed.


End Tables.

(** ** C1: one vote per completed payment *)

Section OneVote.
Import Schema Store Handler Http Interleaving VoteCommit.
Open Scope Z_scope.
Open Scope string_scope.










End OneVote.

Section OneVoteRun.
Import Schema Store Handler Http Outcomes VoteCommit Sample.
Open Scope string_scope.


(** The scenario of the specification: price 5.00, commission 0.05; the
    create-intent request leaves a pending payment of 5.00 with a fee of
    0.25 and earnings of 4.75; the "succeeded" event delivered twice leaves
    one vote, a vote count of 1 and a revenue of 5.00. *)
Example paid_vote_scenario :
  let db1 := store_after (Payments.stripe_create_intent env1 "voter-1" create1) db0 in
  let db2 := store_after (StripeWebhook.webhook env1 (Some "whsec") succeeded1) db1 in
  let db3 := store_after (StripeWebhook.webhook env1 (Some "whsec") succeeded1) db2 in
  map (fun p => (p_amount p, p_platform_fee p, p_organizer_earnings p, p_status p))
      (payments db1) = [(500, 25, 475, pending)]%Z
  /\ payments db2 = [payment1]
  /\ votes db3 = [vote1]
  /\ map ct_vote_count (contestants db3) = [1%Z]
  /\ map ev_total_revenue (events db3) = [500%Z]
  /\ db3 = db_voted.
Proof. repeat split. Qed.

End OneVoteRun.

(** ** C2: the status of a payment *)

Section StatusMoves.
Import Schema Store Handler Http Outcomes Interleaving Requests.
Open Scope string_scope.

Lemma issues_try_catch (G : forall A : Type, Stmt A -> Prop) {R : Type}
    (p : Prog R) (h : string -> Prog R) :
  issues G p -> (forall e, issues G (h e)) -> issues G (try_catch p h).
Proof.
  intros Hp Hh. induction p as [r | e | T s k IH]; cbn; auto.
  destruct Hp as [Gs Hk]. split; [exact Gs |]. intros a. apply IH. apply Hk.
Qed.

Lemma issues_bind (G : forall A : Type, Stmt A -> Prop) {A B : Type}
    (p : Prog A) (f : A -> Prog B) :
  issues G p -> (forall a, issues G (f a)) -> issues G (bind p f).
Proof.
  intros Hp Hf. induction p as [r | e | T s k IH]; cbn; auto.
  destruct Hp as [Gs Hk]. split; [exact Gs |]. intros a. apply IH. apply Hk.
Qed.

Section Preserved.
Variable G : forall A : Type, Stmt A -> Prop.
Variable J : DB -> Prop.
Hypothesis G_keeps_J :
  forall (A : Type) (s : Stmt A) (db : DB), G A s -> J db -> J (snd (run_stmt s db)).

Lemma step_issues {R : Type} (t : Prog R) (db : DB) :
  issues G t -> J db ->
  issues G (fst (step t db)) /\ J (snd (step t db)).
Proof.
  destruct t as [r | e | T s k]; cbn; intros H HJ; auto.
  destruct H as [Gs Hk]. pose proof (G_keeps_J T s db Gs HJ) as X.
  destruct (run_stmt s db) as [a db']. cbn in *. split; [apply Hk | exact X].
Qed.

Lemma step_nth_issues {R : Type} (i : nat) (ts : list (Prog R)) (db : DB) :
  Forall (issues G) ts -> J db ->
  Forall (issues G) (fst (step_nth i ts db)) /\ J (snd (step_nth i ts db)).
Proof.
  revert i. induction ts as [| t ts IH]; intros i F HJ.
  - destruct i; cbn; auto.
  - inversion F as [| ? ? Ht Fts]; subst. destruct i as [| j]; cbn.
    + destruct (step_issues t db Ht HJ) as [X Y].
      destruct (step t db). cbn in *. split; [constructor; assumption | exact Y].
    + destruct (IH j Fts HJ) as [X Y].
      destruct (step_nth j ts db). cbn in *.
      split; [constructor; assumption | exact Y].
Qed.

Lemma run_issues {R : Type} (schedule : list nat) (ts : list (Prog R)) (db : DB) :
  Forall (issues G) ts -> J db -> J (snd (run schedule ts db)).
Proof.
  revert ts db. induction schedule as [| i rest IH]; intros ts db F HJ.
  - exact HJ.
  - cbn. destruct (step_nth_issues i ts db F HJ) as [X Y].
    destruct (step_nth i ts db). cbn in *. apply IH; assumption.
Qed.

End Preserved.


Lemma status_out_pending (s : payment_status) :
  (payment_status_out s =? "pending") = true <-> s = pending.
Proof. destruct s; cbn; split; congruence. Qed.




Lemma single_data {A : Type} (rows : list A) (x : A) :
  single rows = Data x -> rows = [x].
Proof.
  destruct rows as [| a [| b rows]]; cbn; intros E; try discriminate.
  injection E as ->. reflexivity.
Qed.







End StatusMoves.

(** ** C8: the commission rate and existing payments *)

Section FrozenSplit.
Import Schema Store Handler Http Outcomes Interleaving Requests Organizer.
Open Scope string_scope.










End FrozenSplit.

(** ** The store under any requests: votes, counters, keys *)

Section StoreInvariants.
Import Schema Store Handler Http Interleaving VoteCommit Ledger.
Open Scope Z_scope.
Open Scope string_scope.

Lemma issues_anything {R : Type} (t : Prog R) :
  issues (fun _ _ => True) t.
Proof. induction t; cbn; auto. Qed.

Lemma total_amount_app (a b : list Vote) :
  total_amount (a ++ b) = total_amount a + total_amount b.
Proof.
  unfold total_amount.
  induction a; cbn; [reflexivity | rewrite IHa; lia].
Qed.

Lemma counted_by_nil (c : Contestant) : counted_by [] c = c.
Proof. destruct c; unfold counted_by, counted; cbn; f_equal; lia. Qed.

Lemma credited_by_nil (e : Event) : credited_by [] e = e.
Proof. destruct e; unfold credited_by, credited; cbn; f_equal; lia. Qed.

Lemma counted_by_app (a b : list Vote) (c : Contestant) :
  counted_by b (counted_by a c) = counted_by (a ++ b) c.
Proof.
  unfold counted_by, counted, votes_of_contestant; cbn.
  rewrite filter_app, length_app, Nat2Z.inj_add. f_equal. lia.
Qed.

Lemma credited_by_app (a b : list Vote) (e : Event) :
  credited_by b (credited_by a e) = credited_by (a ++ b) e.
Proof.
  unfold credited_by, credited, votes_of_event; cbn.
  rewrite filter_app, length_app, Nat2Z.inj_add, total_amount_app.
  f_equal; lia.
Qed.

Lemma map_unchanged {A : Type} (f : A -> A) (l : list A) :
  (forall x, f x = x) -> map f l = l.
Proof. intro H. induction l; cbn; [reflexivity | now rewrite H, IHl]. Qed.

Lemma follows_same (db db' : DB) :
  votes db' = votes db -> contestants db' = contestants db ->
  events db' = events db -> categories db' = categories db ->
  follows db db'.
Proof.
  intros V C E G. exists []. rewrite app_nil_r, V, C, E, G.
  repeat split; symmetry; apply map_unchanged;
    auto using counted_by_nil, credited_by_nil.
Qed.

Lemma insert_vote_follows (row : VoteInsert) (db : DB) :
  follows db (snd (insert_vote row db)).
Proof.
  unfold insert_vote.
  destruct (existsb _ (votes db)); [now apply follows_same |].
  cbn [snd].
  eexists [_]. split; [reflexivity |]. split; [| split; [| reflexivity]].
  - cbn. apply map_ext. intro c.
    unfold counted_by, counted, votes_of_contestant. cbn.
    destruct (ct_id c =? _)%string; cbn; [reflexivity |].
    destruct c; cbn; f_equal; lia.
  - cbn. apply map_ext. intro e.
    unfold credited_by, credited, votes_of_event. cbn.
    destruct (ev_id e =? _)%string; cbn.
    + f_equal; lia.
    + destruct e; cbn; f_equal; lia.
Qed.

Lemma stmt_follows (A : Type) (s : Stmt A) (db : DB) :
  follows db (snd (run_stmt s db)).
Proof.
  destruct s; cbn [run_stmt snd]; try (now apply follows_same).
  - unfold insert_payment.
    repeat branch; now apply follows_same.
  - unfold update_payments.
    repeat branch; now apply follows_same.
  - apply insert_vote_follows.
  - unfold insert_withdrawal. destruct (existsb _ _); now apply follows_same.
Qed.

Lemma follows_trans (a b c : DB) : follows a b -> follows b c -> follows a c.
Proof.
  intros (m1 & V1 & C1 & E1 & G1) (m2 & V2 & C2 & E2 & G2).
  exists (m1 ++ m2)%list. repeat split.
  - rewrite V2, V1, app_assoc. reflexivity.
  - rewrite C2, C1, map_map. apply map_ext. intro. apply counted_by_app.
  - rewrite E2, E1, map_map. apply map_ext. intro. apply credited_by_app.
  - congruence.
Qed.

Lemma run_follows {R : Type} (schedule : list nat) (ts : list (Prog R))
    (db : DB) :
  follows db (snd (run schedule ts db)).
Proof.
  apply (run_issues (fun _ _ => True) (follows db)).
  - intros A s d _ F. eapply follows_trans; [exact F | apply stmt_follows].
  - apply Forall_forall. intros. apply issues_anything.
  - now apply follows_same.
Qed.

Lemma filter_absent {A : Type} (f : A -> string) (a : string) (l : list A) :
  ~ In a (map f l) -> filter (fun x => f x =? a) l = [].
Proof.
  induction l as [| x l IH]; cbn; [reflexivity |]. intro N.
  destruct (f x =? a) eqn:E.
  - apply String.eqb_eq in E. tauto.
  - apply IH. tauto.
Qed.

Lemma NoDup_at_most_one {A : Type} (f : A -> string) (a : string) (l : list A) :
  NoDup (map f l) ->
  (List.length (filter (fun x => (f x =? a)%string) l) <= 1)%nat.
Proof.
  induction l as [| x l IH]; cbn; [lia |]. intro N.
  inversion N as [| ? ? N1 N2]; subst.
  destruct (f x =? a) eqn:E.
  - apply String.eqb_eq in E. subst a.
    rewrite (filter_absent f (f x) l N1). cbn. lia.
  - auto.
Qed.

Lemma NoDup_snoc {A : Type} (x : A) (l : list A) :
  NoDup l -> ~ In x l -> NoDup (l ++ [x]).
Proof.
  induction l as [| y l IH]; cbn; intros N M.
  - constructor; [tauto | constructor].
  - inversion N as [| ? ? N1 N2]; subst. constructor.
    + rewrite in_app_iff. cbn. intros [H | [H | []]]; [tauto |].
      subst. tauto.
    + apply IH; tauto.
Qed.

Lemma existsb_absent {A : Type} (f : A -> string) (a : string) (l : list A) :
  existsb (fun x => f x =? a) l = false -> ~ In a (map f l).
Proof.
  induction l as [| x l IH]; cbn; [tauto |].
  intros E. apply orb_false_iff in E as [E1 E2].
  apply String.eqb_neq in E1. intros [H | H]; [congruence | now apply IH].
Qed.

Lemma stmt_keeps_vote_key (A : Type) (s : Stmt A) (db : DB) :
  NoDup (map v_payment_id (votes db)) ->
  NoDup (map v_payment_id (votes (snd (run_stmt s db)))).
Proof.
  intro N. destruct s; cbn [run_stmt snd]; try exact N.
  - unfold insert_payment. repeat branch; exact N.
  - unfold update_payments. repeat branch; exact N.
  - unfold insert_vote. destruct (existsb _ _) eqn:E; [exact N |].
    cbn. rewrite map_app. cbn.
    apply NoDup_snoc; [exact N |].
    exact (existsb_absent v_payment_id _ _ E).
  - unfold insert_withdrawal. repeat branch; exact N.
Qed.




(** X1: counters move with the votes table and nothing else moves the
    catalogue.  Whatever requests run and however their statements
    interleave, the store differs from the one they started from by the votes
    that were added: each contestant's [vote_count] has grown by the number of
    new votes that reference it, each event's [total_votes] and
    [total_revenue] by the number and the amounts of the new votes that
    reference it, and no other column of [events], [contestants] or
    [categories] has changed (status, price, dates, owner, names). *)
Theorem counters_move_with_votes {R : Type} (schedule : list nat)
    (ts : list (Prog R)) (db : DB) :
  exists more,
    votes (snd (run schedule ts db)) = (votes db ++ more)%list
    /\ contestants (snd (run schedule ts db))
       = map (counted_by more) (contestants db)
    /\ events (snd (run schedule ts db)) = map (credited_by more) (events db)
    /\ categories (snd (run schedule ts db)) = categories db.
Proof. exact (run_follows schedule ts db). Qed.

(** X2: the denormalized counters stay equal to what the votes table holds.
    If every contestant's [vote_count] is the number of votes that reference
    it, and every event's [total_votes] and [total_revenue] are the number
    and the sum of the amounts of the votes that reference it, then the same
    holds after any requests, however interleaved. *)
Theorem counters_stay_consistent {R : Type} (schedule : list nat)
    (ts : list (Prog R)) (db : DB) :
  consistent db -> consistent (snd (run schedule ts db)).
Proof.
  intros [HC HE].
  destruct (run_follows schedule ts db) as (more & V & C & E & _).
  unfold consistent. rewrite V, C, E. split; apply Forall_map.
  - eapply Forall_impl; [| exact HC]. intros c H.
    unfold counted_by, counted, votes_of_contestant in *. cbn.
    rewrite filter_app, length_app, Nat2Z.inj_add. lia.
  - eapply Forall_impl; [| exact HE]. intros e [H1 H2].
    unfold credited_by, credited, votes_of_event in *. cbn.
    rewrite filter_app, length_app, Nat2Z.inj_add, total_amount_app. lia.
Qed.

Lemma counters_stay_consistent_witness :
  let after :=
    snd (run [0; 1; 0; 1; 0; 1; 0; 1]%nat
           (map Requests.program
              [Requests.StripeEventIn Sample.env1 (Some "whsec") Sample.succeeded1;
               Requests.CastVote Sample.env1 "voter-1" Sample.cast1])
           Sample.db_paid) in
  consistent after /\ map ct_vote_count (contestants after) = [1].
Proof.
  split.
  - apply counters_stay_consistent. split; repeat constructor.
  - reflexivity.
Defined.

(** X3: at most one vote per payment, for every payment at once.  The
    UNIQUE constraint on [votes.payment_id] is kept by every statement, so
    after any requests, however interleaved, no two votes reference the same
    payment. *)
Theorem payment_has_at_most_one_vote {R : Type} (schedule : list nat)
    (ts : list (Prog R)) (db : DB) :
  NoDup (map v_payment_id (votes db)) ->
  NoDup (map v_payment_id (votes (snd (run schedule ts db))))
  /\ forall paymentId,
       (List.length
          (filter (fun v => (v_payment_id v =? paymentId)%string)
                  (votes (snd (run schedule ts db)))) <= 1)%nat.
Proof.
  intro N.
  assert (N' : NoDup (map v_payment_id (votes (snd (run schedule ts db))))).
  { apply (run_issues (fun _ _ => True)
             (fun d => NoDup (map v_payment_id (votes d)))).
    - intros A s d _. apply stmt_keeps_vote_key.
    - apply Forall_forall. intros. apply issues_anything.
    - exact N. }
  split; [exact N' |].
  intro paymentId. apply NoDup_at_most_one. exact N'.
Qed.

Lemma payment_has_at_most_one_vote_witness :
  let after :=
    snd (run [0; 1; 2; 0; 1; 2; 0; 1; 2; 0; 1; 2]%nat
           (map Requests.program
              [Requests.StripeEventIn Sample.env1 (Some "whsec") Sample.succeeded1;
               Requests.CastVote Sample.env1 "voter-1" Sample.cast1;
               Requests.StripeEventIn Sample.env1 (Some "whsec") Sample.succeeded1])
           Sample.db_paid) in
  votes after = [Sample.vote1]
  /\ NoDup (map v_payment_id (votes after)).
Proof.
  split; [reflexivity |].
  apply payment_has_at_most_one_vote. constructor.
Defined.



End StoreInvariants.

(** ** Creating a payment *)

Section CreatingPayments.
Import Schema Store Handler Http Outcomes Payments Checkout.
Open Scope string_scope.

















End CreatingPayments.

(** ** Verifying and cancelling a payment *)

Section VerifyAndCancel.
Import Schema Store Handler Http Outcomes Interleaving Requests Payments
  Checkout.
Open Scope string_scope.

(** A program that inserts no vote leaves the votes and the counters as they
    are. *)
Lemma stmt_without_vote (A : Type) (s : Stmt A) (db : DB) :
  @inserts_no_vote A s ->
  votes (snd (run_stmt s db)) = votes db
  /\ contestants (snd (run_stmt s db)) = contestants db
  /\ events (snd (run_stmt s db)) = events db.
Proof.
  destruct s; cbn [inserts_no_vote run_stmt snd]; intro N;
    try (repeat split; reflexivity).
  - unfold insert_payment. repeat branch; repeat split; reflexivity.
  - unfold update_payments. repeat branch; repeat split; reflexivity.
  - contradiction.
  - unfold insert_withdrawal. repeat branch; repeat split; reflexivity.
Qed.

Lemma exec_without_vote {R : Type} (p : Prog R) (db : DB) :
  issues (@inserts_no_vote) p ->
  votes (snd (exec p db)) = votes db
  /\ contestants (snd (exec p db)) = contestants db
  /\ events (snd (exec p db)) = events db.
Proof.
  revert db. induction p as [r | e | A s k IH]; intros db I;
    try (repeat split; reflexivity).
  cbn [issues] in I. destruct I as [G I].
  cbn [exec]. destruct (run_stmt s db) as [a db'] eqn:E.
  destruct (stmt_without_vote A s db G) as (V & C & Ev).
  rewrite E in V, C, Ev. cbn [snd] in V, C, Ev.
  destruct (IH a db' (I a)) as (V' & C' & Ev').
  repeat split; congruence.
Qed.

Lemma verify_inserts_no_vote (env : Env) (userId paymentId : uuid) :
  issues (@inserts_no_vote) (verify_payment env userId paymentId).
Proof.
  unfold verify_payment.
  repeat (cbn [issues inserts_no_vote];
          match goal with
          | |- _ /\ _ => split
          | |- forall _, _ => intro
          | |- True => exact I
          | |- issues _ (try_catch _ _) => apply issues_try_catch
          | |- issues _ (match ?c with _ => _ end) => destruct c eqn:?
          end).
Qed.

(** X9: GET /verify on a pending payment that the provider reports as paid
    marks the payment [completed] and answers 200 with [verified] true, and
    that is all it does: no vote is inserted and no counter moves.  The vote
    of such a payment is left to the provider's event or to POST /votes. *)
Theorem verify_completes_without_vote (env : Env) (userId paymentId : uuid)
    (db : DB) (payment : Payment) :
  single (filter (fun p => (p_id p =? paymentId) && (p_voter_id p =? userId))
            (payments db)) = Data payment ->
  p_status payment = pending ->
  verificationResult env payment = (true, "completed") ->
  let db' := store_after (verify_payment env userId paymentId) db in
  fst (exec (verify_payment env userId paymentId) db)
  = Returned (respond 200 (VerifiedBody paymentId "completed" true))
  /\ statuses db paymentId <> []
  /\ statuses db' paymentId = map (fun _ => completed) (statuses db paymentId)
  /\ votes db' = votes db
  /\ contestants db' = contestants db
  /\ events db' = events db.
Proof.
  intros S P VR db'.
  assert (Hin : In payment (payments db) /\ p_id payment = paymentId).
  { pose proof (single_data _ _ S) as L.
    assert (In payment
              (filter (fun p => (p_id p =? paymentId) && (p_voter_id p =? userId))
                 (payments db))) as H by (rewrite L; left; reflexivity).
    apply filter_In in H. destruct H as [H Q].
    apply andb_true_iff in Q. destruct Q as [Q _].
    apply String.eqb_eq in Q. tauto. }
  destruct Hin as [Hin Hid].
  assert (E : exec (verify_payment env userId paymentId) db
              = (Returned (respond 200 (VerifiedBody paymentId "completed" true)),
                 with_payments db
                   (map (fun p => if p_id p =? paymentId
                                  then settled_as completed
                                         (p_payment_provider_id p)
                                         (p_payment_intent_id p) p
                                  else p)
                        (payments db)))).
  { unfold verify_payment. cbn [exec try_catch run_stmt fst snd].
    rewrite S, P. cbn [payment_status_out].
    change ("pending" =? "pending") with true. cbn iota.
    rewrite VR. cbn [andb negb].
    change ("completed" =? "pending") with false. cbn [negb].
    cbn [exec try_catch run_stmt fst snd update_payments set_status].
    change (payment_status_in "completed") with (Some completed).
    cbn [exec fst snd orb]. rewrite Hid. reflexivity. }
  split; [rewrite E; reflexivity |].
  split.
  { unfold statuses.
    assert (In payment (filter (fun x => p_id x =? paymentId) (payments db)))
      as Hf by (apply filter_In; split;
                [exact Hin | rewrite Hid; apply String.eqb_refl]).
    destruct (filter (fun x => p_id x =? paymentId) (payments db));
      [exfalso; exact Hf | discriminate]. }
  split.
  { unfold db', store_after. rewrite E. cbn [snd]. unfold statuses.
    cbn [payments with_payments].
    rewrite filter_map_keep
      by (intros x; destruct (p_id x =? paymentId) eqn:Ex; cbn; rewrite Ex;
          reflexivity).
    rewrite !map_map. apply map_ext_in.
    intros x Hx. apply filter_In in Hx. destruct Hx as [_ Hx].
    rewrite Hx. reflexivity. }
  apply (exec_without_vote (verify_payment env userId paymentId) db).
  apply verify_inserts_no_vote.
Qed.

Lemma verify_completes_without_vote_witness :
  let db' :=
    store_after (verify_payment Sample.env1 "voter-1" "payment-1")
      Sample.db_pending in
  statuses db' "payment-1" = [completed] /\ votes db' = [].
Proof.
  destruct (verify_completes_without_vote Sample.env1 "voter-1" "payment-1"
              Sample.db_pending Sample.payment1_pending eq_refl eq_refl
              eq_refl) as (_ & _ & S & V & _).
  split; [exact S | exact V].
Defined.

(** X10: POST /cancel changes the store only for a payment of the caller
    that is still pending.  If anything is written, then exactly one row has
    the given id, belongs to the caller and is pending; the request is
    answered 200, and the store differs from the one before in the status of
    the rows with that id only, which is now [failed].  In every other case
    (another voter's payment, a settled payment, an unknown id) the store is
    left as it was. *)
Theorem cancel_touches_own_pending_only (userId paymentId : uuid) (db : DB) :
  store_after (cancel_payment userId paymentId) db <> db ->
  exists payment,
    filter (fun p => (p_id p =? paymentId) && (p_voter_id p =? userId)
                     && (payment_status_out (p_status p) =? "pending"))
           (payments db) = [payment]
    /\ p_id payment = paymentId
    /\ p_voter_id payment = userId
    /\ p_status payment = pending
    /\ exec (cancel_payment userId paymentId) db
       = (Returned (respond 200 (MessageBody "Payment cancelled successfully")),
          with_payments db
            (map (fun p => if p_id p =? paymentId
                           then settled_as failed (p_payment_provider_id p)
                                  (p_payment_intent_id p) p
                           else p)
                 (payments db))).
Proof.
  unfold store_after, cancel_payment.
  cbn [exec try_catch run_stmt fst snd].
  destruct (single _) as [payment | message] eqn:S;
    [| intro N; exfalso; apply N; reflexivity].
  intros _. exists payment.
  pose proof (single_data _ _ S) as L. split; [exact L |].
  match type of L with
  | filter ?q _ = _ =>
      assert (In payment (filter q (payments db))) as Hin
        by (rewrite L; left; reflexivity)
  end.
  apply filter_In in Hin. destruct Hin as [_ Hq].
  apply andb_true_iff in Hq. destruct Hq as [Hq Hp].
  apply andb_true_iff in Hq. destruct Hq as [Hid Hv].
  apply String.eqb_eq in Hid, Hv. apply status_out_pending in Hp.
  repeat split; try assumption.
Qed.

Lemma cancel_touches_own_pending_only_witness :
  exists payment,
    p_voter_id payment = "voter-1"
    /\ map p_status
         (payments
            (snd (exec (cancel_payment "voter-1" "payment-1")
                    Sample.db_pending))) = [failed].
Proof.
  destruct (cancel_touches_own_pending_only "voter-1" "payment-1"
              Sample.db_pending) as (payment & _ & _ & V & _ & E).
  - vm_compute. discriminate.
  - exists payment. split; [exact V |]. rewrite E. reflexivity.
Defined.

End VerifyAndCancel.

(** ** What the webhooks write *)

Section WebhookWrites.
Import Schema Store Handler Http Outcomes Interleaving Requests Checkout.
Open Scope string_scope.

(** X11: a "payment failed" or "canceled" event marks every payment of the
    intent [failed], whatever its status was, and touches neither the votes
    nor the counters: a payment that was completed and whose vote is counted
    ends up [failed] with its vote still in place.  The same holds of
    Paystack's "charge.failed", which finds the payment by its id. *)
Theorem failure_event_keeps_the_vote :
  (forall (paymentIntent : StripeObject) (id : uuid) (db : DB),
     so_metadata paymentIntent = Some (Some id) ->
     truthy (Some id) = true ->
     let db' := store_after (StripeWebhook.handlePaymentFailed paymentIntent) db in
     map p_status
       (filter (eq_payment_intent_id (so_id paymentIntent)) (payments db'))
     = map (fun _ => failed)
         (filter (eq_payment_intent_id (so_id paymentIntent)) (payments db))
     /\ store_after (StripeWebhook.handlePaymentCanceled paymentIntent) db = db'
     /\ votes db' = votes db
     /\ contestants db' = contestants db
     /\ events db' = events db)
  /\ (forall (charge : PaystackData) (reference : string) (db : DB),
        pd_reference charge = Some reference ->
        truthy (Some reference) = true ->
        let db' :=
          store_after (PaystackWebhook.handleChargeFailed (Some charge)) db in
        statuses db' reference = map (fun _ => failed) (statuses db reference)
        /\ votes db' = votes db
        /\ contestants db' = contestants db
        /\ events db' = events db).
Proof.
  split.
  - intros paymentIntent id db M T db'.
    unfold db', store_after, StripeWebhook.handlePaymentCanceled,
      StripeWebhook.handlePaymentFailed, StripeWebhook.mark_failed_by_intent,
      StripeWebhook.metadata_payment_id.
    rewrite M. cbn [bind try_catch]. rewrite T.
    cbn [negb exec try_catch bind run_stmt fst snd update_payments set_status].
    change (payment_status_in "failed") with (Some failed).
    cbn [exec snd payments with_payments votes contestants events].
    repeat split.
    rewrite filter_map_keep.
    + rewrite !map_map. apply map_ext_in.
      intros x Hx. apply filter_In in Hx. destruct Hx as [_ Hx].
      rewrite Hx. reflexivity.
    + intros x. destruct (eq_payment_intent_id _ x) eqn:Ex; [| exact Ex].
      unfold eq_payment_intent_id in *. cbn. exact Ex.
  - intros charge reference db Rf T db'.
    unfold db', store_after, PaystackWebhook.handleChargeFailed,
      PaystackWebhook.reference_of.
    cbn [bind try_catch]. rewrite Rf. rewrite T.
    cbn [negb exec try_catch bind run_stmt fst snd update_payments set_status].
    change (payment_status_in "failed") with (Some failed).
    cbn [exec snd payments with_payments votes contestants events].
    repeat split. unfold statuses. cbn [payments with_payments].
    rewrite filter_map_keep
      by (intros x; destruct (p_id x =? reference) eqn:Ex; cbn; rewrite Ex;
          reflexivity).
    rewrite !map_map. apply map_ext_in.
    intros x Hx. apply filter_In in Hx. destruct Hx as [_ Hx].
    rewrite Hx. reflexivity.
Qed.

Lemma failure_event_keeps_the_vote_witness :
  let db' :=
    store_after (StripeWebhook.handlePaymentFailed Sample.intent1)
      Sample.db_voted in
  map p_status (payments Sample.db_voted) = [completed]
  /\ map p_status (payments db') = [failed]
  /\ votes db' = [Sample.vote1]
  /\ map ct_vote_count (contestants db') = [1%Z].
Proof.
  destruct failure_event_keeps_the_vote as [F _].
  destruct (F Sample.intent1 "payment-1" Sample.db_voted eq_refl eq_refl)
    as (S & _ & V & C & _).
  split; [reflexivity |]. split; [exact S |].
  split; [rewrite V; reflexivity | rewrite C; reflexivity].
Defined.

(** X12: only a verified event of a handled type can change the store.  If
    a call of the Stripe webhook leaves the store different, then the
    signature verified and the event was "payment_intent.succeeded",
    "payment_intent.payment_failed" or "payment_intent.canceled"; for the
    Paystack webhook, the HMAC of the body equalled the signature header and
    the event was one of "charge.success", "charge.failed",
    "transfer.success", "transfer.failed".  A forged, unsigned, unknown or
    dispute event writes nothing. *)
Theorem only_verified_events_write (env : Env) (db : DB) :
  (forall (secret : option string) (req : StripeWebhook.Request),
     store_after (StripeWebhook.webhook env secret req) db <> db ->
     exists signature key event,
       StripeWebhook.stripe_signature req = Some signature
       /\ secret = Some key
       /\ constructWebhookEvent env (StripeWebhook.raw_body req) signature key
          = Data event
       /\ In (se_type event)
            ["payment_intent.succeeded"; "payment_intent.payment_failed";
             "payment_intent.canceled"])
  /\ (forall (secret : option string) (req : PaystackWebhook.Request),
        store_after (PaystackWebhook.webhook env secret req) db <> db ->
        exists signature key,
          PaystackWebhook.x_paystack_signature req = Some signature
          /\ secret = Some key
          /\ hmac_sha512_hex env key (PaystackWebhook.body_text req) = signature
          /\ In (pe_event (PaystackWebhook.body req))
               ["charge.success"; "charge.failed"; "transfer.success";
                "transfer.failed"]).
Proof.
  split.
  - intros secret req. unfold store_after, StripeWebhook.webhook.
    destruct (StripeWebhook.stripe_signature req) as [signature |];
      [| intro N; exfalso; apply N; reflexivity].
    destruct secret as [key |]; [| intro N; exfalso; apply N; reflexivity].
    destruct (negb (truthy (Some signature)) || negb (truthy (Some key)));
      [intro N; exfalso; apply N; reflexivity |].
    rewrite exec_try_catch.
    destruct (constructWebhookEvent env _ signature key) as [event | message]
      eqn:Ev; [| intro N; exfalso; apply N; reflexivity].
    rewrite exec_bind.
    destruct (se_type event =? "payment_intent.succeeded") eqn:T1.
    { intros _. exists signature, key, event. apply String.eqb_eq in T1.
      rewrite T1. repeat split; try assumption; cbn; tauto. }
    destruct (se_type event =? "payment_intent.payment_failed") eqn:T2.
    { intros _. exists signature, key, event. apply String.eqb_eq in T2.
      rewrite T2. repeat split; try assumption; cbn; tauto. }
    destruct (se_type event =? "payment_intent.canceled") eqn:T3.
    { intros _. exists signature, key, event. apply String.eqb_eq in T3.
      rewrite T3. repeat split; try assumption; cbn; tauto. }
    destruct (se_type event =? "charge.dispute.created").
    + rewrite handleChargeDispute_writes_nothing.
      intro N; exfalso; apply N; reflexivity.
    + intro N; exfalso; apply N; reflexivity.
  - intros secret req. unfold store_after, PaystackWebhook.webhook.
    rewrite exec_try_catch.
    destruct (PaystackWebhook.x_paystack_signature req) as [signature |];
      [| intro N; exfalso; apply N; reflexivity].
    destruct secret as [key |]; [| intro N; exfalso; apply N; reflexivity].
    destruct (negb (truthy (Some signature)) || negb (truthy (Some key)));
      [intro N; exfalso; apply N; reflexivity |].
    destruct (hmac_sha512_hex env key (PaystackWebhook.body_text req)
              =? signature) eqn:H;
      [| intro N; exfalso; apply N; reflexivity].
    apply String.eqb_eq in H. cbn [negb]. rewrite exec_bind.
    destruct (pe_event (PaystackWebhook.body req) =? "charge.success") eqn:T1.
    { intros _. exists signature, key. apply String.eqb_eq in T1.
      rewrite T1. repeat split; try assumption; cbn; tauto. }
    destruct (pe_event (PaystackWebhook.body req) =? "charge.failed") eqn:T2.
    { intros _. exists signature, key. apply String.eqb_eq in T2.
      rewrite T2. repeat split; try assumption; cbn; tauto. }
    destruct (pe_event (PaystackWebhook.body req) =? "transfer.success") eqn:T3.
    { intros _. exists signature, key. apply String.eqb_eq in T3.
      rewrite T3. repeat split; try assumption; cbn; tauto. }
    destruct (pe_event (PaystackWebhook.body req) =? "transfer.failed") eqn:T4.
    { intros _. exists signature, key. apply String.eqb_eq in T4.
      rewrite T4. repeat split; try assumption; cbn; tauto. }
    intro N; exfalso; apply N; reflexivity.
Qed.

Lemma only_verified_events_write_witness :
  store_after (StripeWebhook.webhook Sample.env1 (Some "whsec") Sample.forged1)
    Sample.db_paid = Sample.db_paid
  /\ exists signature key event,
       StripeWebhook.stripe_signature Sample.succeeded1 = Some signature
       /\ Some "whsec" = Some key
       /\ constructWebhookEvent Sample.env1
            (StripeWebhook.raw_body Sample.succeeded1) signature key
          = Data event
       /\ In (se_type event)
            ["payment_intent.succeeded"; "payment_intent.payment_failed";
             "payment_intent.canceled"].
Proof.
  split; [reflexivity |].
  destruct (only_verified_events_write Sample.env1 Sample.db_paid) as [S _].
  apply (S (Some "whsec") Sample.succeeded1).
  vm_compute. discriminate.
Defined.

End WebhookWrites.

(** ** Transfers and the organizer's balance *)

Section Sums.
Import Organizer.
Open Scope Q_scope.

Lemma fold_sum {A : Type} (f : A -> Q) (l : list A) (a : Q) :
  fold_left (fun sum x => sum + f x) l a == a + sum_of f l.
Proof.
  unfold sum_of. revert a.
  induction l as [| x l IH]; intro a; cbn [fold_left].
  - ring.
  - rewrite (IH (a + f x)), (IH (0 + f x)). ring.
Qed.

Lemma sum_of_nil {A : Type} (f : A -> Q) : sum_of f [] == 0.
Proof. reflexivity. Qed.

Lemma sum_of_cons {A : Type} (f : A -> Q) (x : A) (l : list A) :
  sum_of f (x :: l) == f x + sum_of f l.
Proof.
  unfold sum_of at 1. cbn [fold_left]. rewrite fold_sum. ring.
Qed.

Lemma sum_of_app {A : Type} (f : A -> Q) (l l' : list A) :
  sum_of f (l ++ l') == sum_of f l + sum_of f l'.
Proof.
  induction l as [| x l IH]; cbn [app].
  - rewrite sum_of_nil. ring.
  - rewrite !sum_of_cons, IH. ring.
Qed.

Lemma sum_of_nonneg {A : Type} (f : A -> Q) (l : list A) :
  (forall x, In x l -> 0 <= f x) -> 0 <= sum_of f l.
Proof.
  induction l as [| x l IH]; intro H.
  - rewrite sum_of_nil. apply Qle_refl.
  - rewrite sum_of_cons.
    assert (0 <= f x) by (apply H; left; reflexivity).
    assert (0 <= sum_of f l) by (apply IH; intros; apply H; right; assumption).
    lra.
Qed.

End Sums.

Section TransferBalance.
Import Schema Store Handler Http Outcomes Organizer.
Open Scope string_scope.

Lemma filter_andb {A : Type} (a b : A -> bool) (l : list A) :
  filter (fun x => a x && b x) l = filter b (filter a l).
Proof.
  induction l as [| x l IH]; cbn; [reflexivity |].
  destruct (a x); cbn; [destruct (b x) |]; now rewrite IH.
Qed.

(** The sum over the counted withdrawals of an organizer, before and after
    the rows with a given id have been given a new status. *)
Lemma restatus_sum (organizerId : uuid) (counted : string -> bool)
    (status : string) (reference : string) (ws : list Withdrawal) :
  let amount := fun w => number_of_10_2 (w_amount w) in
  let f := fun w =>
    if w_id w =? reference
    then {| w_id := w_id w; w_organizer_id := w_organizer_id w;
            w_amount := w_amount w; w_status := status |}
    else w in
  let mine := fun w => (w_organizer_id w =? organizerId) && counted (w_status w) in
  (sum_of amount (filter mine (map f ws))
   + sum_of amount (filter mine (filter (fun w => w_id w =? reference) ws))
   == sum_of amount (filter mine ws)
      + (if counted status
         then sum_of amount
                (filter (fun w => w_organizer_id w =? organizerId)
                   (filter (fun w => w_id w =? reference) ws))
         else 0))%Q.
Proof.
  intros amount f mine. subst amount f mine. cbv beta.
  induction ws as [| x ws IH]; cbn [map filter].
  - destruct (counted status); rewrite ?sum_of_nil; ring.
  - destruct (w_id x =? reference) eqn:Ex;
      cbn [filter w_organizer_id w_status w_amount w_id];
      destruct (w_organizer_id x =? organizerId);
      destruct (counted (w_status x));
      destruct (counted status);
      cbn [andb filter]; rewrite ?sum_of_cons;
      cbn [w_amount]; lra.
Qed.

(** X13: what a transfer event does to the balance.  For a withdrawal [w]
    that is the only row with the transfer's reference as id:
    "transfer.failed" gives its organizer the amount back if the withdrawal
    was counted against the balance (completed, pending or processing);
    "transfer.success" takes the amount off the balance if the withdrawal
    was not counted (a failed one); and the balance of every other organizer
    stays as it is.  Neither handler looks at the status the withdrawal
    has. *)
Theorem transfer_event_moves_balance (transfer : PaystackData)
    (reference : string) (w : Withdrawal) (db : DB) :
  pd_reference transfer = Some reference ->
  truthy (Some reference) = true ->
  filter (fun x => w_id x =? reference) (withdrawals db) = [w] ->
  let counted :=
    JS.includes ["completed"; "pending"; "processing"] (w_status w) in
  let amount := number_of_10_2 (w_amount w) in
  let failed_ := store_after (PaystackWebhook.handleTransferFailed (Some transfer)) db in
  let succeeded :=
    store_after (PaystackWebhook.handleTransferSuccess (Some transfer)) db in
  (balance_of failed_ (w_organizer_id w)
   == balance_of db (w_organizer_id w) + (if counted then amount else 0))%Q
  /\ (balance_of succeeded (w_organizer_id w)
      == balance_of db (w_organizer_id w) - (if counted then 0 else amount))%Q
  /\ (forall organizerId,
        (w_organizer_id w =? organizerId) = false ->
        (balance_of failed_ organizerId == balance_of db organizerId)%Q
        /\ (balance_of succeeded organizerId == balance_of db organizerId)%Q).
Proof.
  intros Rf T U counted amount failed_ succeeded.
  assert (E : forall status,
             store_after (PaystackWebhook.handleTransfer status (Some transfer)) db
             = with_withdrawals db
                 (map (fun x =>
                         if w_id x =? reference
                         then {| w_id := w_id x;
                                 w_organizer_id := w_organizer_id x;
                                 w_amount := w_amount x; w_status := status |}
                         else x)
                      (withdrawals db))).
  { intro status.
    unfold store_after, PaystackWebhook.handleTransfer,
      PaystackWebhook.reference_of.
    cbn [bind try_catch]. rewrite Rf, T. reflexivity. }
  assert (B : forall status organizerId,
             (balance_of
                (store_after
                   (PaystackWebhook.handleTransfer status (Some transfer)) db)
                organizerId
              == balance_of db organizerId
                 + (if (w_organizer_id w =? organizerId)
                       && JS.includes ["completed"; "pending"; "processing"]
                            (w_status w)
                    then number_of_10_2 (w_amount w) else 0)
                 - (if JS.includes ["completed"; "pending"; "processing"] status
                    then if w_organizer_id w =? organizerId
                         then number_of_10_2 (w_amount w) else 0
                    else 0))%Q).
  { intros status organizerId. rewrite E.
    unfold balance_of, withdrawableAmount.
    cbn [events platform_settings withdrawals with_withdrawals].
    pose proof (restatus_sum organizerId
                  (JS.includes ["completed"; "pending"; "processing"])
                  status reference (withdrawals db)) as R.
    cbv zeta in R. rewrite U in R. cbn [filter] in R.
    destruct (w_organizer_id w =? organizerId);
      destruct (JS.includes ["completed"; "pending"; "processing"] (w_status w));
      destruct (JS.includes ["completed"; "pending"; "processing"] status);
      cbn [andb filter] in R |- *; rewrite ?sum_of_cons, ?sum_of_nil in R;
      lra. }
  split; [| split].
  - unfold failed_, PaystackWebhook.handleTransferFailed.
    rewrite (B "failed" (w_organizer_id w)). rewrite String.eqb_refl.
    fold counted. fold amount.
    change (JS.includes ["completed"; "pending"; "processing"] "failed")
      with false.
    destruct counted; cbn [andb]; ring.
  - unfold succeeded, PaystackWebhook.handleTransferSuccess.
    rewrite (B "completed" (w_organizer_id w)). rewrite String.eqb_refl.
    fold counted. fold amount.
    change (JS.includes ["completed"; "pending"; "processing"] "completed")
      with true.
    destruct counted; cbn [andb]; ring.
  - intros organizerId N.
    unfold failed_, succeeded, PaystackWebhook.handleTransferFailed,
      PaystackWebhook.handleTransferSuccess.
    rewrite !B, N. cbn [andb].
    destruct (JS.includes _ "failed"), (JS.includes _ "completed");
      split; ring.
Qed.

Lemma transfer_event_moves_balance_witness :
  let w := {| w_id := "w-1"; w_organizer_id := "organizer-1";
              w_amount := 5000%Z; w_status := "pending" |} in
  let db :=
    with_withdrawals
      (with_events Sample.db0 [Sample.with_revenue 10000%Z Sample.event1])
      [w] in
  let transfer := {| pd_reference := Some "w-1"; pd_id := "tr_1" |} in
  (balance_of
     (store_after (PaystackWebhook.handleTransferFailed (Some transfer)) db)
     "organizer-1"
   == balance_of db "organizer-1" + 50)%Q
  /\ (balance_of db "organizer-1" == 45)%Q.
Proof.
  cbv zeta.
  destruct (transfer_event_moves_balance
              {| pd_reference := Some "w-1"; pd_id := "tr_1" |} "w-1"
              {| w_id := "w-1"; w_organizer_id := "organizer-1";
                 w_amount := 5000%Z; w_status := "pending" |}
              (with_withdrawals
                 (with_events Sample.db0
                    [Sample.with_revenue 10000%Z Sample.event1])
                 [{| w_id := "w-1"; w_organizer_id := "organizer-1";
                     w_amount := 5000%Z; w_status := "pending" |}])
              eq_refl eq_refl eq_refl) as [F _].
  split; [| vm_compute; reflexivity].
  cbv zeta in F. cbn [w_organizer_id] in F. rewrite F.
  vm_compute. reflexivity.
Defined.

End TransferBalance.

(** ** No vote without a completed payment *)

Section VoteNeedsPayment.
Import Schema Store Handler Http Outcomes Interleaving Requests Checkout.
Open Scope string_scope.

(** A request whose store is the one it started from has written no
    vote. *)
Ltac unchanged :=
  cbn [exec try_catch bind run_stmt fst snd StripeWebhook.logged
       PaystackWebhook.logged];
  let N := fresh "N" in intro N; exfalso; apply N; reflexivity.

Lemma acknowledged_store {A R : Type} (p : Prog A) (r : R)
    (h : string -> Prog R) (db : DB) :
  (forall e, exists r', h e = Return r') ->
  snd (exec (try_catch (bind p (fun _ => Return r)) h) db) = snd (exec p db).
Proof.
  intro H. rewrite exec_try_catch, exec_bind.
  destruct (exec p db) as [[a | e] d]; cbn; [reflexivity |].
  destruct (H e) as [r' ->]. reflexivity.
Qed.

Lemma insert_vote_cases (row : VoteInsert) (db : DB) :
  insert_vote row db
  = (Error "duplicate key value violates unique constraint votes_payment_id_key",
     db)
  \/ insert_vote row db
     = (Data {| v_voter_id := vi_voter_id row;
                v_contestant_id := vi_contestant_id row;
                v_event_id := vi_event_id row;
                v_payment_id := vi_payment_id row;
                v_amount := numeric_10_2_in (vi_amount row) |},
        update_vote_counts
          {| v_voter_id := vi_voter_id row;
             v_contestant_id := vi_contestant_id row;
             v_event_id := vi_event_id row;
             v_payment_id := vi_payment_id row;
             v_amount := numeric_10_2_in (vi_amount row) |}
          (with_votes db
             (votes db
              ++ [{| v_voter_id := vi_voter_id row;
                     v_contestant_id := vi_contestant_id row;
                     v_event_id := vi_event_id row;
                     v_payment_id := vi_payment_id row;
                     v_amount := numeric_10_2_in (vi_amount row) |}])%list)).
Proof. unfold insert_vote. destruct (existsb _ _); auto. Qed.

Lemma post_votes_paid_for (env : Env) (voterId : uuid) (body : Votes.CastVote)
    (db : DB) :
  votes (store_after (Votes.post_votes env voterId body) db) <> votes db ->
  exists v, paid_for db (store_after (Votes.post_votes env voterId body) db) v.
Proof.
  unfold store_after, Votes.post_votes.
  destruct (negb (Votes.cast_vote_valid body)); [unchanged |].
  cbn [exec try_catch run_stmt fst snd].
  destruct (single (select_contestant_event _ db)) as [contestant |];
    [| unchanged].
  destruct (cj_category contestant) as [category |]; [| unchanged].
  destruct (cgj_event category) as [event |]; [| unchanged].
  destruct (negb (event_status_out (ev_status event) =? "active"));
    [unchanged |].
  destruct (now env <? ev_start_date event)%Z; [unchanged |].
  destruct (ev_end_date event <? now env)%Z; [unchanged |].
  destruct (negb (Qeq_bool _ _)); [unchanged |].
  cbn [exec try_catch run_stmt fst snd].
  destruct (single (filter _ (payments db))) as [payment |] eqn:S;
    [| unchanged].
  destruct (negb (payment_status_out (p_status payment) =? "completed"))
    eqn:St; [unchanged |].
  destruct (negb (p_contestant_id payment =? Votes.cv_contestant_id body)
            || negb (p_voter_id payment =? voterId)) eqn:Mi; [unchanged |].
  cbn [exec try_catch run_stmt fst snd].
  destruct (single (filter _ (votes db))); [unchanged |].
  cbn [exec try_catch run_stmt fst snd].
  destruct (insert_vote_cases
              {| vi_voter_id := voterId;
                 vi_contestant_id := Votes.cv_contestant_id body;
                 vi_event_id := ev_id event;
                 vi_payment_id := Votes.cv_payment_id body;
                 vi_amount := Votes.cv_amount body |} db) as [E | E];
    rewrite E; [unchanged |].
  cbn [exec fst snd vi_voter_id vi_contestant_id vi_event_id vi_payment_id
       vi_amount].
  intros _. eexists. split; [reflexivity |].
  exists payment.
  pose proof (single_data _ _ S) as L.
  assert (In payment (filter (fun p => p_id p =? Votes.cv_payment_id body)
                        (payments db))) as Hin by (rewrite L; left; reflexivity).
  apply filter_In in Hin. destruct Hin as [Hin Hid].
  apply String.eqb_eq in Hid.
  apply orb_false_iff in Mi. destruct Mi as [M1 M2].
  apply negb_false_iff in M1, M2, St.
  apply String.eqb_eq in M1, M2.
  destruct (p_status payment) eqn:Ps; try discriminate St.
  cbn. repeat split; assumption.
Qed.

(** The two "succeeded" handlers: the payment found is marked completed,
    then its vote is inserted. *)
Lemma marked_then_voted (db : DB) (payment : Payment) (provider : string) :
  In payment (payments db) ->
  let db1 :=
    with_payments db
      (map (fun p => if p_id p =? p_id payment
                     then apply_patch
                            {| set_status := Some "completed";
                               set_payment_provider_id := Some provider;
                               set_payment_intent_id := None |}
                            (Some completed) p
                     else p)
           (payments db)) in
  let row :=
    {| vi_voter_id := p_voter_id payment;
       vi_contestant_id := p_contestant_id payment;
       vi_event_id := p_event_id payment;
       vi_payment_id := p_id payment;
       vi_amount := number_of_10_2 (p_amount payment) |} in
  votes (snd (insert_vote row db1)) <> votes db ->
  exists v, paid_for db (snd (insert_vote row db1)) v.
Proof.
  intros Hin db1 row.
  destruct (insert_vote_cases row db1) as [E | E]; rewrite E; [unchanged |].
  intros _. eexists. split; [reflexivity |].
  exists (settled_as completed (Some provider) (p_payment_intent_id payment)
            payment).
  split; [| cbn; repeat split; reflexivity].
  cbn [snd update_vote_counts payments with_events with_contestants
       with_votes db1 with_payments].
  apply in_map_iff. exists payment. split; [| exact Hin].
  rewrite String.eqb_refl. reflexivity.
Qed.

Lemma single_in {A : Type} (rows : list A) (q : A -> bool) (x : A) :
  single (filter q rows) = Data x -> In x rows.
Proof.
  intro S. apply single_data in S.
  assert (In x (filter q rows)) as H by (rewrite S; left; reflexivity).
  apply filter_In in H. tauto.
Qed.

Lemma stripe_succeeded_paid_for (paymentIntent : StripeObject) (db : DB) :
  votes (store_after (StripeWebhook.handlePaymentSucceeded paymentIntent) db)
  <> votes db ->
  exists v,
    paid_for db
      (store_after (StripeWebhook.handlePaymentSucceeded paymentIntent) db) v.
Proof.
  unfold store_after, StripeWebhook.handlePaymentSucceeded,
    StripeWebhook.metadata_payment_id.
  destruct (so_metadata paymentIntent) as [paymentId |]; [| unchanged].
  cbn [bind try_catch].
  destruct (negb (truthy paymentId)); [unchanged |].
  cbn [exec try_catch bind run_stmt fst snd].
  destruct (single (filter _ (payments db))) as [payment |] eqn:S;
    [| unchanged].
  cbn [exec try_catch bind run_stmt fst snd update_payments set_status].
  change (payment_status_in "completed") with (Some completed).
  cbn [exec try_catch bind run_stmt fst snd].
  intro N.
  destruct (marked_then_voted db payment (so_id paymentIntent)
              (single_in _ _ _ S)) as [v P].
  - destruct (insert_vote _ _) as [r d]. exact N.
  - exists v. destruct (insert_vote _ _) as [r d]. exact P.
Qed.

Lemma paystack_success_paid_for (env : Env) (charge : option PaystackData)
    (db : DB) :
  votes (store_after (PaystackWebhook.handleChargeSuccess env charge) db)
  <> votes db ->
  exists v,
    paid_for db
      (store_after (PaystackWebhook.handleChargeSuccess env charge) db) v.
Proof.
  unfold store_after, PaystackWebhook.handleChargeSuccess,
    PaystackWebhook.reference_of.
  destruct charge as [data |]; [| unchanged].
  cbn [bind try_catch].
  destruct (pd_reference data) as [reference |]; [| unchanged].
  destruct (negb (truthy (Some reference))); [unchanged |].
  destruct (paystack_verify env reference) as [verification |]; [| unchanged].
  destruct (negb (pv_status verification)
            || negb (pv_data_status verification =? "success"));
    [unchanged |].
  cbn [exec try_catch bind run_stmt fst snd].
  destruct (single (filter _ (payments db))) as [payment |] eqn:S;
    [| unchanged].
  cbn [exec try_catch bind run_stmt fst snd update_payments set_status].
  change (payment_status_in "completed") with (Some completed).
  cbn [exec try_catch bind run_stmt fst snd].
  intro N.
  destruct (marked_then_voted db payment
              (PaystackWebhook.id_of (Some data)) (single_in _ _ _ S))
    as [v P].
  - destruct (insert_vote _ _) as [r d]. exact N.
  - exists v. destruct (insert_vote _ _) as [r d]. exact P.
Qed.

Ltac walk :=
  repeat (cbn [issues inserts_no_vote];
          match goal with
          | |- _ /\ _ => split
          | |- forall _, _ => intro
          | |- True => exact I
          | |- issues _ (try_catch _ _) => apply issues_try_catch
          | |- issues _ (bind _ _) => apply issues_bind
          | |- issues _ (match ?c with _ => _ end) => destruct c eqn:?
          end).

Lemma failure_handlers_insert_no_vote :
  (forall o, issues (@inserts_no_vote) (StripeWebhook.mark_failed_by_intent o))
  /\ (forall o, issues (@inserts_no_vote) (StripeWebhook.handleChargeDispute o))
  /\ (forall c, issues (@inserts_no_vote) (PaystackWebhook.handleChargeFailed c))
  /\ (forall s t, issues (@inserts_no_vote) (PaystackWebhook.handleTransfer s t)).
Proof.
  repeat split; intros;
    unfold StripeWebhook.mark_failed_by_intent,
      StripeWebhook.handleChargeDispute, StripeWebhook.metadata_payment_id,
      StripeWebhook.logged, PaystackWebhook.handleChargeFailed,
      PaystackWebhook.handleTransfer, PaystackWebhook.reference_of,
      PaystackWebhook.logged;
    walk.
Qed.

Lemma other_routes_insert_no_vote (r : Request) :
  match r with
  | StripeEventIn _ _ _ | PaystackEventIn _ _ _ | CastVote _ _ _ => True
  | _ => issues (@inserts_no_vote) (program r)
  end.
Proof.
  destruct r; cbn [program]; try exact I;
    unfold Payments.stripe_create_intent, Payments.paystack_initialize_route,
      Payments.verify_payment, Payments.cancel_payment,
      Admin.put_settings, Organizer.get_earnings, Organizer.post_withdrawals;
    walk.
Qed.

(** X14: no vote without a completed payment.  Whatever the request (any
    route of the payments, webhook, votes, admin-settings and organizer
    routers), if serving it changes the votes table at all, then it has added
    exactly one vote, and the store it leaves holds a payment with the id
    the vote references that is completed and has the vote's voter and
    contestant. *)
Theorem vote_only_for_completed_payment (r : Request) (db : DB) :
  votes (store_after (program r) db) <> votes db ->
  exists v, paid_for db (store_after (program r) db) v.
Proof.
  destruct failure_handlers_insert_no_vote as (MF & CD & CF & TR).
  pose proof (other_routes_insert_no_vote r) as O.
  destruct r as [env userId body | env userId body | env userId paymentId
                | userId paymentId | env secret req | env secret req
                | env voterId body | rate | organizerId q
                | env organizerId body];
    cbn [program] in *;
    try (intro N; exfalso; apply N;
         apply (exec_without_vote _ db O)).
  - (* the Stripe webhook *)
    unfold store_after, StripeWebhook.webhook.
    destruct (StripeWebhook.stripe_signature req) as [signature |];
      [| unchanged].
    destruct secret as [key |]; [| unchanged].
    destruct (negb (truthy (Some signature)) || negb (truthy (Some key)));
      [unchanged |].
    destruct (constructWebhookEvent env _ signature key) as [event | message];
      [| unchanged].
    rewrite acknowledged_store by (intro; eexists; reflexivity).
    destruct (se_type event =? "payment_intent.succeeded");
      [apply stripe_succeeded_paid_for |].
    intro N; exfalso; apply N.
    repeat branch; try reflexivity;
      apply exec_without_vote; auto.
  - (* the Paystack webhook *)
    unfold store_after, PaystackWebhook.webhook.
    destruct (PaystackWebhook.x_paystack_signature req) as [signature |];
      [| unchanged].
    destruct secret as [key |]; [| unchanged].
    destruct (negb (truthy (Some signature)) || negb (truthy (Some key)));
      [unchanged |].
    destruct (negb (hmac_sha512_hex env key (PaystackWebhook.body_text req)
                    =? signature)); [unchanged |].
    rewrite acknowledged_store by (intro; eexists; reflexivity).
    destruct (pe_event (PaystackWebhook.body req) =? "charge.success");
      [apply paystack_success_paid_for |].
    intro N; exfalso; apply N.
    repeat branch; try reflexivity;
      apply exec_without_vote;
      unfold PaystackWebhook.handleTransferSuccess,
        PaystackWebhook.handleTransferFailed; auto.
  - (* POST /votes *)
    apply post_votes_paid_for.
Qed.

Lemma vote_only_for_completed_payment_witness :
  exists v,
    paid_for Sample.db_paid
      (store_after (program (CastVote Sample.env1 "voter-1" Sample.cast1))
         Sample.db_paid) v
    /\ v = Sample.vote1.
Proof.
  destruct (vote_only_for_completed_payment
              (CastVote Sample.env1 "voter-1" Sample.cast1) Sample.db_paid)
    as [v P].
  - vm_compute. discriminate.
  - exists v. split; [exact P |].
    destruct P as [V _]. vm_compute in V.
    injection V as V. symmetry. exact V.
Defined.

End VoteNeedsPayment.

(** ** Amounts sent to Stripe, amounts kept by the store *)

Section Amounts.
Import Schema Currency StripeConfig Checkout.
Open Scope Q_scope.

(** X15: minor units survive the round trip.  A whole number of minor units
    (cents, or yen for a zero-decimal currency) converted to the major unit
    and back is the number one started from, for every currency code. *)
Theorem minor_units_round_trip (n : Z) (currency : string) :
  toMinorCurrencyUnit (fromMinorCurrencyUnit (inject_Z n) currency) currency
  == inject_Z n.
Proof.
  unfold toMinorCurrencyUnit, fromMinorCurrencyUnit.
  destruct (JS.includes zeroDecimalCurrencies (JS.toLowerCase currency)).
  - rewrite (@Math_round_integer (inject_Z n) n); reflexivity.
  - rewrite (@Math_round_integer (inject_Z n / 100 * 100) n);
      [reflexivity | field].
Qed.

(** X16: the amount of a payment intent is the amount times one hundred
    whatever the currency.  For each currency the create-intent route admits
    other than "jpy" this is the amount in minor units; for "jpy", the one
    zero-decimal currency the route admits, it is a hundred times the amount
    in minor units that [toMinorCurrencyUnit] gives. *)
Theorem intent_amount_ignores_zero_decimal :
  (forall (currency : string) (amount : Q),
     In currency getSupportedCurrencies ->
     currency <> "jpy"%string ->
     inject_Z (paymentIntentAmount amount)
     == toMinorCurrencyUnit amount currency)
  /\ (forall k : Z,
        inject_Z (paymentIntentAmount (inject_Z k))
        == 100 * toMinorCurrencyUnit (inject_Z k) "jpy")
  /\ getSupportedCurrencies = Payments.supportedCurrencies.
Proof.
  split; [| split; [| reflexivity]].
  - intros currency amount H N. cbn in H.
    repeat (destruct H as [H | H];
            [subst currency; try (exfalso; apply N; reflexivity);
             reflexivity |]).
    contradiction.
  - intro k. unfold paymentIntentAmount.
    change (toMinorCurrencyUnit (inject_Z k) "jpy")
      with (inject_Z (JS.Math_round (inject_Z k))).
    rewrite (@Math_round_integer (inject_Z k * 100) (k * 100));
      [| rewrite inject_Z_mult; reflexivity].
    rewrite (@Math_round_integer (inject_Z k) k); [| reflexivity].
    rewrite inject_Z_mult. ring.
Qed.

Lemma round_half_away_near (x : Q) :
  x - (1 # 2) <= inject_Z (JS.round_half_away x)
  /\ inject_Z (JS.round_half_away x) <= x + (1 # 2).
Proof.
  unfold JS.round_half_away. destruct (Qle_bool 0 x).
  - pose proof (Qfloor_le (x + (1 # 2))).
    pose proof (Qlt_floor (x + (1 # 2))) as L.
    rewrite inject_Z_plus in L. change (inject_Z 1) with 1 in L.
    split; lra.
  - pose proof (Qle_ceiling (x - (1 # 2))).
    pose proof (Qceiling_lt (x - (1 # 2))) as L.
    unfold Z.sub in L. rewrite inject_Z_plus in L.
    change (inject_Z (- (1))) with (- (1)) in L.
    split; lra.
Qed.

(** X17: the stored split is within one hundredth of the amount.  For the
    row a payment-creation route inserts, the fee and the organizer's
    earnings, each rounded by its column, add up to the amount or to one
    hundredth more or less, whatever the commission rate. *)
Theorem stored_split_within_one_hundredth (paymentId userId contestant_id : uuid)
    (event : Event) (settings : Settings) (method : payment_method) :
  let row := new_payment paymentId userId contestant_id event settings method in
  (Z.abs (p_platform_fee row + p_organizer_earnings row - p_amount row) <= 1)%Z.
Proof.
  cbn [new_payment p_platform_fee p_organizer_earnings p_amount].
  unfold numeric_10_2_in, Commission.organizerEarnings, Commission.platformFee.
  set (a := number_of_10_2 (ev_vote_price event)).
  set (r := number_of_5_4 (commission_rate settings)).
  destruct (round_half_away_near (a * r * 100)) as [F1 F2].
  destruct (round_half_away_near ((a - a * r) * 100)) as [E1 E2].
  set (f := JS.round_half_away (a * r * 100)) in *.
  set (e := JS.round_half_away ((a - a * r) * 100)) in *.
  assert (A : a * 100 == inject_Z (ev_vote_price event)).
  { unfold a, number_of_10_2, Qeq, Qmult, inject_Z; cbn. lia. }
  assert (U : inject_Z (f + e - ev_vote_price event) <= 1).
  { unfold Z.sub. rewrite !inject_Z_plus, inject_Z_opp. lra. }
  assert (L : - (1) <= inject_Z (f + e - ev_vote_price event)).
  { unfold Z.sub. rewrite !inject_Z_plus, inject_Z_opp. lra. }
  change 1 with (inject_Z 1) in U. rewrite <- Zle_Qle in U.
  change (- (1)) with (inject_Z (-1)) in L. rewrite <- Zle_Qle in L.
  lia.
Qed.

End Amounts.

(** ** Read routes *)

Section ReadRoutes.
Import Schema Store Handler Http Outcomes Replies Eligibility PaymentHistory
  Organizer.
Open Scope string_scope.

(** X18: GET /can-vote answers what POST /stripe/create-intent and
    POST /votes will do.  For a contestant that resolves to an event, the
    route answers 200 and writes nothing; [can_vote] is true exactly when
    the event is active and the time is inside the voting window; and when
    it is false, the [reason] it gives is the error with which a well-formed
    create-intent request for that contestant is refused at that time. *)
Theorem can_vote_agrees_with_gate (env : Env) (userId : uuid)
    (body : Payments.CreateIntent) (db : DB) (event : Event) :
  Payments.create_intent_valid body = true ->
  resolves db (Payments.ci_contestant_id body) event ->
  exists answer,
    exec (can_vote_route env (Payments.ci_contestant_id body)) db
    = (Returned (Json 200 answer), db)
    /\ cv_event answer = event
    /\ (can_vote answer = true
        <-> ev_status event = active
            /\ (ev_start_date event <= now env <= ev_end_date event)%Z)
    /\ (can_vote answer = true ->
        reason answer = "You can vote for this contestant")
    /\ (can_vote answer = false ->
        rejected_with (Payments.stripe_create_intent env userId body) db
          400 (reason answer)).
Proof.
  intros V (contestant & category & E & C & Ev).
  unfold can_vote_route, rejected_with, Payments.stripe_create_intent.
  rewrite V.
  cbn [exec try_catch run_stmt fst snd negb]. rewrite E, C, Ev.
  eexists. split; [reflexivity |].
  cbn [cv_event can_vote reason].
  split; [reflexivity |].
  destruct (ev_status event); cbn [event_status_out];
    try (change ("draft" =? "active") with false);
    try (change ("ended" =? "active") with false);
    try (change ("active" =? "active") with true);
    cbn [negb fst snd truthy].
  - repeat split; try discriminate; try tauto.
    + intros [H _]; discriminate.
    + intros _. eexists. repeat split.
  - destruct (now env <? ev_start_date event)%Z eqn:L1;
      [| destruct (ev_end_date event <? now env)%Z eqn:L2];
      cbn [fst snd truthy].
    + apply Z.ltb_lt in L1. repeat split; try discriminate; try lia.
      intros _. eexists. repeat split.
    + apply Z.ltb_ge in L1. apply Z.ltb_lt in L2.
      repeat split; try discriminate; try lia.
      intros _. eexists. repeat split.
    + apply Z.ltb_ge in L1, L2.
      repeat split; try discriminate; try lia.
  - repeat split; try discriminate; try tauto.
    + intros [H _]; discriminate.
    + intros _. eexists. repeat split.
Qed.

Lemma can_vote_agrees_with_gate_witness :
  exists answer,
    exec (can_vote_route (Sample.with_now 2500%Z Sample.env1) "contestant-1")
      Sample.db0 = (Returned (Json 200 answer), Sample.db0)
    /\ can_vote answer = false
    /\ reason answer = "Voting has ended".
Proof.
  destruct (can_vote_agrees_with_gate (Sample.with_now 2500%Z Sample.env1)
              "voter-1" Sample.create1 Sample.db0 Sample.event1 eq_refl)
    as (answer & E & _ & _ & _ & _).
  - eexists _, _. repeat split.
  - exists answer. split; [exact E |].
    vm_compute in E. injection E as E. subst answer. split; reflexivity.
Defined.

Lemma firstn_incl {A : Type} (n : nat) (l : list A) (x : A) :
  In x (firstn n l) -> In x l.
Proof.
  revert l. induction n as [| n IH]; intros [| y l]; cbn; try tauto.
  intros [H | H]; [left; exact H | right; apply IH; exact H].
Qed.

Lemma skipn_incl {A : Type} (n : nat) (l : list A) (x : A) :
  In x (skipn n l) -> In x l.
Proof.
  revert l. induction n as [| n IH]; intros [| y l]; cbn; try tauto.
  intro H. right. apply IH. exact H.
Qed.

Lemma page_of_incl {A : Type} (page limit : nat) (rows : list A) (x : A) :
  In x (page_of page limit rows) -> In x rows.
Proof.
  unfold page_of. intro H.
  apply firstn_incl, skipn_incl in H. apply in_rev. exact H.
Qed.

Lemma page_of_length {A : Type} (page limit : nat) (rows : list A) :
  (List.length (page_of page limit rows) <= limit)%nat.
Proof. unfold page_of. apply firstn_le_length. Qed.

Lemma sum_completed_fold (f : Payment -> Q) (l : list Payment) (a : Q) :
  (fold_left
     (fun sum payment =>
        if payment_status_out (p_status payment) =? "completed"
        then sum + f payment else sum) l a
   == a + sum_of f
            (filter (fun p => payment_status_out (p_status p) =? "completed") l))%Q.
Proof.
  revert a. induction l as [| x l IH]; intro a; cbn [fold_left filter].
  - rewrite sum_of_nil. ring.
  - rewrite IH.
    destruct (payment_status_out (p_status x) =? "completed");
      rewrite ?sum_of_cons; ring.
Qed.

Lemma status_out_injective (s : payment_status) (label : string) :
  (payment_status_out s =? label) = true ->
  (payment_status_out s =? "completed") = true ->
  label = "completed".
Proof.
  intros H C. apply String.eqb_eq in H, C. congruence.
Qed.

(** X19: GET /history shows a voter nothing but their own payments.  A
    well-formed request is answered 200 and writes nothing; every payment
    listed is a row of the table that belongs to the caller and, when a
    status was asked for, has that status; at most [limit] (itself at most
    100) are listed; [total_spent] and [total_fees] are the sums over the
    listed payments that are completed, so they are zero whenever a status
    other than "completed" was asked for. *)
Theorem history_lists_own_payments (userId : uuid) (q : HistoryQuery)
    (db : DB) :
  history_query_valid q = true ->
  exists h,
    exec (get_history userId q) db = (Returned (Json 200 h), db)
    /\ Forall (fun p =>
                 In p (payments db)
                 /\ p_voter_id p = userId
                 /\ forall s, hq_status q = Some s ->
                              payment_status_out (p_status p) = s)
              (h_payments h)
    /\ (List.length (h_payments h) <= h_limit h <= 100)%nat
    /\ (total_spent h
        == sum_of (fun p => number_of_10_2 (p_amount p))
             (filter (fun p => payment_status_out (p_status p) =? "completed")
                (h_payments h)))%Q
    /\ (forall s, hq_status q = Some s -> s <> "completed" ->
        (total_spent h == 0)%Q /\ (total_fees h == 0)%Q).
Proof.
  intro V. unfold get_history. rewrite V.
  cbn [negb exec try_catch run_stmt fst snd].
  eexists. split; [reflexivity |].
  cbn [h_payments h_limit total_spent total_fees].
  assert (F : Forall (fun p =>
                 In p (payments db)
                 /\ p_voter_id p = userId
                 /\ forall s, hq_status q = Some s ->
                              payment_status_out (p_status p) = s)
              (page_of match hq_page q with Some n => n | None => 1%nat end
                 match hq_limit q with Some n => n | None => 10%nat end
                 (filter
                    (fun p => (p_voter_id p =? userId)
                              && if truthy (hq_status q)
                                 then match hq_status q with
                                      | Some s =>
                                          payment_status_out (p_status p) =? s
                                      | None => true
                                      end
                                 else true)
                    (payments db)))).
  { apply Forall_forall. intros p H. apply page_of_incl in H.
    apply filter_In in H. destruct H as [Hin Hq].
    apply andb_true_iff in Hq. destruct Hq as [Hv Hs].
    apply String.eqb_eq in Hv. repeat split; try assumption.
    intros s Es. rewrite Es in Hs.
    unfold history_query_valid in V. rewrite Es in V.
    apply andb_true_iff in V. destruct V as [_ V].
    assert (T : truthy (Some s) = true).
    { unfold JS.includes in V. cbn in V.
      destruct s; [discriminate V | reflexivity]. }
    rewrite T in Hs. apply String.eqb_eq. exact Hs. }
  split; [exact F |].
  split.
  { split; [apply page_of_length |].
    unfold history_query_valid in V.
    apply andb_true_iff in V. destruct V as [V _].
    apply andb_true_iff in V. destruct V as [_ V].
    destruct (hq_limit q) as [n |]; [| lia].
    apply andb_true_iff in V. destruct V as [_ V].
    apply Nat.leb_le in V. exact V. }
  split.
  { unfold sum_completed. rewrite sum_completed_fold. ring. }
  intros s Es N.
  assert (Z : filter (fun p => payment_status_out (p_status p) =? "completed")
                (page_of match hq_page q with Some n => n | None => 1%nat end
                   match hq_limit q with Some n => n | None => 10%nat end
                   (filter
                      (fun p => (p_voter_id p =? userId)
                                && if truthy (hq_status q)
                                   then match hq_status q with
                                        | Some s =>
                                            payment_status_out (p_status p) =? s
                                        | None => true
                                        end
                                   else true)
                      (payments db))) = []).
  { apply existsb_filter_nil. apply not_true_is_false. intro X.
    apply existsb_exists in X. destruct X as (p & Hp & Hc).
    rewrite Forall_forall in F. destruct (F p Hp) as (_ & _ & Hs).
    apply N. rewrite <- (Hs s Es). apply String.eqb_eq. exact Hc. }
  unfold sum_completed. rewrite !sum_completed_fold, Z, !sum_of_nil.
  split; ring.
Qed.

Lemma history_lists_own_payments_witness :
  exists h,
    exec (get_history "voter-1"
            {| hq_page := None; hq_limit := Some 5%nat;
               hq_status := Some "completed" |}) Sample.db_voted
    = (Returned (Json 200 h), Sample.db_voted)
    /\ h_payments h = [Sample.payment1]
    /\ (total_spent h == 5)%Q.
Proof.
  destruct (history_lists_own_payments "voter-1"
              {| hq_page := None; hq_limit := Some 5%nat;
                 hq_status := Some "completed" |} Sample.db_voted eq_refl)
    as (h & E & _).
  exists h. split; [exact E |].
  vm_compute in E. injection E as E. subst h. split; reflexivity.
Defined.

(** X20: GET /earnings shows an organizer nothing but completed payments of
    their own events.  Whatever the query, if the route answers with a list
    of earnings, every payment in it is a row of the table, is completed, and
    references an event of the table that belongs to the caller; at most 100
    payments are listed; the two totals are the sums over the listed
    payments; and the store is left as it was. *)
Theorem earnings_list_only_own_completed (organizerId : uuid)
    (q : EarningsQuery) (db : DB) (earnings : list Payment)
    (total_earnings total_platform_fees : Q) :
  fst (exec (get_earnings organizerId q) db)
  = Returned (respond 200
                (EarningsBody earnings total_earnings total_platform_fees)) ->
  Forall (fun p =>
            In p (payments db)
            /\ p_status p = completed
            /\ exists e, In e (events db)
                         /\ ev_id e = p_event_id p
                         /\ ev_organizer_id e = organizerId)
         earnings
  /\ (List.length earnings <= 100)%nat
  /\ (total_earnings
      == sum_of (fun p => number_of_10_2 (p_organizer_earnings p)) earnings)%Q
  /\ (total_platform_fees
      == sum_of (fun p => number_of_10_2 (p_platform_fee p)) earnings)%Q
  /\ snd (exec (get_earnings organizerId q) db) = db.
Proof.
  unfold get_earnings.
  destruct (earnings_query_valid q) eqn:V;
    cbn [negb exec try_catch fst snd]; [| discriminate].
  assert (L : (match eq_limit q with Some n => n | None => 20%nat end
               <= 100)%nat).
  { unfold earnings_query_valid in V.
    apply andb_true_iff in V. destruct V as [_ V].
    destruct (eq_limit q) as [n |]; [| lia].
    apply andb_true_iff in V. destruct V as [_ V].
    apply Nat.leb_le in V. exact V. }
  assert (C : forall s, (payment_status_out s =? "completed") = true ->
                        s = completed)
    by (intros []; cbn; congruence).
  destruct (eq_event_id q) as [eventId |];
    cbn [exec try_catch run_stmt fst snd].
  - destruct (single (filter _ (events db))) as [e0 |] eqn:S;
      cbn [exec try_catch run_stmt fst snd]; [| discriminate].
    unfold earnings_summary. intro E. inversion E; subst; clear E.
    pose proof (single_data _ _ S) as S'.
    assert (In e0 (filter (fun e => (ev_id e =? eventId)
                                    && (ev_organizer_id e =? organizerId))
                     (events db))) as H0 by (rewrite S'; left; reflexivity).
    apply filter_In in H0. destruct H0 as [H0 Q0].
    apply andb_true_iff in Q0. destruct Q0 as [Q1 Q2].
    apply String.eqb_eq in Q1, Q2.
    repeat split; try reflexivity.
    + apply Forall_forall. intros p H. apply page_of_incl in H.
      apply filter_In in H. destruct H as [Hin Hq].
      apply andb_true_iff in Hq. destruct Hq as [Hs He].
      apply String.eqb_eq in He. repeat split; auto.
      exists e0. repeat split; congruence.
    + etransitivity; [apply page_of_length | exact L].
  - destruct (map ev_id (filter _ (events db))) as [| i ids] eqn:M;
      cbn [exec try_catch run_stmt fst snd].
    + intro E. inversion E; subst; clear E.
      repeat split; try reflexivity; [constructor | cbn; lia].
    + unfold earnings_summary. intro E. inversion E; subst; clear E.
      repeat split; try reflexivity.
      * apply Forall_forall. intros p H. apply page_of_incl in H.
        apply filter_In in H. destruct H as [Hin Hq].
        apply andb_true_iff in Hq. destruct Hq as [Hs He].
        repeat split; auto.
        unfold JS.includes in He.
        change (existsb (String.eqb (p_event_id p)) (i :: ids) = true) in He.
        apply existsb_exists in He.
        destruct He as (id & Hid & Eq). apply String.eqb_eq in Eq.
        rewrite <- M in Hid. apply in_map_iff in Hid.
        destruct Hid as (e & Ee & He).
        apply filter_In in He. destruct He as [He Ho].
        apply String.eqb_eq in Ho.
        exists e. repeat split; congruence.
      * etransitivity; [apply page_of_length | exact L].
Qed.

Lemma earnings_list_only_own_completed_witness :
  Forall (fun p => p_status p = completed) [Sample.payment1]
  /\ fst (exec (get_earnings "organizer-2"
                  {| eq_page := None; eq_limit := None; eq_event_id := None |})
            Sample.db_voted)
     = Returned (respond 200 (EarningsBody [] 0 0)).
Proof.
  split; [| reflexivity].
  destruct (earnings_list_only_own_completed "organizer-1"
              {| eq_page := None; eq_limit := None; eq_event_id := None |}
              Sample.db_voted [Sample.payment1] (475 # 100) (25 # 100)
              eq_refl) as (F & _).
  eapply Forall_impl; [| exact F]. cbn beta. tauto.
Defined.

End ReadRoutes.

(** ** The organizer's balance, as shown and as enforced *)

Section OrganizerBalance.
Import Schema Store Handler Http Outcomes Replies Organizer OrganizerViews.
Open Scope string_scope.

Lemma Math_max_spec (b : Q) :
  (0 <= b /\ Math_max 0 b = b) \/ (b < 0 /\ Math_max 0 b = 0%Q).
Proof.
  unfold Math_max. destruct (Qle_bool 0 b) eqn:E.
  - left. apply Qle_bool_iff in E. tauto.
  - right. apply Qle_bool_false in E. tauto.
Qed.

Lemma sum_of_rev {A : Type} (f : A -> Q) (l : list A) :
  (sum_of f (rev l) == sum_of f l)%Q.
Proof.
  induction l as [| x l IH]; cbn [rev]; [reflexivity |].
  rewrite sum_of_app, !sum_of_cons, sum_of_nil, IH. ring.
Qed.

(** The withdrawals counted against the balance, by status. *)
Lemma counted_by_status (q : Withdrawal -> bool) (ws : list Withdrawal) :
  (sum_of amount_of
     (filter (fun w => q w
                       && JS.includes ["completed"; "pending"; "processing"]
                            (w_status w)) ws)
   == sum_of amount_of
        (filter (fun w => w_status w =? "completed") (filter q ws))
      + sum_of amount_of
          (filter (fun w => w_status w =? "pending") (filter q ws))
      + sum_of amount_of
          (filter (fun w => w_status w =? "processing") (filter q ws)))%Q.
Proof.
  induction ws as [| x ws IH]; cbn [filter].
  - rewrite !sum_of_nil. ring.
  - destruct (q x); cbn [andb filter]; [| exact IH].
    unfold JS.includes at 1. cbn [existsb].
    destruct (w_status x =? "completed") eqn:A;
      destruct (w_status x =? "pending") eqn:B;
      destruct (w_status x =? "processing") eqn:C;
      cbn [orb];
      try (apply String.eqb_eq in A; apply String.eqb_eq in B;
           rewrite A in B; discriminate B);
      try (apply String.eqb_eq in A; apply String.eqb_eq in C;
           rewrite A in C; discriminate C);
      try (apply String.eqb_eq in B; apply String.eqb_eq in C;
           rewrite B in C; discriminate C);
      rewrite ?sum_of_cons; lra.
Qed.




(** X22: the dashboard and the withdrawal page disagree about withdrawals in
    processing.  Both routes answer 200 and write nothing, and they agree on
    the earnings; but GET /dashboard subtracts the completed and the pending
    withdrawals only, so its [withdrawable_amount] is the larger of zero and
    the balance plus what is in processing, while GET /withdrawal-info (and
    POST /withdrawals) subtract the processing ones too.  With amounts in
    processing that are not negative, the dashboard never shows less than
    can be withdrawn. *)
Theorem dashboard_ignores_processing (organizerId : uuid) (db : DB) :
  let processing :=
    sum_of amount_of
      (filter (fun w => w_status w =? "processing")
         (filter (fun w => w_organizer_id w =? organizerId) (withdrawals db))) in
  exists d i,
    exec (get_dashboard organizerId) db = (Returned (Json 200 d), db)
    /\ exec (get_withdrawal_info organizerId) db = (Returned (Json 200 i), db)
    /\ (available_earnings d == total_earnings i)%Q
    /\ available_balance i = Math_max 0 (balance_of db organizerId)
    /\ (exists x, (x == balance_of db organizerId + processing)%Q
                  /\ withdrawable_amount d = Math_max 0 x)
    /\ ((0 <= processing)%Q ->
        (available_balance i <= withdrawable_amount d)%Q).
Proof.
  intro processing. eexists _, _.
  split; [reflexivity |]. split; [reflexivity |].
  cbn [available_earnings total_earnings available_balance withdrawable_amount].
  set (revenue := sum_of (fun e => number_of_10_2 (ev_total_revenue e))
                    (filter (fun e => ev_organizer_id e =? organizerId)
                       (events db))).
  set (rate := commissionRate (single (platform_settings db))).
  assert (R : (sum_of (fun e => number_of_10_2 (ev_total_revenue e))
                 (rev (filter (fun e => ev_organizer_id e =? organizerId)
                         (events db))) == revenue)%Q)
    by apply sum_of_rev.
  pose proof (counted_by_status (fun w => w_organizer_id w =? organizerId)
                (withdrawals db)) as S.
  fold processing in S.
  assert (B : (balance_of db organizerId
               == revenue * (1 - rate)
                  - sum_of amount_of
                      (filter (fun w => (w_organizer_id w =? organizerId)
                                        && JS.includes
                                             ["completed"; "pending";
                                              "processing"] (w_status w))
                         (withdrawals db)))%Q) by reflexivity.
  split; [rewrite R; ring |].
  split; [reflexivity |].
  assert (X : (sum_of (fun e => number_of_10_2 (ev_total_revenue e))
                 (rev (filter (fun e => ev_organizer_id e =? organizerId)
                         (events db)))
               - sum_of (fun e => number_of_10_2 (ev_total_revenue e))
                   (rev (filter (fun e => ev_organizer_id e =? organizerId)
                           (events db))) * rate
               - sum_of amount_of
                   (filter (fun w => w_status w =? "completed")
                      (filter (fun w => w_organizer_id w =? organizerId)
                         (withdrawals db)))
               - sum_of amount_of
                   (filter (fun w => w_status w =? "pending")
                      (filter (fun w => w_organizer_id w =? organizerId)
                         (withdrawals db)))
               == balance_of db organizerId + processing)%Q).
  { rewrite B, S, R. ring. }
  split; [eexists; split; [exact X | reflexivity] |].
  intro P.
  change (Math_max 0
            (revenue * (1 - rate)
             - sum_of amount_of
                 (filter (fun w => (w_organizer_id w =? organizerId)
                                   && JS.includes
                                        ["completed"; "pending"; "processing"]
                                        (w_status w))
                    (withdrawals db)))
          <= Math_max 0
               (sum_of (fun e => number_of_10_2 (ev_total_revenue e))
                  (rev (filter (fun e => ev_organizer_id e =? organizerId)
                          (events db)))
                - sum_of (fun e => number_of_10_2 (ev_total_revenue e))
                    (rev (filter (fun e => ev_organizer_id e =? organizerId)
                            (events db))) * rate
                - sum_of amount_of
                    (filter (fun w => w_status w =? "completed")
                       (filter (fun w => w_organizer_id w =? organizerId)
                          (withdrawals db)))
                - sum_of amount_of
                    (filter (fun w => w_status w =? "pending")
                       (filter (fun w => w_organizer_id w =? organizerId)
                          (withdrawals db)))))%Q.
  match goal with
  | |- (Math_max 0 ?a <= Math_max 0 ?b)%Q =>
      destruct (Math_max_spec a) as [[Pa Ma] | [Pa Ma]];
      destruct (Math_max_spec b) as [[Pb Mb] | [Pb Mb]];
      rewrite Ma, Mb
  end; lra.
Qed.



End OrganizerBalance.

(** ** Cancelling and processing a withdrawal *)

Section WithdrawalLifecycle.
Import Schema Store Http Organizer OrganizerViews Withdrawing.
Open Scope string_scope.

Lemma sum_of_partition {A : Type} (f : A -> Q) (q : A -> bool) (l : list A) :
  (sum_of f l
   == sum_of f (filter (fun x => negb (q x)) l) + sum_of f (filter q l))%Q.
Proof.
  induction l as [| x l IH]; cbn [filter].
  - rewrite !sum_of_nil. ring.
  - destruct (q x); cbn [negb]; rewrite ?sum_of_cons, IH; ring.
Qed.

Lemma filter_comm {A : Type} (p q : A -> bool) (l : list A) :
  filter p (filter q l) = filter q (filter p l).
Proof.
  induction l as [| x l IH]; cbn [filter]; [reflexivity |].
  destruct (p x) eqn:P, (q x) eqn:Q; cbn [filter]; rewrite ?P, ?Q, IH;
    reflexivity.
Qed.


End WithdrawalLifecycle.

(** ** The life of an event *)

Section EventLife.
Import Schema Store Http Replies Users Events.
Open Scope Z_scope.
Open Scope string_scope.

Lemma behind_cases {A : Type} (m : Middleware) (answer : Response -> A)
    (handler : DB -> A * DB) (db : DB) :
  (exists response, m = Some response
                    /\ behind m answer handler db = (answer response, db))
  \/ (m = None /\ behind m answer handler db = handler db).
Proof. destruct m; [left; eauto | right; auto]. Qed.

(** What an update of events leaves: every row is as it was or patched, and
    a patched row has passed the checks. *)
Lemma update_events_rows (where_ : Event -> bool) (set : EventPatch) (db : DB) :
  snd (update_events where_ set db) = db
  \/ (forallb checks (map (patched set) (filter where_ (events db))) = true
      /\ snd (update_events where_ set db)
         = with_events db
             (map (fun e => if where_ e then patched set e else e) (events db))).
Proof.
  unfold update_events.
  destruct (forallb checks _) eqn:C; cbn [negb snd]; auto.
Qed.

Lemma update_events_keeps_checks (where_ : Event -> bool) (set : EventPatch)
    (db : DB) :
  Forall (fun e => checks e = true) (events db) ->
  Forall (fun e => checks e = true) (events (snd (update_events where_ set db))).
Proof.
  intro F. destruct (update_events_rows where_ set db) as [E | [C E]];
    rewrite E; [exact F |].
  cbn [events with_events]. apply Forall_map. apply Forall_forall.
  intros e He. destruct (where_ e) eqn:W.
  - rewrite forallb_forall in C. apply C. apply in_map.
    apply filter_In. split; assumption.
  - rewrite Forall_forall in F. apply F. exact He.
Qed.

Lemma insert_event_keeps_checks (id organizer_id : uuid) (title : string)
    (price : Q) (start_date end_date : timestamp) (status : event_status)
    (db : DB) :
  Forall (fun e => checks e = true) (events db) ->
  Forall (fun e => checks e = true)
    (events (snd (insert_event id organizer_id title price start_date end_date
                    status db))).
Proof.
  intro F. unfold insert_event.
  destruct (existsb _ _); [exact F |].
  destruct (negb (checks _)) eqn:C; [exact F |].
  apply negb_false_iff in C.
  cbn [snd events with_events]. apply Forall_app. split; [exact F |].
  constructor; [exact C | constructor].
Qed.

Lemma delete_event_keeps_checks (eventId : uuid) (db : DB) :
  Forall (fun e => checks e = true) (events db) ->
  Forall (fun e => checks e = true) (events (delete_event eventId db)).
Proof.
  intro F. cbn [delete_event events].
  apply Forall_forall. intros e He. apply filter_In in He.
  rewrite Forall_forall in F. apply F. tauto.
Qed.

Ltac through_statement F :=
  repeat branch; cbn [snd]; try exact F;
  match goal with
  | H : update_events ?w ?s ?db = (_, ?d) |- _ =>
      replace d with (snd (update_events w s db)) by (rewrite H; reflexivity);
      apply update_events_keeps_checks; exact F
  | H : insert_event ?i ?o ?t ?p ?a ?b ?st ?db = (_, ?d) |- _ =>
      replace d with (snd (insert_event i o t p a b st db))
        by (rewrite H; reflexivity);
      apply insert_event_keeps_checks; exact F
  | |- _ => apply delete_event_keeps_checks; exact F
  end.

Lemma handle_keeps_checks (r : Request) (db : DB) :
  Forall (fun e => checks e = true) (events db) ->
  Forall (fun e => checks e = true) (events (snd (handle r db))).
Proof.
  intro F.
  destruct r as [now id user body | user eventId body
                | now embedded user eventId | user eventId | user eventId
                | user eventId];
    cbn [handle];
    unfold create_event, update_event, activate_event, end_event,
      delete_event_route, force_end_event;
    match goal with
    | |- context [behind ?m ?a ?h db] =>
        destruct (behind_cases m a h db) as [(response & _ & E) | [_ E]];
        rewrite E; clear E; [exact F |]
    end;
    through_statement F.
Qed.

Lemma serve_keeps_checks (requests : list Request) (db : DB) :
  Forall (fun e => checks e = true) (events db) ->
  Forall (fun e => checks e = true) (events (serve requests db)).
Proof.
  revert db. induction requests as [| r rs IH]; intros db F; [exact F |].
  cbn [serve fold_left]. apply IH. apply handle_keeps_checks. exact F.
Qed.

Lemma single_map {A B : Type} (f : A -> B) (l : list A) (y : B) :
  single (map f l) = Data y -> exists x, l = [x] /\ f x = y.
Proof.
  intro S. apply single_data in S.
  destruct l as [| x [| x' l]]; try discriminate S.
  cbn in S. injection S as S. eauto.
Qed.

Lemma role_out_admin (r : user_role) :
  (user_role_out r =? "admin") = true <-> r = admin.
Proof. destruct r; cbn; split; congruence. Qed.

(** What [requireOwnership('event')] has established when it calls
    [next()]. *)
Lemma owner_passes (user : User) (eventId : uuid) (db : DB) :
  requireOwnership event_resource user eventId db = None ->
  exists e,
    filter (fun x => ev_id x =? eventId) (events db) = [e]
    /\ (ev_organizer_id e = u_id user \/ u_role user = admin).
Proof.
  unfold requireOwnership. cbn [owner_rows].
  destruct (single _) as [ownerId | message] eqn:S; [| discriminate].
  apply single_map in S. destruct S as (e & L & O).
  destruct (negb (ownerId =? u_id user)
            && negb (user_role_out (u_role user) =? "admin")) eqn:G;
    [discriminate |].
  intros _. exists e. split; [exact L |].
  apply andb_false_iff in G. destruct G as [G | G];
    apply negb_false_iff in G.
  - left. apply String.eqb_eq in G. congruence.
  - right. apply role_out_admin. exact G.
Qed.

Lemma owner_is_let_through (user : User) (eventId : uuid) (db : DB) (e : Event) :
  filter (fun x => ev_id x =? eventId) (events db) = [e] ->
  ev_organizer_id e = u_id user ->
  requireOwnership event_resource user eventId db = None.
Proof.
  intros L O. unfold requireOwnership. cbn [owner_rows]. rewrite L.
  cbn [map single]. rewrite O, String.eqb_refl. reflexivity.
Qed.

(** X25: the dates of an event stay in order, by the table's check and not
    by the route's.  Whatever event requests are served, every event keeps
    its start before its end and a price above zero, if all of them had.  But
    the date check of PUT /:id compares the new date with nothing when only
    one of the two dates is sent: an end date at or before the current start
    passes it, is refused by the check constraint of the table, and the
    request is answered 400 "Failed to update event". *)
Theorem event_dates_stay_ordered :
  (forall (requests : list Request) (db : DB),
     Forall (fun e => checks e = true) (events db) ->
     Forall (fun e => ev_start_date e < ev_end_date e /\ 0 < ev_vote_price e)
            (events (serve requests db)))
  /\ (forall (user : User) (eventId : uuid) (end_date : timestamp) (db : DB)
             (e : Event),
        filter (fun x => ev_id x =? eventId) (events db) = [e] ->
        ev_organizer_id e = u_id user ->
        ev_status e <> active \/ ev_total_votes e <= 0 ->
        end_date <= ev_start_date e ->
        update_event user eventId
          {| eb_title := None; eb_vote_price := None; eb_start_date := None;
             eb_end_date := Some end_date |} db
        = (Plain (respond 400
             (ErrorMessageBody "Failed to update event"
                "new row for relation events violates check constraint")),
           db)).
Proof.
  split.
  - intros requests db F.
    apply (serve_keeps_checks requests) in F.
    eapply Forall_impl; [| exact F]. intros e C.
    unfold checks in C. apply andb_true_iff in C. destruct C as [C1 C2].
    apply Z.ltb_lt in C1, C2. tauto.
  - intros user eventId end_date db e L O G D.
    unfold update_event.
    rewrite (owner_is_let_through user eventId db e L O).
    cbn [behind optional eb_title eb_vote_price eb_start_date eb_end_date
         andb negb].
    rewrite L. cbn [single].
    assert (Gb : (event_status_out (ev_status e) =? "active")
                 && (0 <? ev_total_votes e)%Z = false).
    { destruct G as [G | G].
      - destruct (ev_status e); try reflexivity. contradiction.
      - apply andb_false_iff. right. apply Z.ltb_ge. exact G. }
    rewrite Gb. cbn [date_le truthy].
    unfold update_events. rewrite L.
    cbn [map forallb patched set_start_date set_end_date set_vote_price
         set_title set_event_status].
    unfold checks, patched.
    cbn [ev_start_date ev_end_date ev_vote_price set_start_date set_end_date
         set_vote_price].
    assert (C : (ev_start_date e <? end_date)%Z = false)
      by (apply Z.ltb_ge; exact D).
    rewrite C. reflexivity.
Qed.

Lemma event_dates_stay_ordered_witness :
  update_event
    {| u_id := "organizer-1"; u_role := organizer;
       u_organizer_status := Some approved |}
    "event-1"
    {| eb_title := None; eb_vote_price := None; eb_start_date := None;
       eb_end_date := Some 900 |} Sample.db0
  = (Plain (respond 400
       (ErrorMessageBody "Failed to update event"
          "new row for relation events violates check constraint")),
     Sample.db0).
Proof.
  destruct event_dates_stay_ordered as [_ U].
  apply (U _ "event-1" 900 Sample.db0 Sample.event1); try reflexivity.
  - right. cbn. lia.
  - cbn. lia.
Defined.

(** X26: only who may write to an event does.  If an event request leaves
    the store different, then the caller was entitled to it: an approved
    organizer for a creation; the organizer of the one event with the given
    id, or an admin, for an update, activation, end or deletion; an admin for
    a forced end.  Every other caller is answered by the middleware and
    nothing is written. *)
Theorem only_authorized_event_requests_write (r : Request) (db : DB) :
  snd (handle r db) <> db -> authorized r db.
Proof.
  destruct r as [now id user body | user eventId body
                | now embedded user eventId | user eventId | user eventId
                | user eventId];
    cbn [handle authorized];
    unfold create_event, update_event, activate_event, end_event,
      delete_event_route, force_end_event;
    match goal with
    | |- context [behind ?m ?a ?h db] =>
        destruct (behind_cases m a h db) as [(response & _ & E) | [M E]];
        rewrite E; clear E;
        [intro N; exfalso; apply N; reflexivity | intros _]
    end;
    try (apply owner_passes; exact M).
  - unfold requireApprovedOrganizer in M.
    destruct (u_role user); try discriminate M.
    split; [reflexivity |].
    cbn in M. unfold status_label in M.
    destruct (u_organizer_status user) as [[| |] |]; try discriminate M.
    reflexivity.
  - unfold requireRole in M. destruct (u_role user); try discriminate M.
    reflexivity.
Qed.

Lemma only_authorized_event_requests_write_witness :
  let stranger :=
    {| u_id := "organizer-2"; u_role := organizer;
       u_organizer_status := Some approved |} in
  let owner :=
    {| u_id := "organizer-1"; u_role := organizer;
       u_organizer_status := Some approved |} in
  snd (handle (End_ stranger "event-1") Sample.db0) = Sample.db0
  /\ authorized (End_ owner "event-1") Sample.db0.
Proof.
  cbv zeta. split; [reflexivity |].
  apply only_authorized_event_requests_write. vm_compute. discriminate.
Defined.

Lemma update_events_row (where_ : Event -> bool) (set : EventPatch) (db : DB)
    (e' : Event) :
  In e' (events (snd (update_events where_ set db))) ->
  exists e,
    In e (events db)
    /\ (e' = e \/ (where_ e = true /\ e' = patched set e)).
Proof.
  destruct (update_events_rows where_ set db) as [E | [_ E]]; rewrite E.
  - intro H. exists e'. auto.
  - cbn [events with_events]. intro H. apply in_map_iff in H.
    destruct H as (e & He & Hin). exists e. split; [exact Hin |].
    destruct (where_ e); [right | left]; auto.
Qed.

Lemma status_out_label (s : event_status) (label : string) :
  (event_status_out s =? label) = true -> event_status_out s = label.
Proof. apply String.eqb_eq. Qed.

(** X27: the status of an event only moves forward.  After any one event
    request, every event of the store either was just created (a draft with
    no votes, starting after the request's time and ending after its start)
    or was there before with the same id, organizer and counters, and then
    its status is what it was, or has gone from draft to active (by an
    activation, of an event that has a category and whose end is still
    ahead), from active to ended, or to ended by an admin's forced end.  No
    request makes an event a draft again or re-opens an ended one. *)
Theorem event_status_moves (r : Request) (db : DB) (e' : Event) :
  In e' (events (snd (handle r db))) ->
  (exists e,
     In e (events db)
     /\ ev_id e' = ev_id e
     /\ ev_organizer_id e' = ev_organizer_id e
     /\ ev_total_votes e' = ev_total_votes e
     /\ ev_total_revenue e' = ev_total_revenue e
     /\ (ev_status e' = ev_status e
         \/ (ev_status e = draft /\ ev_status e' = active
             /\ exists now embedded user,
                  r = Activate now embedded user (ev_id e)
                  /\ now < ev_end_date e
                  /\ exists c, In c (categories db)
                               /\ cat_event_id c = ev_id e)
         \/ (ev_status e = active /\ ev_status e' = ended)
         \/ (ev_status e' = ended
             /\ exists user, r = ForceEnd user (ev_id e)
                             /\ u_role user = admin)))
  \/ (exists now id user body,
        r = Create now id user body
        /\ ev_id e' = id
        /\ ev_organizer_id e' = u_id user
        /\ ev_status e' = draft
        /\ ev_total_votes e' = 0
        /\ ev_total_revenue e' = 0
        /\ now < ev_start_date e' < ev_end_date e').
Proof.
  assert (Same : In e' (events db) ->
                 exists e,
                   In e (events db)
                   /\ ev_id e' = ev_id e
                   /\ ev_organizer_id e' = ev_organizer_id e
                   /\ ev_total_votes e' = ev_total_votes e
                   /\ ev_total_revenue e' = ev_total_revenue e
                   /\ (ev_status e' = ev_status e
                       \/ (ev_status e = draft /\ ev_status e' = active
                           /\ exists now embedded user,
                                r = Activate now embedded user (ev_id e)
                                /\ now < ev_end_date e
                                /\ exists c, In c (categories db)
                                             /\ cat_event_id c = ev_id e)
                       \/ (ev_status e = active /\ ev_status e' = ended)
                       \/ (ev_status e' = ended
                           /\ exists user, r = ForceEnd user (ev_id e)
                                           /\ u_role user = admin))).
  { intro H. exists e'. repeat split; auto. }
  destruct r as [now id user body | user eventId body
                | now embedded user eventId | user eventId | user eventId
                | user eventId];
    cbn [handle];
    unfold create_event, update_event, activate_event, end_event,
      delete_event_route, force_end_event;
    match goal with
    | |- context [behind ?m ?a ?h db] =>
        destruct (behind_cases m a h db) as [(response & _ & E) | [M E]];
        rewrite E; clear E; [intro H; left; exact (Same H) |]
    end.
  - (* create *)
    destruct (eb_title body) as [title |]; [| intro H; left; exact (Same H)].
    destruct (eb_vote_price body) as [price |];
      [| intro H; left; exact (Same H)].
    destruct (eb_start_date body) as [start_date |];
      [| intro H; left; exact (Same H)].
    destruct (eb_end_date body) as [end_date |];
      [| intro H; left; exact (Same H)].
    destruct (negb _); [intro H; left; exact (Same H) |].
    destruct (start_date <=? now)%Z eqn:L1; [intro H; left; exact (Same H) |].
    destruct (end_date <=? start_date)%Z eqn:L2;
      [intro H; left; exact (Same H) |].
    apply Z.leb_gt in L1, L2.
    unfold insert_event.
    destruct (existsb _ _); [intro H; left; exact (Same H) |].
    destruct (negb (checks _)); [intro H; left; exact (Same H) |].
    cbn [snd events with_events]. intro H. apply in_app_iff in H.
    destruct H as [H | [H | []]]; [left; exact (Same H) |].
    right. exists now, id, user, body. subst e'. cbn. repeat split; auto.
  - (* update *)
    destruct (negb _); [intro H; left; exact (Same H) |].
    destruct (single _) as [current |]; [| intro H; left; exact (Same H)].
    destruct (_ && _); [intro H; left; exact (Same H) |].
    destruct (eb_start_date body) as [d1 |], (eb_end_date body) as [d2 |];
      cbn [date_le];
      try (destruct (d2 <=? d1)%Z; [intro H; left; exact (Same H) |]);
      (match goal with
       | |- context [update_events ?w ?s db] =>
           intro H;
           assert (H' : In e' (events (snd (update_events w s db))))
             by (destruct (update_events w s db) as [[x | x] d]; exact H);
           clear H; apply update_events_row in H'
       end;
       destruct H' as (e & He & [-> | [_ ->]]); [left; exact (Same He) |];
       left; exists e; cbn; repeat split; auto).
  - (* activate *)
    destruct (single _) as [e0 |] eqn:S; [| intro H; left; exact (Same H)].
    destruct (negb (event_status_out (ev_status e0) =? "draft")) eqn:D;
      [intro H; left; exact (Same H) |].
    destruct (List.length _ =? 0)%nat eqn:C; [intro H; left; exact (Same H) |].
    destruct (negb (existsb _ _)); [intro H; left; exact (Same H) |].
    destruct (ev_end_date e0 <=? now)%Z eqn:L;
      [intro H; left; exact (Same H) |].
    match goal with
    | |- context [update_events ?w ?s db] =>
        intro H;
        assert (H' : In e' (events (snd (update_events w s db))))
          by (destruct (update_events w s db) as [[x | x] d]; exact H);
        clear H; apply update_events_row in H'
    end.
    destruct H' as (e & He & [-> | [W ->]]); [left; exact (Same He) |].
    left. exists e. cbn. repeat split; auto.
    right. left.
    apply String.eqb_eq in W.
    pose proof (single_data _ _ S) as S'.
    assert (In e (filter (fun x => ev_id x =? eventId) (events db))) as Hf
      by (apply filter_In; split; [exact He | apply String.eqb_eq; exact W]).
    rewrite S' in Hf. destruct Hf as [<- | []].
    apply negb_false_iff in D. apply Z.leb_gt in L.
    split; [destruct (ev_status e0); try discriminate D; reflexivity |].
    split; [reflexivity |].
    exists now, embedded, user. rewrite W. repeat split; auto.
    destruct (filter (fun c => cat_event_id c =? ev_id e0) (categories db))
      as [| c cs] eqn:Fc; [discriminate C |].
    assert (In c (filter (fun c => cat_event_id c =? ev_id e0) (categories db)))
      as Hc by (rewrite Fc; left; reflexivity).
    apply filter_In in Hc. destruct Hc as [Hc Ec].
    apply String.eqb_eq in Ec. exists c. rewrite <- W. auto.
  - (* end *)
    match goal with
    | |- context [update_events ?w ?s db] =>
        intro H;
        assert (H' : In e' (events (snd (update_events w s db))))
          by (destruct (update_events w s db) as [[x | x] d]; exact H);
        clear H; apply update_events_row in H'
    end.
    destruct H' as (e & He & [-> | [W ->]]); [left; exact (Same He) |].
    left. exists e. cbn. repeat split; auto.
    right. right. left.
    apply andb_true_iff in W. destruct W as [_ W].
    split; [| reflexivity].
    destruct (ev_status e); try discriminate W; reflexivity.
  - (* delete *)
    destruct (single _) as [e0 |]; [| intro H; left; exact (Same H)].
    destruct (_ && _); [intro H; left; exact (Same H) |].
    cbn [snd delete_event events]. intro H. apply filter_In in H.
    left. apply Same. tauto.
  - (* force-end *)
    match goal with
    | |- context [update_events ?w ?s db] =>
        intro H;
        assert (H' : In e' (events (snd (update_events w s db))))
          by (destruct (update_events w s db) as [[x | x] d]; exact H);
        clear H; apply update_events_row in H'
    end.
    destruct H' as (e & He & [-> | [W ->]]); [left; exact (Same He) |].
    left. exists e. cbn. repeat split; auto.
    right. right. right. split; [reflexivity |].
    apply String.eqb_eq in W. exists user. rewrite W. split; [reflexivity |].
    unfold requireRole in M. destruct (u_role user); try discriminate M.
    reflexivity.
Qed.

Lemma event_status_moves_witness :
  let owner :=
    {| u_id := "organizer-1"; u_role := organizer;
       u_organizer_status := Some approved |} in
  map ev_status (events (snd (handle (End_ owner "event-1") Sample.db0)))
  = [ended]
  /\ exists e, In e (events Sample.db0) /\ ev_status e = active.
Proof.
  cbv zeta. split; [reflexivity |].
  destruct (event_status_moves
              (End_ {| u_id := "organizer-1"; u_role := organizer;
                       u_organizer_status := Some approved |} "event-1")
              Sample.db0
              (patched {| set_title := None; set_vote_price := None;
                          set_start_date := None; set_end_date := None;
                          set_event_status := Some ended |} Sample.event1))
    as [(e & He & _ & _ & _ & _ & S) | (now & id & user & body & R & _)].
  - left. reflexivity.
  - exists e. split; [exact He |].
    destruct He as [<- | []]. reflexivity.
  - discriminate R.
Defined.

Lemma entitled_is_let_through (user : User) (eventId : uuid) (db : DB)
    (e : Event) :
  filter (fun x => ev_id x =? eventId) (events db) = [e] ->
  ev_organizer_id e = u_id user \/ u_role user = admin ->
  requireOwnership event_resource user eventId db = None.
Proof.
  intros L [O | A]; [exact (owner_is_let_through user eventId db e L O) |].
  unfold requireOwnership. cbn [owner_rows]. rewrite L.
  cbn [map single]. rewrite A. cbn [user_role_out].
  change ("admin" =? "admin") with true. cbn [negb].
  rewrite andb_false_r. reflexivity.
Qed.

(** X28: deleting an event erases its votes, its payments and its revenue.
    DELETE /:id is refused only while the event is active and has votes.  In
    every other state, ended events with votes included, the owner's (or an
    admin's) request is answered 200, and with the event go its categories,
    their contestants, and every vote and payment that references the event;
    the organizer's balance falls by the event's revenue less the commission,
    while the withdrawals already made stay. *)
Theorem deleting_event_erases_its_records (user : User) (eventId : uuid)
    (db : DB) (e : Event) :
  filter (fun x => ev_id x =? eventId) (events db) = [e] ->
  ev_organizer_id e = u_id user \/ u_role user = admin ->
  ev_status e <> active \/ ev_total_votes e <= 0 ->
  let db' := snd (delete_event_route user eventId db) in
  fst (delete_event_route user eventId db)
  = Plain (respond 200 (MessageBody "Event deleted successfully"))
  /\ Forall (fun x => ev_id x <> eventId) (events db')
  /\ Forall (fun c => cat_event_id c <> eventId) (categories db')
  /\ Forall (fun c => forall g, In g (categories db) ->
                                cat_event_id g = eventId ->
                                cat_id g <> ct_category_id c)
            (contestants db')
  /\ Forall (fun v => v_event_id v <> eventId) (votes db')
  /\ Forall (fun p => p_event_id p <> eventId) (payments db')
  /\ withdrawals db' = withdrawals db
  /\ (Organizer.balance_of db' (ev_organizer_id e)
      == Organizer.balance_of db (ev_organizer_id e)
         - number_of_10_2 (ev_total_revenue e)
           * (1 - Organizer.commissionRate (single (platform_settings db))))%Q.
Proof.
  intros L O G db'.
  assert (E : delete_event_route user eventId db
              = (Plain (respond 200 (MessageBody "Event deleted successfully")),
                 delete_event eventId db)).
  { unfold delete_event_route.
    rewrite (entitled_is_let_through user eventId db e L O).
    cbn [behind]. rewrite L. cbn [single].
    assert (Gb : (event_status_out (ev_status e) =? "active")
                 && (0 <? ev_total_votes e)%Z = false).
    { destruct G as [G | G].
      - destruct (ev_status e); try reflexivity. contradiction.
      - apply andb_false_iff. right. apply Z.ltb_ge. exact G. }
    rewrite Gb. reflexivity. }
  unfold db'. rewrite E. cbn [fst snd].
  split; [reflexivity |].
  assert (Neq : forall a b : string, negb (a =? b) = true -> a <> b).
  { intros a b H. apply negb_true_iff in H. apply String.eqb_neq. exact H. }
  split.
  { apply Forall_forall. intros x H. cbn [delete_event events] in H.
    apply filter_In in H. apply Neq. tauto. }
  split.
  { apply Forall_forall. intros x H. cbn [delete_event categories] in H.
    apply filter_In in H. apply Neq. tauto. }
  split.
  { apply Forall_forall. intros c H. cbn [delete_event contestants] in H.
    apply filter_In in H. destruct H as [_ H].
    apply negb_true_iff in H. intros g Hg Eg Ec.
    assert (X : existsb (fun g => (cat_event_id g =? eventId)
                                  && (cat_id g =? ct_category_id c))
                  (categories db) = true).
    { apply existsb_exists. exists g. split; [exact Hg |].
      apply andb_true_iff. split; apply String.eqb_eq; assumption. }
    congruence. }
  split.
  { apply Forall_forall. intros v H. cbn [delete_event votes] in H.
    apply filter_In in H. destruct H as [_ H].
    apply andb_true_iff in H. apply Neq. tauto. }
  split.
  { apply Forall_forall. intros p H. cbn [delete_event payments] in H.
    apply filter_In in H. destruct H as [_ H].
    apply andb_true_iff in H. apply Neq. tauto. }
  split; [reflexivity |].
  unfold Organizer.balance_of, Organizer.withdrawableAmount.
  cbn [delete_event events platform_settings withdrawals].
  set (mine := fun x => ev_organizer_id x =? ev_organizer_id e).
  rewrite (sum_of_partition (fun x => number_of_10_2 (ev_total_revenue x))
             (fun x => ev_id x =? eventId) (filter mine (events db))).
  rewrite (filter_comm (fun x => negb (ev_id x =? eventId)) mine).
  rewrite (filter_comm (fun x => ev_id x =? eventId) mine), L.
  assert (M : filter mine [e] = [e])
    by (cbn [filter]; unfold mine; rewrite String.eqb_refl; reflexivity).
  rewrite M, sum_of_cons, sum_of_nil. ring.
Qed.

Lemma deleting_event_erases_its_records_witness :
  let owner :=
    {| u_id := "organizer-1"; u_role := organizer;
       u_organizer_status := Some approved |} in
  let ended_ := snd (handle (End_ owner "event-1") Sample.db_voted) in
  let db' := snd (delete_event_route owner "event-1" ended_) in
  votes ended_ = [Sample.vote1]
  /\ votes db' = []
  /\ (Organizer.balance_of ended_ "organizer-1" == 475 # 100)%Q
  /\ (Organizer.balance_of db' "organizer-1" == 0)%Q.
Proof.
  cbv zeta. split; [reflexivity |]. split; [reflexivity |].
  split; [reflexivity |].
  destruct (deleting_event_erases_its_records
              {| u_id := "organizer-1"; u_role := organizer;
                 u_organizer_status := Some approved |} "event-1"
              (snd (handle (End_ {| u_id := "organizer-1"; u_role := organizer;
                                    u_organizer_status := Some approved |}
                              "event-1") Sample.db_voted))
              (patched {| set_title := None; set_vote_price := None;
                          set_start_date := None; set_end_date := None;
                          set_event_status := Some ended |}
                 (VoteCommit.credited 1 500 Sample.event1)))
    as (_ & _ & _ & _ & _ & _ & _ & B).
  - reflexivity.
  - left. reflexivity.
  - left. discriminate.
  - cbv zeta in B. rewrite B. reflexivity.
Defined.

End EventLife.

(** ** Contestants and their votes *)

Section ContestantsAndVotes.
Import Schema Store Http Replies Users Contestants Ledger.
Open Scope Z_scope.
Open Scope string_scope.

Lemma filter_all {A : Type} (q : A -> bool) (l : list A) :
  (forall x, In x l -> q x = true) -> filter q l = l.
Proof.
  induction l as [| x l IH]; intro H; cbn [filter]; [reflexivity |].
  rewrite (H x (or_introl eq_refl)). f_equal.
  apply IH. intros y Hy. apply H. right. exact Hy.
Qed.

(** X29: a contestant that has votes is neither renamed nor deleted, and a
    deletion never takes a vote with it.  PUT and DELETE /:id leave the store
    as it is when the contestant's count is above zero, whoever calls.  When
    the counters say what the votes table holds, a DELETE that goes through
    removes no vote (the contestant had none); what the cascade does take
    along are the payments that reference the contestant, whatever their
    status. *)
Theorem contestant_with_votes_is_kept (user : User) (contestantId : uuid)
    (db : DB) :
  (forall c name,
     filter (fun x => ct_id x =? contestantId) (contestants db) = [c] ->
     (0 < ct_vote_count c)%Z ->
     snd (update_contestant user contestantId name db) = db
     /\ snd (delete_contestant_route user contestantId db) = db)
  /\ (consistent db ->
      votes (snd (delete_contestant_route user contestantId db)) = votes db)
  /\ (snd (delete_contestant_route user contestantId db) <> db ->
      payments (snd (delete_contestant_route user contestantId db))
      = filter (fun p => negb (p_contestant_id p =? contestantId))
               (payments db)
      /\ Forall (fun c => ct_id c <> contestantId)
                (contestants (snd (delete_contestant_route user contestantId db)))).
Proof.
  split; [| split].
  - intros c name L P.
    unfold update_contestant, delete_contestant_route.
    split;
      match goal with
      | |- context [behind ?m ?a ?h db] =>
          destruct (behind_cases m a h db) as [(response & _ & E) | [_ E]];
          rewrite E; clear E; [reflexivity |]
      end.
    + destruct (negb _); [reflexivity |].
      rewrite L. cbn [single].
      apply Z.ltb_lt in P. rewrite P. reflexivity.
    + rewrite L. cbn [single].
      apply Z.ltb_lt in P. rewrite P. reflexivity.
  - intros [HC _]. unfold delete_contestant_route.
    match goal with
    | |- context [behind ?m ?a ?h db] =>
        destruct (behind_cases m a h db) as [(response & _ & E) | [_ E]];
        rewrite E; clear E; [reflexivity |]
    end.
    destruct (single _) as [c |] eqn:S; [| reflexivity].
    destruct (0 <? ct_vote_count c)%Z eqn:P; [reflexivity |].
    apply Z.ltb_ge in P.
    cbn [snd delete_contestant votes].
    pose proof (single_data _ _ S) as L.
    assert (In c (filter (fun x => ct_id x =? contestantId) (contestants db)))
      as Hc by (rewrite L; left; reflexivity).
    apply filter_In in Hc. destruct Hc as [Hc Ec].
    apply String.eqb_eq in Ec.
    rewrite Forall_forall in HC. pose proof (HC c Hc) as N.
    rewrite N in P.
    assert (Z : votes_of_contestant (ct_id c) (votes db) = []).
    { destruct (votes_of_contestant (ct_id c) (votes db)); [reflexivity |].
      cbn [List.length] in P. lia. }
    apply filter_all. intros v Hv. apply negb_true_iff.
    apply not_true_is_false. intro X. apply String.eqb_eq in X.
    assert (In v (votes_of_contestant (ct_id c) (votes db))) as Hin.
    { apply filter_In. split; [exact Hv |].
      apply String.eqb_eq. congruence. }
    rewrite Z in Hin. exact Hin.
  - unfold delete_contestant_route.
    match goal with
    | |- context [behind ?m ?a ?h db] =>
        destruct (behind_cases m a h db) as [(response & _ & E) | [_ E]];
        rewrite E; clear E; [intro N; exfalso; apply N; reflexivity |]
    end.
    destruct (single _) as [c |]; [| intro N; exfalso; apply N; reflexivity].
    destruct (0 <? ct_vote_count c)%Z;
      [intro N; exfalso; apply N; reflexivity |].
    intros _. cbn [snd delete_contestant payments contestants].
    split; [reflexivity |].
    apply Forall_forall. intros x H. apply filter_In in H. destruct H as [_ H].
    apply negb_true_iff in H. apply String.eqb_neq. exact H.
Qed.

Lemma contestant_with_votes_is_kept_witness :
  let owner :=
    {| u_id := "organizer-1"; u_role := organizer;
       u_organizer_status := Some approved |} in
  snd (delete_contestant_route owner "contestant-1" Sample.db_voted)
  = Sample.db_voted
  /\ payments (snd (delete_contestant_route owner "contestant-1"
                      Sample.db_pending)) = [].
Proof.
  cbv zeta.
  destruct (contestant_with_votes_is_kept
              {| u_id := "organizer-1"; u_role := organizer;
                 u_organizer_status := Some approved |} "contestant-1"
              Sample.db_voted) as [K _].
  destruct (K (VoteCommit.counted 1 Sample.contestant1) None eq_refl)
    as [_ D]; [cbn; lia |].
  split; [exact D | reflexivity].
Defined.

End ContestantsAndVotes.

(** ** Roles and approval *)

Section RolesAndApproval.
Import Schema Store Http Replies Users Accounts.
Open Scope string_scope.

Lemma update_user_unique (userId : uuid) (set : UserPatch) (users : list User)
    (u : User) :
  filter (fun x => u_id x =? userId) users = [u] ->
  fst (update_user userId set users) = Data (patched_user set u)
  /\ filter (fun x => u_id x =? userId) (snd (update_user userId set users))
     = [patched_user set u].
Proof.
  intro L. unfold update_user. cbn [fst snd]. rewrite L. cbn [map single].
  split; [reflexivity |].
  rewrite filter_map_keep
    by (intro x; destruct (u_id x =? userId) eqn:E; cbn; rewrite E;
        reflexivity).
  rewrite L. cbn [map]. 
  assert (Hu : (u_id u =? userId) = true).
  { assert (In u (filter (fun x => u_id x =? userId) users)) as H
      by (rewrite L; left; reflexivity).
    apply filter_In in H. tauto. }
  rewrite Hu. reflexivity.
Qed.

(** X30: an organizer works only once approved, and while approved.  A voter
    who asks for the organizer role becomes an organizer whose status is
    pending, and [requireApprovedOrganizer] refuses that profile with 403;
    after an admin's PUT with status "approved" the middleware lets the
    profile through; after the admin's DELETE (which blocks the user instead
    of deleting) it refuses again.  The admin's own role survives the admin's
    PUT and DELETE on their own id; it does not survive their own
    POST /request-organizer, which has no such guard. *)
Theorem organizer_needs_approval (u a : User) (users : list User) :
  filter (fun x => u_id x =? u_id u) users = [u] ->
  u_role u = voter ->
  u_role a = admin ->
  (u_id u =? u_id a) = false ->
  let users1 := snd (request_organizer u users) in
  let users2 := snd (put_user a (u_id u) None (Some "approved") users1) in
  let users3 := snd (delete_user a (u_id u) users2) in
  (exists u1,
     filter (fun x => u_id x =? u_id u) users1 = [u1]
     /\ u_role u1 = organizer
     /\ u_organizer_status u1 = Some awaiting
     /\ requireApprovedOrganizer (Some u1)
        = Some (respond 403 (ErrorBody "Organizer approval required")))
  /\ (exists u2,
        filter (fun x => u_id x =? u_id u) users2 = [u2]
        /\ requireApprovedOrganizer (Some u2) = None)
  /\ (exists u3,
        filter (fun x => u_id x =? u_id u) users3 = [u3]
        /\ requireApprovedOrganizer (Some u3)
           = Some (respond 403 (ErrorBody "Organizer approval required")))
  /\ (forall role status table,
        Forall (fun x => u_id x = u_id a -> u_role x = admin) table ->
        Forall (fun x => u_id x = u_id a -> u_role x = admin)
               (snd (put_user a (u_id a) role status table))
        /\ snd (delete_user a (u_id a) table) = table)
  /\ (forall table,
        filter (fun x => u_id x =? u_id a) table = [a] ->
        filter (fun x => u_id x =? u_id a) (snd (request_organizer a table))
        = [{| u_id := u_id a; u_role := organizer;
              u_organizer_status := Some awaiting |}]).
Proof.
  intros L V A N users1 users2 users3.
  assert (E1 : filter (fun x => u_id x =? u_id u) users1
               = [patched_user {| set_role := Some organizer;
                                  set_organizer_status := Some awaiting |} u]).
  { unfold users1, request_organizer. rewrite V. cbn [user_role_out].
    change ("voter" =? "organizer") with false. cbn iota.
    destruct (update_user_unique (u_id u)
                {| set_role := Some organizer;
                   set_organizer_status := Some awaiting |} users u L)
      as [F S].
    destruct (update_user _ _ users) as [[x | m] t]; cbn [fst snd] in *;
      exact S. }
  assert (Ra : requireRole ["admin"] (Some a) = None).
  { unfold requireRole. rewrite A. reflexivity. }
  assert (E2 : filter (fun x => u_id x =? u_id u) users2
               = [patched_user {| set_role := None;
                                  set_organizer_status := Some approved |}
                    (patched_user {| set_role := Some organizer;
                                     set_organizer_status := Some awaiting |}
                       u)]).
  { unfold users2, put_user. rewrite Ra.
    cbn [optional_in andb negb JS.includes existsb truthy].
    change ("approved" =? "pending") with false.
    change ("approved" =? "approved") with true.
    cbn [orb negb]. rewrite N. cbn [andb].
    change (organizer_status_in "approved") with (Some approved).
    destruct (update_user_unique (u_id u)
                {| set_role := None; set_organizer_status := Some approved |}
                users1 _ E1) as [F S].
    destruct (update_user _ _ users1) as [[x | m] t]; cbn [fst snd] in *;
      exact S. }
  assert (E3 : filter (fun x => u_id x =? u_id u) users3
               = [patched_user {| set_role := None;
                                  set_organizer_status := Some blocked |}
                    (patched_user {| set_role := None;
                                     set_organizer_status := Some approved |}
                       (patched_user
                          {| set_role := Some organizer;
                             set_organizer_status := Some awaiting |} u))]).
  { unfold users3, delete_user. rewrite Ra, N.
    destruct (update_user_unique (u_id u)
                {| set_role := None; set_organizer_status := Some blocked |}
                users2 _ E2) as [F S].
    destruct (update_user _ _ users2) as [[x | m] t]; cbn [fst snd] in *;
      exact S. }
  split; [eexists; split; [exact E1 | repeat split] |].
  split; [eexists; split; [exact E2 | reflexivity] |].
  split; [eexists; split; [exact E3 | reflexivity] |].
  split.
  - intros role status table F. split.
    + unfold put_user. rewrite Ra.
      destruct (negb _); [exact F |].
      rewrite String.eqb_refl. cbn [andb].
      destruct role as [[| c r] |]; cbn [truthy andb negb].
      * (* the empty label *)
        match goal with
        | |- context [update_user ?i ?s table] =>
            destruct (update_user i s table) as [[x | m] t] eqn:U;
            assert (T : t = snd (update_user i s table)) by (rewrite U; reflexivity)
        end; cbn [snd]; rewrite T; cbn [update_user snd];
          apply Forall_map; (eapply Forall_impl; [| exact F]);
          intros y H; destruct (u_id y =? u_id a) eqn:Y; cbn; auto.
      * destruct (String c r =? "admin") eqn:Ad; cbn [negb];
          [| exact F].
        apply String.eqb_eq in Ad. rewrite Ad.
        change (user_role_in "admin") with (Some admin).
        match goal with
        | |- context [update_user ?i ?s table] =>
            destruct (update_user i s table) as [[x | m] t] eqn:U;
            assert (T : t = snd (update_user i s table)) by (rewrite U; reflexivity)
        end; cbn [snd]; rewrite T; cbn [update_user snd];
          apply Forall_map; (eapply Forall_impl; [| exact F]);
          intros y H; destruct (u_id y =? u_id a) eqn:Y; cbn; auto.
      * match goal with
        | |- context [update_user ?i ?s table] =>
            destruct (update_user i s table) as [[x | m] t] eqn:U;
            assert (T : t = snd (update_user i s table)) by (rewrite U; reflexivity)
        end; cbn [snd]; rewrite T; cbn [update_user snd];
          apply Forall_map; (eapply Forall_impl; [| exact F]);
          intros y H; destruct (u_id y =? u_id a) eqn:Y; cbn; auto.
    + unfold delete_user. rewrite Ra, String.eqb_refl. reflexivity.
  - intros table La. unfold request_organizer. rewrite A. cbn [user_role_out].
    change ("admin" =? "organizer") with false. cbn iota.
    destruct (update_user_unique (u_id a)
                {| set_role := Some organizer;
                   set_organizer_status := Some awaiting |} table a La)
      as [F S].
    destruct (update_user _ _ table) as [[x | m] t]; cbn [fst snd] in *;
      exact S.
Qed.

Lemma organizer_needs_approval_witness :
  let u := {| u_id := "user-1"; u_role := voter; u_organizer_status := Some awaiting |} in
  let a := {| u_id := "admin-1"; u_role := admin; u_organizer_status := None |} in
  let users1 := snd (request_organizer u [u; a]) in
  exists u1,
    filter (fun x => u_id x =? "user-1") users1 = [u1]
    /\ u_role u1 = organizer
    /\ requireApprovedOrganizer (Some u1)
       = Some (respond 403 (ErrorBody "Organizer approval required")).
Proof.
  cbv zeta.
  destruct (organizer_needs_approval
              {| u_id := "user-1"; u_role := voter;
                 u_organizer_status := Some awaiting |}
              {| u_id := "admin-1"; u_role := admin;
                 u_organizer_status := None |}
              [{| u_id := "user-1"; u_role := voter;
                  u_organizer_status := Some awaiting |};
               {| u_id := "admin-1"; u_role := admin;
                  u_organizer_status := None |}]
              eq_refl eq_refl eq_refl eq_refl)
    as ((u1 & F & R & _ & Q) & _).
  exists u1. repeat split; assumption.
Defined.

End RolesAndApproval.
